(** * InvoiceTaxApp: the invoice ledger and the PDF extractor, embedded in Rocq

    The development follows the two core modules of the application:
    [calculator-py.py] (class [BusinessTaxCalculator]) and
    [pdf-extractor-py.py] (class [PdfInvoiceExtractor]).

    Conventions of the embedding.
    - Python [int] is [Z]; Python [float] is the kernel's binary64 [float].
    - Python [str] is [string], the UTF-8 bytes of the text; [Unicode] reads
      the code points off the bytes and tells which are decimal digits and
      which are white space (Unicode 14.0, the database of CPython 3.11).
    - A Python call that may raise returns a [result]: [Ok v] or [Raise e].
      [try ... except] is [try_except], with the classes the clause names.
    - [print] output is not part of the model. *)

From Stdlib Require Import ZArith List String Ascii Bool Lia Floats Eqdep_dec.
From Stdlib Require Import DecimalString Permutation Sorted.
Import ListNotations.

Set Warnings "-inexact-float,-register-all".

Local Open Scope string_scope.
Local Open Scope Z_scope.

(** ** Python run-time: exceptions *)

Module Py.

(** The exception classes the two modules can meet. *)
Inductive exn_class : Set :=
  | ValueError
  | JSONDecodeError      (* subclass of ValueError *)
  | KeyError
  | IndexError
  | TypeError
  | AttributeError
  | OverflowError
  | UnboundLocalError
  | ZeroDivisionError
  | StopIteration
  | OSError
  | FileNotFoundError    (* subclass of OSError *)
  | FileExistsError      (* subclass of OSError *)
  | RecursionError
  | PDFSyntaxError.      (* what the PDF library raises on a corrupt document *)

(** An exception object: its class and its message ([str(e)]).  The text of
    messages raised inside the standard library is abbreviated. *)
Inductive exn : Set := Exn (c : exn_class) (msg : string).

Definition class_of (e : exn) : exn_class := let 'Exn c _ := e in c.
Definition str_exn (e : exn) : string := let 'Exn _ m := e in m.

Definition exn_class_eqb (a b : exn_class) : bool :=
  match a, b with
  | ValueError, ValueError | JSONDecodeError, JSONDecodeError
  | KeyError, KeyError | IndexError, IndexError | TypeError, TypeError
  | AttributeError, AttributeError | OverflowError, OverflowError
  | UnboundLocalError, UnboundLocalError | StopIteration, StopIteration
  | ZeroDivisionError, ZeroDivisionError
  | OSError, OSError | FileNotFoundError, FileNotFoundError
  | FileExistsError, FileExistsError | RecursionError, RecursionError
  | PDFSyntaxError, PDFSyntaxError => true
  | _, _ => false
  end.

(** [issubclass c base] for the classes above. *)
Definition issubclass (c base : exn_class) : bool :=
  exn_class_eqb c base ||
  match c, base with
  | JSONDecodeError, ValueError => true
  | FileNotFoundError, OSError | FileExistsError, OSError => true
  | _, _ => false
  end.

(** [except (c1, c2, ...)]: does the clause catch [e]? *)
Definition caught_by (classes : list exn_class) (e : exn) : bool :=
  existsb (issubclass (class_of e)) classes.

(** [except Exception]: every class above derives from [Exception]. *)
Definition is_Exception (e : exn) : bool := true.

Inductive result (A : Type) : Type :=
  | Ok (a : A)
  | Raise (e : exn).
Arguments Ok {A} a.
Arguments Raise {A} e.

Definition bind {A B} (c : result A) (k : A -> result B) : result B :=
  match c with
  | Ok a => k a
  | Raise e => Raise e
  end.

Definition try_except {A} (body : result A) (catches : exn -> bool)
    (handler : exn -> result A) : result A :=
  match body with
  | Ok a => Ok a
  | Raise e => if catches e then handler e else Raise e
  end.

(** The call raised (an exception left the callee). *)
Definition raises {A} (r : result A) : Prop :=
  match r with Ok _ => False | Raise _ => True end.

(** The call raised an exception of class [c] (or of a subclass). *)
Definition raises_class {A} (c : exn_class) (r : result A) : Prop :=
  match r with Ok _ => False | Raise e => issubclass (class_of e) c = true end.

End Py.
Export Py.

Declare Scope py_scope.
Delimit Scope py_scope with py.
Notation "x <- c ;; k" := (bind c (fun x => k))
  (at level 61, c at next level, right associativity) : py_scope.
Notation "' pat <- c ;; k" := (bind c (fun x => match x with pat => k end))
  (at level 61, pat pattern, c at next level, right associativity) : py_scope.
Local Open Scope py_scope.

(** ** Python run-time: the characters of a text *)

Module Unicode.

Local Open Scope N_scope.

Definition byte (c : ascii) : N := N_of_ascii c.

(** A continuation byte of UTF-8. *)
Definition continues (c : ascii) : bool :=
  (128 <=? byte c) && (byte c <? 192).

(** The code point of a sequence of two, three and four bytes. *)
Definition two (b0 b1 : ascii) : N :=
  (byte b0 - 192) * 64 + (byte b1 - 128).
Definition three (b0 b1 b2 : ascii) : N :=
  ((byte b0 - 224) * 64 + (byte b1 - 128)) * 64 + (byte b2 - 128).
Definition four (b0 b1 b2 b3 : ascii) : N :=
  (((byte b0 - 240) * 64 + (byte b1 - 128)) * 64 + (byte b2 - 128)) * 64
  + (byte b3 - 128).

(** The first character of a text: its code point, its bytes and the text
    after it.  A byte that starts no well-formed sequence of UTF-8 (the
    bytes of a [str] have none) stands for U+FFFD. *)
Definition first (s : string) : option (N * string * string) :=
  match s with
  | EmptyString => None
  | String b0 r0 =>
      let stray := Some (65533, String b0 EmptyString, r0) in
      if byte b0 <? 128 then Some (byte b0, String b0 EmptyString, r0)
      else if (194 <=? byte b0) && (byte b0 <? 224) then
        match r0 with
        | String b1 r1 =>
            if continues b1
            then Some (two b0 b1, String b0 (String b1 EmptyString), r1)
            else stray
        | _ => stray
        end
      else if (224 <=? byte b0) && (byte b0 <? 240) then
        match r0 with
        | String b1 (String b2 r2) =>
            if continues b1 && continues b2 && (2048 <=? three b0 b1 b2)
            then Some (three b0 b1 b2,
                       String b0 (String b1 (String b2 EmptyString)), r2)
            else stray
        | _ => stray
        end
      else if (240 <=? byte b0) && (byte b0 <? 245) then
        match r0 with
        | String b1 (String b2 (String b3 r3)) =>
            if continues b1 && continues b2 && continues b3
               && (65536 <=? four b0 b1 b2 b3)
               && (four b0 b1 b2 b3 <? 1114112)
            then Some (four b0 b1 b2 b3,
                       String b0 (String b1 (String b2 (String b3 EmptyString))),
                       r3)
            else stray
        | _ => stray
        end
      else stray
  end.

(** The characters of [s] from its first byte on, after [skip] bytes that
    belong to the character before. *)
Fixpoint characters_from (s : string) (skip : nat) : list (N * string) :=
  match s with
  | EmptyString => []
  | String _ r =>
      match skip with
      | S k => characters_from r k
      | O =>
          match first s with
          | Some (cp, bytes, _) =>
              (cp, bytes) :: characters_from r (String.length bytes - 1)%nat
          | None => []
          end
      end
  end.

(** The characters of a text, each with its bytes. *)
Definition characters (s : string) : list (N * string) :=
  characters_from s 0.

(** The pieces of a text, put together. *)
Definition join (l : list string) : string :=
  fold_right append EmptyString l.

(** The text of a list of characters. *)
Definition text (l : list (N * string)) : string := join (map snd l).

(** The code points of the digit zero of each script: the decimal digits
    (category Nd) are the ten code points from each of them on. *)
Definition zero_digits : list N :=
  [48; 1632; 1776; 1984; 2406; 2534; 2662; 2790; 2918; 3046; 3174; 3302;
   3430; 3558; 3664; 3792; 3872; 4160; 4240; 6112; 6160; 6470; 6608; 6784;
   6800; 6992; 7088; 7232; 7248; 42528; 43216; 43264; 43472; 43504; 43600;
   44016; 65296; 66720; 68912; 69734; 69872; 69942; 70096; 70384; 70736;
   70864; 71248; 71360; 71472; 71904; 72016; 72784; 73040; 73120; 92768;
   92864; 93008; 120782; 120792; 120802; 120812; 120822; 123200; 123632;
   125264; 130032].

(** [Py_UNICODE_TODECIMAL] *)
Definition decimal (cp : N) : option N :=
  match find (fun z => (z <=? cp) && (cp <? z + 10)) zero_digits with
  | Some z => Some (cp - z)
  | None => None
  end.

Definition is_decimal (cp : N) : bool :=
  match decimal cp with Some _ => true | None => false end.

(** [Py_UNICODE_ISSPACE], which is [str.isspace] on one character. *)
Definition is_space (cp : N) : bool :=
  ((9 <=? cp) && (cp <=? 13)) || ((28 <=? cp) && (cp <=? 32))
  || (cp =? 133) || (cp =? 160) || (cp =? 5760)
  || ((8192 <=? cp) && (cp <=? 8202))
  || (cp =? 8232) || (cp =? 8233) || (cp =? 8239) || (cp =? 8287)
  || (cp =? 12288).

(** What [int()] and [float()] make of a character before they parse: a
    character below U+007F stays, white space becomes a space, a decimal
    digit its ASCII digit, anything else a question mark. *)
Definition to_ascii (c : N * string) : string :=
  let (cp, bytes) := c in
  if cp <? 127 then bytes
  else if is_space cp then " "%string
  else match decimal cp with
       | Some d => String (ascii_of_N (48 + d)) EmptyString
       | None => "?"%string
       end.

(** [_PyUnicode_TransformDecimalAndSpaceToASCII] *)
Definition transform (s : string) : string :=
  join (map to_ascii (characters s)).

(** Every byte of the text is an ASCII character. *)
Fixpoint is_ascii (s : string) : bool :=
  match s with
  | EmptyString => true
  | String c r => (byte c <? 128) && is_ascii r
  end.

End Unicode.

(** ** Python run-time: strings *)

Module Str.

Definition code (c : ascii) : nat := nat_of_ascii c.

Definition is_digit (c : ascii) : bool :=
  (48 <=? code c)%nat && (code c <=? 57)%nat.

(** [str.lower] on the ASCII letters.  The letters outside ASCII are left
    as they are: the lowered texts are only searched for ASCII words
    (invoice, date, remittance advice, ...), and no character outside ASCII
    has a lower case that can take part in a match of one of them. *)
Definition lower_char (c : ascii) : ascii :=
  if (65 <=? code c)%nat && (code c <=? 90)%nat
  then ascii_of_nat (code c + 32) else c.

Fixpoint lower (s : string) : string :=
  match s with
  | EmptyString => EmptyString
  | String c s' => String (lower_char c) (lower s')
  end.

(** [s.strip()]: the white space of Unicode is dropped at both ends. *)
Fixpoint lstrip (l : list (N * string)) : list (N * string) :=
  match l with
  | c :: r => if Unicode.is_space (fst c) then lstrip r else l
  | [] => []
  end.

Definition rstrip (l : list (N * string)) : list (N * string) :=
  rev (lstrip (rev l)).

Definition strip (s : string) : string :=
  Unicode.text (rstrip (lstrip (Unicode.characters s))).

(** [needle in hay] *)
Fixpoint contains (needle hay : string) : bool :=
  String.prefix needle hay ||
  match hay with
  | EmptyString => false
  | String _ hay' => contains needle hay'
  end.

Fixpoint contains_char (c : ascii) (s : string) : bool :=
  match s with
  | EmptyString => false
  | String c' s' => Ascii.eqb c c' || contains_char c s'
  end.

(** [s.split(sep)] for a one-character separator: always at least one part. *)
Fixpoint split (sep : ascii) (s : string) : list string :=
  match s with
  | EmptyString => [EmptyString]
  | String c s' =>
      if Ascii.eqb c sep then EmptyString :: split sep s'
      else match split sep s' with
           | p :: ps => String c p :: ps
           | [] => [String c EmptyString]
           end
  end.

Fixpoint filter (f : ascii -> bool) (s : string) : string :=
  match s with
  | EmptyString => EmptyString
  | String c s' => if f c then String c (filter f s') else filter f s'
  end.

Fixpoint repeat_char (c : ascii) (n : nat) : string :=
  match n with
  | O => EmptyString
  | S n' => String c (repeat_char c n')
  end.

(** [str(n)] for an int. *)
Definition of_Z (n : Z) : string := NilZero.string_of_int (Z.to_int n).

(** [format(n, '0<width>d')] for a non-negative int: zero-padded on the left,
    never truncated. *)
Definition zero_pad (width : nat) (n : Z) : string :=
  let s := of_Z n in
  repeat_char "0" (width - String.length s) ++ s.

Definition digit_val (c : ascii) : Z := Z.of_nat (code c) - 48.

(** The body of an int literal after the sign: digits, single underscores
    allowed between digits.  [prev_digit] tells whether the previous
    character was a digit ([false] at the start). *)
Fixpoint int_body (s : string) (acc : Z) (prev_digit : bool) : option Z :=
  match s with
  | EmptyString => if prev_digit then Some acc else None
  | String c s' =>
      if is_digit c then int_body s' (10 * acc + digit_val c) true
      else if Ascii.eqb c "_" && prev_digit then
             match s' with
             | String c' _ => if is_digit c' then int_body s' acc false else None
             | EmptyString => None
             end
      else None
  end.

(** The whitespace [int()] and [float()] skip around a literal is C's
    [isspace]: tab, newline, VT, FF, CR and space. *)
Definition is_c_space (c : ascii) : bool :=
  ((9 <=? code c)%nat && (code c <=? 13)%nat) || (code c =? 32)%nat.

Fixpoint lskip (s : string) : string :=
  match s with
  | String c s' => if is_c_space c then lskip s' else s
  | EmptyString => EmptyString
  end.

Fixpoint rskip (s : string) : string :=
  match s with
  | EmptyString => EmptyString
  | String c s' =>
      match rskip s' with
      | EmptyString => if is_c_space c then EmptyString else String c EmptyString
      | r => String c r
      end
  end.

(** The most digits [int()] reads (sys.int_info.default_max_str_digits). *)
Definition max_str_digits : nat := 4300.

(** [int(s)] for a string: the text is first brought to ASCII; white space
    around the literal is ignored, a sign is allowed, anything else raises
    ValueError, and so does a literal of more than 4300 digits. *)
Definition to_int (s : string) : result Z :=
  let bad := Raise (Exn ValueError "invalid literal for int() with base 10") in
  let read (body : string) (sign : Z) : result Z :=
    match int_body body 0 false with
    | Some n =>
        if (String.length (filter is_digit body) <=? max_str_digits)%nat
        then Ok (sign * n)
        else Raise (Exn ValueError
                      "Exceeds the limit (4300 digits) for integer string conversion")
    | None => bad
    end in
  match rskip (lskip (Unicode.transform s)) with
  | String "-" s' => read s' (-1)
  | String "+" s' => read s' 1
  | s' => read s' 1
  end.

End Str.


(** ** Python run-time: [datetime.date] and [calendar] *)

Module Date.

Definition MINYEAR : Z := 1.
Definition MAXYEAR : Z := 9999.

(** [calendar.isleap] *)
Definition isleap (y : Z) : bool :=
  (y mod 4 =? 0) && (negb (y mod 100 =? 0) || (y mod 400 =? 0)).

(** Days of month [m] (1..12) in year [y]. *)
Definition days_in_month (y m : Z) : Z :=
  if m =? 2 then (if isleap y then 29 else 28)
  else if (m =? 4) || (m =? 6) || (m =? 9) || (m =? 11) then 30
  else 31.

Definition valid (y m d : Z) : bool :=
  (MINYEAR <=? y) && (y <=? MAXYEAR) &&
  (1 <=? m) && (m <=? 12) &&
  (1 <=? d) && (d <=? days_in_month y m).

(** A [datetime.date] object: the constructor admits valid dates only. *)
Record date : Set := Build {
  year : Z;
  month : Z;
  day : Z;
  wf : valid year month day = true
}.

(** The ValueError [datetime.date(y, m, d)] raises, by the first check that
    fails. *)
Definition range_error (y m d : Z) : exn :=
  if negb ((MINYEAR <=? y) && (y <=? MAXYEAR))
  then Exn ValueError "year is out of range"
  else if negb ((1 <=? m) && (m <=? 12))
  then Exn ValueError "month must be in 1..12"
  else Exn ValueError "day is out of range for month".

(** The arguments of [datetime.date] are read as C ints. *)
Definition INT_MIN : Z := -2147483648.
Definition INT_MAX : Z := 2147483647.

Definition fits_int (z : Z) : bool := (INT_MIN <=? z) && (z <=? INT_MAX).

(** [datetime.date(y, m, d)]: an argument that is no C int raises
    OverflowError before any range is looked at. *)
Definition make (y m d : Z) : result date :=
  if fits_int y && fits_int m && fits_int d then
    match bool_dec (valid y m d) true with
    | left H => Ok (Build y m d H)
    | right _ => Raise (range_error y m d)
    end
  else Raise (Exn OverflowError "signed integer is out of the range of a C int").

(** [calendar.monthrange(year, month)[1]]: the number of days of the month.
    An illegal month raises (IllegalMonthError derives from ValueError); any
    int is accepted as the year. *)
Definition monthrange_days (y m : Z) : result Z :=
  if (1 <=? m) && (m <=? 12) then Ok (days_in_month y m)
  else Raise (Exn ValueError "bad month number; must be 1-12").

(** [a <= b] on dates: the order of (year, month, day). *)
Definition leb (a b : date) : bool :=
  (year a <? year b) ||
  ((year a =? year b) &&
   ((month a <? month b) ||
    ((month a =? month b) && (day a <=? day b)))).

(** [d.isoformat()]: YYYY-MM-DD. *)
Definition isoformat (d : date) : string :=
  Str.zero_pad 4 (year d) ++ "-" ++ Str.zero_pad 2 (month d) ++ "-"
  ++ Str.zero_pad 2 (day d).

(** [d.strftime('%Y%m%d')].  The C library prints the year without padding;
    from year 1000 on the result has eight digits on every platform. *)
Definition strftime_Ymd (d : date) : string :=
  Str.of_Z (year d) ++ Str.zero_pad 2 (month d) ++ Str.zero_pad 2 (day d).

End Date.

(** ** Python run-time: [float] *)

Module Float.

Local Open Scope float_scope.

(** Python's [min(a, b)]: [b] replaces [a] only when [b < a]. *)
Definition min (a b : float) : float := if b <? a then b else a.

(** [a / b]: division by zero raises. *)
Definition div (a b : float) : result float :=
  if b =? 0 then Raise (Exn ZeroDivisionError "float division by zero")
  else Ok (a / b).

(** [float(n)] for an int: the nearest binary64, OverflowError beyond. *)
Definition of_int (n : Z) : result float :=
  let f := SF2Prim (binary_normalize prec emax n 0 false) in
  if is_infinity f
  then Raise (Exn OverflowError "int too large to convert to float")
  else Ok f.

(** The binary64 nearest to [(-1)^neg * m * 10^e] ([m >= 0]), ties to even. *)
Definition of_decimal (neg : bool) (m e : Z) : float :=
  if (m =? 0)%Z then (if neg then neg_zero else zero)
  else if (0 <=? e)%Z
  then SF2Prim (binary_normalize prec emax
                  ((if neg then -1 else 1) * m * 10 ^ e)%Z 0 false)
  else SF2Prim (SFdiv prec emax
                  (S754_finite neg (Z.to_pos m) 0)
                  (S754_finite false (Z.to_pos (10 ^ (- e))) 0)).


(** *** [float(s)] for a string *)

Definition starts_with_digit (s : string) : bool :=
  match s with
  | String c _ => Str.is_digit c
  | EmptyString => false
  end.

(** The longest run of digits at the head of [s], single underscores between
    digits dropped, and what follows it. *)
Fixpoint digits_run (s : string) (prev_digit : bool) : string * string :=
  match s with
  | EmptyString => (EmptyString, EmptyString)
  | String c s' =>
      if Str.is_digit c
      then let (d, r) := digits_run s' true in (String c d, r)
      else if Ascii.eqb c "_" && prev_digit && starts_with_digit s'
      then digits_run s' false
      else (EmptyString, s)
  end.

Fixpoint Z_of_digits (s : string) (acc : Z) : Z :=
  match s with
  | EmptyString => acc
  | String c s' => Z_of_digits s' (10 * acc + Str.digit_val c)%Z
  end.

(** The exponent part: empty, or [e]/[E], an optional sign and digits up to
    the end of the literal. *)
Definition parse_exponent (s : string) : option Z :=
  match s with
  | EmptyString => Some 0%Z
  | String c s' =>
      if Ascii.eqb c "e" || Ascii.eqb c "E" then
        let '(neg, body) :=
          match s' with
          | String "-" b => (true, b)
          | String "+" b => (false, b)
          | _ => (false, s')
          end in
        match digits_run body false with
        | (EmptyString, _) => None
        | (ds, EmptyString) =>
            Some (if neg then - Z_of_digits ds 0 else Z_of_digits ds 0)%Z
        | (_, String _ _) => None
        end
      else None
  end.

(** An unsigned decimal literal as mantissa and decimal exponent. *)
Definition parse_decimal (s : string) : option (Z * Z) :=
  let (ip, r1) := digits_run s false in
  let (fp, r2) :=
    match r1 with
    | String "." r => digits_run r false
    | _ => (EmptyString, r1)
    end in
  match (ip ++ fp)%string with
  | EmptyString => None
  | ds =>
      match parse_exponent r2 with
      | Some e => Some (Z_of_digits ds 0, e - Z.of_nat (String.length fp))%Z
      | None => None
      end
  end.

Definition of_string (s : string) : result float :=
  let '(neg, body) :=
    match Str.rskip (Str.lskip (Unicode.transform s)) with
    | String "-" b => (true, b)
    | String "+" b => (false, b)
    | b => (false, b)
    end in
  let l := Str.lower body in
  if String.eqb l "inf" || String.eqb l "infinity"
  then Ok (if neg then neg_infinity else infinity)
  else if String.eqb l "nan" then Ok nan
  else match parse_decimal body with
       | Some (m, e) => Ok (of_decimal neg m e)
       | None => Raise (Exn ValueError "could not convert string to float")
       end.

(** *** [format(x, '.2%')] *)

(** The integer nearest to [m * 2^e], ties to even. *)
Definition round_half_even (m e : Z) : Z :=
  if (0 <=? e)%Z then (m * 2 ^ e)%Z
  else
    let den := (2 ^ (- e))%Z in
    let q := (m / den)%Z in
    let r := (m mod den)%Z in
    match (2 * r ?= den)%Z with
    | Lt => q
    | Gt => (q + 1)%Z
    | Eq => if Z.even q then q else (q + 1)%Z
    end.

Definition format_percent2 (x : float) : string :=
  match Prim2SF (x * 100) with
  | S754_nan => "nan%"
  | S754_infinity s => ((if s then "-" else "") ++ "inf%")%string
  | S754_zero s => ((if s then "-" else "") ++ "0.00%")%string
  | S754_finite s m e =>
      let n := round_half_even (Zpos m * 100) e in
      ((if s then "-" else "") ++ Str.of_Z (n / 100) ++ "."
       ++ Str.zero_pad 2 (n mod 100) ++ "%")%string
  end.

End Float.

(** ** Python run-time: the objects [json.load] builds *)

Module Obj.

Inductive pyobj : Set :=
  | PyNone
  | PyBool (b : bool)
  | PyInt (n : Z)
  | PyFloat (f : float)
  | PyStr (s : string)
  | PyList (l : list pyobj)
  | PyDict (items : list (string * pyobj)).

Fixpoint lookup (k : string) (items : list (string * pyobj)) : option pyobj :=
  match items with
  | [] => None
  | (k', v) :: rest => if String.eqb k k' then Some v else lookup k rest
  end.

(** [d.get(k, default)]: only a dict has the method. *)
Definition get (d : pyobj) (k : string) (default : pyobj) : result pyobj :=
  match d with
  | PyDict items =>
      Ok (match lookup k items with Some v => v | None => default end)
  | _ => Raise (Exn AttributeError "object has no attribute 'get'")
  end.

(** [o[k]] with a str key. *)
Definition getitem (o : pyobj) (k : string) : result pyobj :=
  match o with
  | PyDict items =>
      match lookup k items with
      | Some v => Ok v
      | None => Raise (Exn KeyError k)
      end
  | PyStr _ | PyList _ =>
      Raise (Exn TypeError "indices must be integers or slices, not str")
  | _ => Raise (Exn TypeError "object is not subscriptable")
  end.

Fixpoint chars (s : string) : list pyobj :=
  match s with
  | EmptyString => []
  | String c s' => PyStr (String c EmptyString) :: chars s'
  end.

(** What [for x in o] ranges over. *)
Definition iter (o : pyobj) : result (list pyobj) :=
  match o with
  | PyList l => Ok l
  | PyDict items => Ok (map (fun kv => PyStr (fst kv)) items)
  | PyStr s => Ok (chars s)
  | _ => Raise (Exn TypeError "object is not iterable")
  end.

(** [o.split(sep)]: only a str has the method. *)
Definition split (o : pyobj) (sep : ascii) : result (list string) :=
  match o with
  | PyStr s => Ok (Str.split sep s)
  | _ => Raise (Exn AttributeError "object has no attribute 'split'")
  end.

(** [float(o)] *)
Definition to_float (o : pyobj) : result float :=
  match o with
  | PyFloat f => Ok f
  | PyInt n => Float.of_int n
  | PyBool b => Ok (if b then 1 else 0)%float
  | PyStr s => Float.of_string s
  | _ => Raise (Exn TypeError
                  "float() argument must be a string or a real number")
  end.

(** [x * o] for a float [x]. *)
Definition float_mul (x : float) (o : pyobj) : result float :=
  match o with
  | PyFloat f => Ok (x * f)%float
  | PyInt n => f <- Float.of_int n ;; Ok (x * f)%float
  | PyBool b => Ok (x * (if b then 1 else 0))%float
  | _ => Raise (Exn TypeError "unsupported operand type(s) for *")
  end.

End Obj.
Export Obj.

(** ** Files and the state-and-exception monad of the ledger *)

Module World.

(** The file a path holds: none; a file that cannot be opened for reading;
    text [json.load] rejects; text nested deeper than the parser can follow; or a JSON
    document (given as the object [json.load] returns for it; [json.dump]
    followed by [json.load] gives back the dumped object). *)
Inductive file : Set :=
  | Absent
  | Unreadable
  | Malformed
  | TooDeep
  | Document (data : pyobj).

(** The files; whether a path can be opened for writing; of the paths that
    hold no file, which are directories and which [os.makedirs] can
    create. *)
Record filesystem : Type := {
  files : string -> file;
  writable : string -> bool;
  dirs : string -> bool;
  creatable : string -> bool
}.

Definition write (fs : filesystem) (path : string) (data : pyobj) : filesystem :=
  {| files := fun p => if String.eqb p path then Document data else files fs p;
     writable := writable fs;
     dirs := dirs fs;
     creatable := creatable fs |}.

Definition is_file (fs : filesystem) (path : string) : bool :=
  match files fs path with Absent => false | _ => true end.

(** [os.path.exists] *)
Definition exists_ (fs : filesystem) (path : string) : bool :=
  is_file fs path || dirs fs path.

(** [json.load(open(path))] on an existing file. *)
Definition json_load (fs : filesystem) (path : string) : result pyobj :=
  match files fs path with
  | Document data => Ok data
  | Malformed => Raise (Exn JSONDecodeError "Expecting value")
  | TooDeep => Raise (Exn RecursionError "maximum recursion depth exceeded")
  | Unreadable => Raise (Exn OSError "Permission denied")
  | Absent => Raise (Exn OSError "Is a directory")
  end.

(** [above p path]: [p] is a directory on the way to [path]. *)
Definition above (p path : string) : bool :=
  negb (String.eqb p "") && String.prefix (p ++ "/") path.

(** The file system after [path] and the directories above it have been
    created. *)
Definition mkdir (fs : filesystem) (path : string) : filesystem :=
  {| files := files fs;
     writable := writable fs;
     dirs := fun p => String.eqb p path || above p path || dirs fs p;
     creatable := creatable fs |}.

(** [os.makedirs(path, exist_ok=True)]: the empty path and a path that
    names a file raise; a directory that is there is left alone; otherwise
    the directory is created when that is possible. *)
Definition makedirs (fs : filesystem) (path : string) : result filesystem :=
  match path with
  | EmptyString =>
      Raise (Exn FileNotFoundError "No such file or directory: ''")
  | _ =>
      if is_file fs path then Raise (Exn FileExistsError "File exists")
      else if dirs fs path then Ok fs
      else if creatable fs path then Ok (mkdir fs path)
      else Raise (Exn OSError "Permission denied")
  end.

(** [os.path.join(dir, name)] for a relative [name], POSIX style. *)
Definition path_join (dir name : string) : string :=
  match dir with
  | EmptyString => name
  | _ => if String.eqb (substring (String.length dir - 1) 1 dir) "/"
         then dir ++ name else dir ++ "/" ++ name
  end.

End World.
Export World.

Module Calculator.

(** [@dataclass class Invoice].  [description] and [invoice_id] are strings
    when they come from [add_invoice]; [load_invoices] stores whatever object
    the file holds for them. *)
Record Invoice : Set := {
  date : Date.date;
  amount : float;
  description : pyobj;
  invoice_id : pyobj
}.

(** The attributes of a [BusinessTaxCalculator] instance. *)
Record BusinessTaxCalculator : Set := {
  data_dir : string;
  data_file : string;
  fed_tax_rate : pyobj;
  state_tax_rate : pyobj;
  state_code : pyobj;
  invoices : list Invoice
}.

(** A method runs on the instance and the file system; an exception leaves
    both as they were when it was raised. *)
Record world : Type := { self : BusinessTaxCalculator; fs : filesystem }.

Definition M (A : Type) : Type := world -> result A * world.

Definition ret {A} (a : A) : M A := fun w => (Ok a, w).

Definition bindM {A B} (c : M A) (k : A -> M B) : M B :=
  fun w => match c w with
           | (Ok a, w') => k a w'
           | (Raise e, w') => (Raise e, w')
           end.

Definition lift {A} (r : result A) : M A := fun w => (r, w).

Definition try_exceptM {A} (body : M A) (catches : exn -> bool)
    (handler : exn -> M A) : M A :=
  fun w => match body w with
           | (Ok a, w') => (Ok a, w')
           | (Raise e, w') => if catches e then handler e w' else (Raise e, w')
           end.

Definition get_self : M BusinessTaxCalculator := fun w => (Ok (self w), w).

Definition update (f : BusinessTaxCalculator -> BusinessTaxCalculator) : M unit :=
  fun w => (Ok tt, {| self := f (self w); fs := fs w |}).

Declare Scope M_scope.
Delimit Scope M_scope with M.
Bind Scope M_scope with M.
Notation "x <- c ;; k" := (bindM c (fun x => k))
  (at level 61, c at next level, right associativity) : M_scope.
Notation "c ;; k" := (bindM c (fun _ => k))
  (at level 61, right associativity) : M_scope.

Definition set_invoices (l : list Invoice) (s : BusinessTaxCalculator) :=
  {| data_dir := data_dir s; data_file := data_file s;
     fed_tax_rate := fed_tax_rate s; state_tax_rate := state_tax_rate s;
     state_code := state_code s; invoices := l |}.

Definition set_fed_tax_rate (v : pyobj) (s : BusinessTaxCalculator) :=
  {| data_dir := data_dir s; data_file := data_file s;
     fed_tax_rate := v; state_tax_rate := state_tax_rate s;
     state_code := state_code s; invoices := invoices s |}.

Definition set_state_tax_rate (v : pyobj) (s : BusinessTaxCalculator) :=
  {| data_dir := data_dir s; data_file := data_file s;
     fed_tax_rate := fed_tax_rate s; state_tax_rate := v;
     state_code := state_code s; invoices := invoices s |}.

Definition set_state_code (v : pyobj) (s : BusinessTaxCalculator) :=
  {| data_dir := data_dir s; data_file := data_file s;
     fed_tax_rate := fed_tax_rate s; state_tax_rate := state_tax_rate s;
     state_code := v; invoices := invoices s |}.

(** [self.invoices.append(inv)] *)
Definition append_invoice (inv : Invoice) (s : BusinessTaxCalculator) :=
  set_invoices (invoices s ++ [inv]) s.

(** [l[i]] *)
Definition index {A} (l : list A) (i : nat) : result A :=
  match nth_error l i with
  | Some a => Ok a
  | None => Raise (Exn IndexError "list index out of range")
  end.

(** [[f(x) for x in l]] *)
Fixpoint comprehension {A B} (f : A -> result B) (l : list A) : result (list B) :=
  match l with
  | [] => Ok []
  | x :: rest =>
      y <- f x ;;
      ys <- comprehension f rest ;;
      Ok (y :: ys)
  end.

(** *** [load_invoices] *)

(** The [Invoice] the loop body builds from one entry of the file. *)
Definition invoice_of_entry (inv : pyobj) : result Invoice :=
  d <- getitem inv "date" ;;
  parts <- Obj.split d "-" ;;
  date_parts <- comprehension Str.to_int parts ;;
  y <- index date_parts 0 ;;
  m <- index date_parts 1 ;;
  dd <- index date_parts 2 ;;
  date <- Date.make y m dd ;;
  a <- getitem inv "amount" ;;
  amount <- to_float a ;;
  description <- getitem inv "description" ;;
  invoice_id <- getitem inv "invoice_id" ;;
  Ok {| date := date; amount := amount;
        description := description; invoice_id := invoice_id |}.

(** [for inv in ...: self.invoices.append(Invoice(...))] *)
Fixpoint load_loop (entries : list pyobj) : M unit :=
  match entries with
  | [] => ret tt
  | inv :: rest =>
      (i <- lift (invoice_of_entry inv) ;;
       update (append_invoice i) ;;
       load_loop rest)%M
  end.

Definition load_errors : list exn_class :=
  [JSONDecodeError; KeyError; ValueError; IndexError].

Definition load_invoices : M unit :=
  fun w =>
    if exists_ (fs w) (data_file (self w)) then
      try_exceptM
        (data <- lift (json_load (fs w) (data_file (self w))) ;;
         update (set_invoices []) ;;
         inv_list <- lift (Obj.get data "invoices" (PyList [])) ;;
         entries <- lift (Obj.iter inv_list) ;;
         load_loop entries ;;
         s <- get_self ;;
         fed <- lift (Obj.get data "fed_tax_rate" (fed_tax_rate s)) ;;
         update (set_fed_tax_rate fed) ;;
         state <- lift (Obj.get data "state_tax_rate" (state_tax_rate s)) ;;
         update (set_state_tax_rate state) ;;
         code <- lift (Obj.get data "state_code" (state_code s)) ;;
         update (set_state_code code))%M
        (caught_by load_errors)
        (fun e => update (set_invoices []))
        w
    else (Ok tt, w).

(** *** [save_invoices] *)

Definition invoice_to_dict (inv : Invoice) : pyobj :=
  PyDict [("date", PyStr (Date.isoformat (date inv)));
          ("amount", PyFloat (amount inv));
          ("description", description inv);
          ("invoice_id", invoice_id inv)].

(** The dict [save_invoices] dumps. *)
Definition data_of (s : BusinessTaxCalculator) : pyobj :=
  PyDict [("fed_tax_rate", fed_tax_rate s);
          ("state_tax_rate", state_tax_rate s);
          ("state_code", state_code s);
          ("invoices", PyList (map invoice_to_dict (invoices s)))].

(** [with open(path, 'w') as f: json.dump(data, f, indent=2)] *)
Definition dump (path : string) (data : pyobj) : M unit :=
  fun w =>
    if writable (fs w) path
    then (Ok tt, {| self := self w; fs := write (fs w) path data |})
    else (Raise (Exn OSError "Permission denied"), w).

Definition save_invoices : M unit :=
  (s <- get_self ;;
   let data := data_of s in
   try_exceptM (dump (data_file s) data) is_Exception (fun e => ret tt))%M.

(** *** [__init__] *)

Definition init (fs0 : filesystem) (data_dir : string)
    (data_file : option string) (fed_tax_rate state_tax_rate state_code : pyobj)
    : result BusinessTaxCalculator * filesystem :=
  match makedirs fs0 data_dir with
  | Raise e => (Raise e, fs0)
  | Ok fs1 =>
      let path := match data_file with
                  | None => path_join data_dir "invoices.json"
                  | Some p => p
                  end in
      let s0 := {| data_dir := data_dir; data_file := path;
                   fed_tax_rate := fed_tax_rate;
                   state_tax_rate := state_tax_rate;
                   state_code := state_code; invoices := [] |} in
      match load_invoices {| self := s0; fs := fs1 |} with
      | (Ok _, w) => (Ok (self w), fs w)
      | (Raise e, w) => (Raise e, fs w)
      end
  end.

(** The constructor with its default rates and state code. *)
Definition init_default (fs0 : filesystem) (data_dir : string)
    (data_file : option string) :=
  init fs0 data_dir data_file (PyFloat 0.20) (PyFloat 0.05) (PyStr "").

(** *** [add_invoice], [delete_invoice] *)

Definition generated_id (d : Date.date) (count : nat) : string :=
  "INV-" ++ Date.strftime_Ymd d ++ "-" ++ Str.zero_pad 4 (Z.of_nat count).

Definition add_invoice (d : Date.date) (amount : float) (description : string)
    (invoice_id : option string) : M (bool * string) :=
  try_exceptM
    (s <- get_self ;;
     let invoice_id :=
       match invoice_id with
       | None => generated_id d (List.length (invoices s))
       | Some i => i
       end in
     let invoice := {| date := d; amount := amount;
                       description := PyStr description;
                       invoice_id := PyStr invoice_id |} in
     update (append_invoice invoice) ;;
     save_invoices ;;
     ret (true, "Invoice " ++ invoice_id ++ " added successfully."))%M
    is_Exception
    (fun e => ret (false, "Error adding invoice: " ++ str_exn e)).

(** [o == s] for a str [s]. *)
Definition eq_str (o : pyobj) (s : string) : bool :=
  match o with
  | PyStr s' => String.eqb s' s
  | _ => false
  end.

(** The index of the first invoice whose id equals [id]. *)
Fixpoint find_invoice (id : string) (l : list Invoice) (i : nat) : option nat :=
  match l with
  | [] => None
  | inv :: rest =>
      if eq_str (invoice_id inv) id then Some i else find_invoice id rest (S i)
  end.

(** [del l[i]] *)
Definition del {A} (i : nat) (l : list A) : list A := firstn i l ++ skipn (S i) l.

Definition delete_invoice (invoice_id : string) : M (bool * string) :=
  (s <- get_self ;;
   match find_invoice invoice_id (invoices s) 0 with
   | Some i =>
       update (set_invoices (del i (invoices s))) ;;
       save_invoices ;;
       ret (true, "Invoice " ++ invoice_id ++ " deleted.")
   | None => ret (false, "Invoice " ++ invoice_id ++ " not found.")
   end)%M.

(** *** Quarters and earnings *)

Definition get_quarter_bounds (year quarter : Z)
    : result (Date.date * Date.date) :=
  if (quarter <? 1) || (quarter >? 4)
  then Raise (Exn ValueError "Quarter must be between 1 and 4")
  else
    let start_month := (quarter - 1) * 3 + 1 in
    let end_month := quarter * 3 in
    start_date <- Date.make year start_month 1 ;;
    last_day <- Date.monthrange_days year end_month ;;
    end_date <- Date.make year end_month last_day ;;
    Ok (start_date, end_date).

(** [start_date <= inv.date <= end_date] *)
Definition within (start_date end_date : Date.date) (inv : Invoice) : bool :=
  Date.leb start_date (date inv) && Date.leb (date inv) end_date.

(** [total = 0.0; for inv in l: if start <= inv.date <= end: total += inv.amount] *)
Definition total_within (start_date end_date : Date.date) (l : list Invoice)
    : float :=
  fold_left
    (fun total inv =>
       if within start_date end_date inv then (total + amount inv)%float
       else total)
    l 0%float.

Definition get_quarterly_earnings (s : BusinessTaxCalculator)
    (year quarter : Z) : result float :=
  '(start_date, end_date) <- get_quarter_bounds year quarter ;;
  Ok (total_within start_date end_date (invoices s)).

Definition get_yearly_earnings (s : BusinessTaxCalculator) (year : Z)
    : result float :=
  start_date <- Date.make year 1 1 ;;
  end_date <- Date.make year 12 31 ;;
  Ok (total_within start_date end_date (invoices s)).

Definition calculate_quarterly_federal_tax (s : BusinessTaxCalculator)
    (year quarter : Z) : result float :=
  earnings <- get_quarterly_earnings s year quarter ;;
  float_mul earnings (fed_tax_rate s).

Definition calculate_quarterly_state_tax (s : BusinessTaxCalculator)
    (year quarter : Z) : result float :=
  earnings <- get_quarterly_earnings s year quarter ;;
  float_mul earnings (state_tax_rate s).

(** *** SEP contribution

    The int constants of the method ([69000], [0], [100]) are written as the
    floats they convert to without rounding: Python compares an int with a
    float by value and converts the int before it multiplies or divides. *)

Record SepResult : Set := {
  yearly_earnings : float;
  potential_contribution : float;
  actual_contribution : float;
  max_contribution_limit : float;
  contribution_percent : float
}.

Definition calculate_sep_401k_limit (s : BusinessTaxCalculator) (year : Z)
    : result SepResult :=
  yearly_earnings <- get_yearly_earnings s year ;;
  let effective_rate := 0.20%float in
  let max_contribution_limit := 69000%float in
  let potential_contribution := (yearly_earnings * effective_rate)%float in
  let actual_contribution :=
    Float.min potential_contribution max_contribution_limit in
  contribution_percent <-
    (if (yearly_earnings =? 0)%float then Ok 0%float
     else q <- Float.div actual_contribution yearly_earnings ;;
          Ok (q * 100)%float) ;;
  Ok {| yearly_earnings := yearly_earnings;
        potential_contribution := potential_contribution;
        actual_contribution := actual_contribution;
        max_contribution_limit := max_contribution_limit;
        contribution_percent := contribution_percent |}.

(** *** [set_tax_rates] *)

(** [0.0 <= fed_rate <= 1.0 and 0.0 <= state_rate <= 1.0] *)
Definition rates_in_range (fed_rate state_rate : float) : bool :=
  ((0 <=? fed_rate) && (fed_rate <=? 1) &&
   ((0 <=? state_rate) && (state_rate <=? 1)))%float.

Definition set_tax_rates (fed_rate state_rate : float) (state_code : string)
    : M (bool * string) :=
  if rates_in_range fed_rate state_rate then
    (update (set_fed_tax_rate (PyFloat fed_rate)) ;;
     update (set_state_tax_rate (PyFloat state_rate)) ;;
     update (set_state_code (PyStr state_code)) ;;
     save_invoices ;;
     ret (true,
          "Tax rates updated: Federal " ++ Float.format_percent2 fed_rate
          ++ ", State " ++ Float.format_percent2 state_rate
          ++ " (" ++ state_code ++ ")"))%M
  else ret (false, "Tax rates must be between 0.0 and 1.0").

(** *** [generate_quarterly_report] *)

Record QuarterReport : Set := {
  earnings : float;
  fed_tax : float;
  state_tax : float;
  total_tax : float;
  invoice_count : Z
}.

(** The report dict: ['year'], ['quarters'] (keyed by quarter, in insertion
    order) and, for a full-year report, ['sep_401k']. *)
Record Report : Set := {
  report_year : Z;
  quarters : list (Z * QuarterReport);
  sep_401k : option SepResult
}.

(** [d[k] = v] on a dict kept as an association list. *)
Fixpoint dict_set {V} (k : Z) (v : V) (d : list (Z * V)) : list (Z * V) :=
  match d with
  | [] => [(k, v)]
  | (k', v') :: rest =>
      if k' =? k then (k, v) :: rest else (k', v') :: dict_set k v rest
  end.

Definition quarter_entry (s : BusinessTaxCalculator) (year q : Z)
    : result QuarterReport :=
  earnings <- get_quarterly_earnings s year q ;;
  fed_tax <- calculate_quarterly_federal_tax s year q ;;
  state_tax <- calculate_quarterly_state_tax s year q ;;
  '(start_date, end_date) <- get_quarter_bounds year q ;;
  let invoices := List.filter (within start_date end_date) (invoices s) in
  Ok {| earnings := earnings; fed_tax := fed_tax; state_tax := state_tax;
        total_tax := (fed_tax + state_tax)%float;
        invoice_count := Z.of_nat (List.length invoices) |}.

(** [for q in quarters: ... report['quarters'][q] = {...}] *)
Fixpoint report_loop (s : BusinessTaxCalculator) (year : Z) (qs : list Z)
    (acc : list (Z * QuarterReport)) : result (list (Z * QuarterReport)) :=
  match qs with
  | [] => Ok acc
  | q :: rest =>
      entry <- quarter_entry s year q ;;
      report_loop s year rest (dict_set q entry acc)
  end.

Definition generate_quarterly_report (s : BusinessTaxCalculator) (year : Z)
    (quarter : option Z) : result Report :=
  let quarters := match quarter with
                  | Some q => [q]
                  | None => [1; 2; 3; 4]
                  end in
  per_quarter <- report_loop s year quarters [] ;;
  sep <- match quarter with
         | None => r <- calculate_sep_401k_limit s year ;; Ok (Some r)
         | Some _ => Ok None
         end ;;
  Ok {| report_year := year; quarters := per_quarter; sep_401k := sep |}.

(** *** [get_all_invoices]

    [sorted(l, key=lambda x: x.date)] is a stable sort, and a stable sort has
    one possible result; it is built here by insertion, an element going in
    front of the first one whose date is not earlier. *)

Fixpoint insert_by_date (inv : Invoice) (l : list Invoice) : list Invoice :=
  match l with
  | [] => [inv]
  | x :: rest =>
      if Date.leb (date inv) (date x) then inv :: l
      else x :: insert_by_date inv rest
  end.

Definition sorted_by_date (l : list Invoice) : list Invoice :=
  fold_right insert_by_date [] l.

Definition get_all_invoices (s : BusinessTaxCalculator) : list Invoice :=
  sorted_by_date (invoices s).

(** *** [change_data_location] *)

Definition set_data_file (path : string) (s : BusinessTaxCalculator) :=
  {| data_dir := data_dir s; data_file := path;
     fed_tax_rate := fed_tax_rate s; state_tax_rate := state_tax_rate s;
     state_code := state_code s; invoices := invoices s |}.

Definition change_data_location (new_location : string) : M (bool * string) :=
  fun w =>
    let old_data_file := data_file (self w) in
    try_exceptM
      (update (set_data_file new_location) ;;
       save_invoices ;;
       ret (true, "Data location changed to " ++ new_location))%M
      is_Exception
      (fun e =>
         (update (set_data_file old_data_file) ;;
          ret (false, "Failed to change data location: " ++ str_exn e))%M)
      w.

End Calculator.

(** ** The PDF extractor *)

Module Extractor.

(** What the PDF library hands over.  A cell is [None] or a str; a page
    gives its text ([None] when it has none) and its tables, and either call
    may raise; opening the document may raise. *)
Definition cell : Set := option string.
Definition row : Set := list cell.
Definition table : Set := list row.

Record page : Set := {
  extract_text : result (option string);
  extract_tables : result (list table)
}.

Definition document : Set := result (list page).

(** An extracted candidate (the dict the extractor appends). *)
Record Candidate : Set := {
  date : Date.date;
  amount : float;
  description : string;
  currency : string;
  doc_number : string
}.

(** The locals of an extraction that live across rows, tables and pages:
    the variable [date] ([None] while it is unbound) and the list
    [invoices]. *)
Record locals : Set := {
  date_var : option Date.date;
  invoices : list Candidate
}.

(** Truth value of a cell. *)
Definition truthy (c : cell) : bool :=
  match c with
  | Some (String _ _) => true
  | _ => false
  end.

(** [str(c).strip() if c else ""] *)
Definition cell_text (c : cell) : string :=
  match c with
  | Some s => if truthy c then Str.strip s else ""
  | None => ""
  end.

Definition is_empty (s : string) : bool :=
  match s with EmptyString => true | _ => false end.

Definition is_nil {A} (l : list A) : bool :=
  match l with [] => true | _ => false end.

(** [next(i for i, h in enumerate(headers) if word in h.lower())] *)
Fixpoint first_index (word : string) (headers : list string) (i : nat)
    : result nat :=
  match headers with
  | [] => Raise (Exn StopIteration "")
  | h :: rest =>
      if Str.contains word (Str.lower h) then Ok i
      else first_index word rest (S i)
  end.

Definition any_header (word : string) (headers : list string) : bool :=
  existsb (fun h => Str.contains word (Str.lower h)) headers.

(** [datetime.date(int(a), int(b), int(c))] with the parts taken from
    [date_parts] at the given positions, in the order of the call. *)
Definition date_of_parts (date_parts : list string) (iy im id : nat)
    : result Date.date :=
  sy <- Calculator.index date_parts iy ;;
  y <- Str.to_int sy ;;
  sm <- Calculator.index date_parts im ;;
  m <- Str.to_int sm ;;
  sd <- Calculator.index date_parts id ;;
  d <- Str.to_int sd ;;
  Date.make y m d.

(** The date block of the table pass.  [Some v]: execution goes on to the
    amount with the variable [date] holding [v]; [None]: [continue]. *)
Definition table_date (date_str : string) (date_var : option Date.date)
    : result (option (option Date.date)) :=
  try_except
    (if Str.contains_char "/" date_str then
       let date_parts := Str.split "/" date_str in
       if (List.length date_parts =? 3)%nat then
         d <- date_of_parts date_parts 2 1 0 ;; Ok (Some (Some d))
       else Ok (Some date_var)
     else if Str.contains_char "-" date_str then
       let date_parts := Str.split "-" date_str in
       if (List.length date_parts =? 3)%nat then
         d <- date_of_parts date_parts 0 1 2 ;; Ok (Some (Some d))
       else Ok (Some date_var)
     else Ok None)
    (caught_by [ValueError; IndexError])
    (fun _ => Ok None).

(** [re.sub(r'[^\d.]', '', s)]: the decimal digits of every script and the
    points stay. *)
Definition amount_clean (s : string) : string :=
  Unicode.text
    (List.filter
       (fun c => Unicode.is_decimal (fst c) || (fst c =? 46)%N)
       (Unicode.characters s)).

(** The amount block: [Some a], or [None] for [continue]. *)
Definition parse_amount (amount_str : string) : result (option float) :=
  try_except
    (a <- Float.of_string (amount_clean amount_str) ;; Ok (Some a))
    (caught_by [ValueError])
    (fun _ => Ok None).

(** Reading the local variable [date]. *)
Definition read_date (date_var : option Date.date) : result Date.date :=
  match date_var with
  | Some d => Ok d
  | None => Raise (Exn UnboundLocalError
                     "cannot access local variable 'date'")
  end.

Record columns : Set := {
  doc_type_idx : nat;
  doc_num_idx : nat;
  date_idx : nat;
  amount_idx : nat;
  currency_idx : nat
}.

Definition max_idx (c : columns) : nat :=
  Nat.max (doc_type_idx c)
    (Nat.max (doc_num_idx c)
       (Nat.max (date_idx c) (Nat.max (amount_idx c) (currency_idx c)))).

Definition find_columns (headers : list string) : result columns :=
  t <- first_index "type" headers 0 ;;
  n <- first_index "number" headers 0 ;;
  d <- first_index "date" headers 0 ;;
  a <- first_index "amount" headers 0 ;;
  c <- first_index "currency" headers 0 ;;
  Ok {| doc_type_idx := t; doc_num_idx := n; date_idx := d;
        amount_idx := a; currency_idx := c |}.

(** One data row of an invoice table. *)
Definition row_step (ix : columns) (r : row) (st : locals) : result locals :=
  if is_nil r || negb (existsb truthy r) then Ok st
  else if (List.length r <=? max_idx ix)%nat then Ok st
  else
    c_type <- Calculator.index r (doc_type_idx ix) ;;
    c_num <- Calculator.index r (doc_num_idx ix) ;;
    c_date <- Calculator.index r (date_idx ix) ;;
    c_amount <- Calculator.index r (amount_idx ix) ;;
    c_cur <- Calculator.index r (currency_idx ix) ;;
    let doc_type := cell_text c_type in
    let doc_num := cell_text c_num in
    let date_str := cell_text c_date in
    let amount_str := cell_text c_amount in
    let currency := cell_text c_cur in
    if is_empty doc_type || is_empty doc_num || is_empty date_str
       || is_empty amount_str
    then Ok st
    else
      parsed <- table_date date_str (date_var st) ;;
      match parsed with
      | None => Ok st
      | Some dv =>
          let st' := {| date_var := dv; invoices := invoices st |} in
          a <- parse_amount amount_str ;;
          match a with
          | None => Ok st'
          | Some amount =>
              d <- read_date dv ;;
              Ok {| date_var := dv;
                    invoices := invoices st ++
                      [{| date := d; amount := amount;
                          description := doc_type ++ ": " ++ doc_num;
                          currency := currency;
                          doc_number := doc_num |}] |}
          end
      end.

Fixpoint rows_loop (ix : columns) (rows : list row) (st : locals)
    : result locals :=
  match rows with
  | [] => Ok st
  | r :: rest => st' <- row_step ix r st ;; rows_loop ix rest st'
  end.

Definition table_step (t : table) (st : locals) : result locals :=
  header_row <- Calculator.index t 0 ;;
  let headers := map cell_text header_row in
  if any_header "invoice" headers && any_header "date" headers
     && any_header "amount" headers
  then
    match find_columns headers with
    | Ok ix => rows_loop ix (tl t) st
    | Raise e =>
        if caught_by [StopIteration] e then Ok st else Raise e
    end
  else Ok st.

Fixpoint tables_loop (tables : list table) (st : locals) : result locals :=
  match tables with
  | [] => Ok st
  | t :: rest => st' <- table_step t st ;; tables_loop rest st'
  end.

(** The two patterns of the text pass. *)
Inductive text_pattern : Set :=
  | LabelledPattern     (* Invoice ... Date ... Amount ... *)
  | ColumnsPattern.     (* Invoice <id> <date> <amount> *)

Section WithRegex.

(** [re.findall(pattern, text, re.IGNORECASE)] on the two patterns: the
    regular-expression engine is taken as given. *)
Variable findall : text_pattern -> string -> list (string * string * string).

(** One match of the text pass. *)
Definition match_step (m : string * string * string) (st : locals)
    : result locals :=
  let '(doc_num, date_str, amount_str) := m in
  parsed <-
    try_except
      (if Str.contains_char "/" date_str then
         d <- date_of_parts (Str.split "/" date_str) 2 1 0 ;; Ok (Some d)
       else
         d <- date_of_parts (Str.split "-" date_str) 0 1 2 ;; Ok (Some d))
      (caught_by [ValueError; IndexError])
      (fun _ => Ok None) ;;
  match parsed with
  | None => Ok st
  | Some d =>
      let st' := {| date_var := Some d; invoices := invoices st |} in
      a <- parse_amount amount_str ;;
      match a with
      | None => Ok st'
      | Some amount =>
          Ok {| date_var := Some d;
                invoices := invoices st ++
                  [{| date := d; amount := amount;
                      description := "Invoice: " ++ doc_num;
                      currency := "USD";
                      doc_number := doc_num |}] |}
      end
  end.

Fixpoint matches_loop (ms : list (string * string * string)) (st : locals)
    : result locals :=
  match ms with
  | [] => Ok st
  | m :: rest => st' <- match_step m st ;; matches_loop rest st'
  end.

Definition text_pass (text : option string) (st : locals) : result locals :=
  match text with
  | None => Raise (Exn TypeError "expected string or bytes-like object")
  | Some t =>
      st1 <- matches_loop (findall LabelledPattern t) st ;;
      matches_loop (findall ColumnsPattern t) st1
  end.

Fixpoint pages_loop (pages : list page) (st : locals) : result locals :=
  match pages with
  | [] => Ok st
  | p :: rest =>
      text <- extract_text p ;;
      tables <- extract_tables p ;;
      st1 <- tables_loop tables st ;;
      st2 <- (match invoices st1 with
              | [] => text_pass text st1
              | _ => Ok st1
              end) ;;
      pages_loop rest st2
  end.

(** The body of the [try] of [extract_from_pdf]. *)
Definition extract_from_pdf_body (doc : document) : result (list Candidate) :=
  pages <- doc ;;
  st <- pages_loop pages {| date_var := None; invoices := [] |} ;;
  Ok (invoices st).

Definition extract_from_pdf (doc : document) : result (list Candidate) :=
  try_except (extract_from_pdf_body doc) is_Exception (fun e => Ok []).

End WithRegex.

(** *** The remittance-advice variant *)

(** The fragment of regular expressions its date handling needs: a pattern
    is a sequence of literals and fields; a field is an ordered choice of
    fixed-length alternatives, tried in order with backtracking. *)
Inductive char_class : Set :=
  | AnyDigit
  | Range (lo hi : ascii)
  | Char (c : ascii).

(** A class takes one character off the front of the text: [\d] a decimal
    digit of any script, a range or a literal one ASCII character. *)
Definition take_ascii (accepts : ascii -> bool) (s : string)
    : option (string * string) :=
  match s with
  | String c s' =>
      if accepts c then Some (String c EmptyString, s') else None
  | EmptyString => None
  end.

Definition take_decimal (s : string) : option (string * string) :=
  match Unicode.first s with
  | Some (cp, bytes, rest) =>
      if Unicode.is_decimal cp then Some (bytes, rest) else None
  | None => None
  end.

Definition take (k : char_class) (s : string) : option (string * string) :=
  match k with
  | AnyDigit => take_decimal s
  | Range lo hi =>
      take_ascii (fun c => (Str.code lo <=? Str.code c)%nat
                           && (Str.code c <=? Str.code hi)%nat) s
  | Char c' => take_ascii (fun c => Ascii.eqb c c') s
  end.

Inductive token : Set :=
  | Field (alternatives : list (list char_class))
  | Lit (c : ascii).

Fixpoint match_alternative (a : list char_class) (s : string)
    : option (string * string) :=
  match a with
  | [] => Some (EmptyString, s)
  | k :: a' =>
      match take k s with
      | Some (m1, s') =>
          match match_alternative a' s' with
          | Some (m, r) => Some ((m1 ++ m)%string, r)
          | None => None
          end
      | None => None
      end
  end.

(** Matching at the start of [s]: the text of each field and the rest. *)
Fixpoint match_tokens (p : list token) (s : string)
    : option (list string * string) :=
  match p with
  | [] => Some ([], s)
  | Lit c :: p' =>
      match s with
      | String c' s' => if Ascii.eqb c c' then match_tokens p' s' else None
      | EmptyString => None
      end
  | Field alternatives :: p' =>
      (fix choose (l : list (list char_class)) :=
         match l with
         | [] => None
         | a :: l' =>
             match match_alternative a s with
             | Some (m, r) =>
                 match match_tokens p' r with
                 | Some (fields, rest) => Some (m :: fields, rest)
                 | None => choose l'
                 end
             | None => choose l'
             end
         end) alternatives
  end.

(** [re.match(pattern, s)] as a truth value. *)
Definition re_match (p : list token) (s : string) : bool :=
  match match_tokens p s with Some _ => true | None => false end.

Definition digits_1_2 : token := Field [[AnyDigit; AnyDigit]; [AnyDigit]].
Definition digits_4 : token := Field [[AnyDigit; AnyDigit; AnyDigit; AnyDigit]].

(** The directives of a [strptime] format and the expressions [strptime]
    matches them with. *)
Inductive directive : Set :=
  | Pd      (* %d *)
  | Pm      (* %m *)
  | PY      (* %Y *)
  | Sep (c : ascii).

Definition directive_token (d : directive) : token :=
  match d with
  | Pd => Field [[Char "3"; Range "0" "1"]; [Range "1" "2"; AnyDigit];
                 [Char "0"; Range "1" "9"]; [Range "1" "9"];
                 [Char " "; Range "1" "9"]]
  | Pm => Field [[Char "1"; Range "0" "2"]; [Char "0"; Range "1" "9"];
                 [Range "1" "9"]]
  | PY => digits_4
  | Sep c => Lit c
  end.

(** The fields found, by directive: (year, month, day), each when present. *)
Fixpoint collect (fmt : list directive) (fields : list string)
    (acc : option string * option string * option string)
    : option string * option string * option string :=
  match fmt, fields with
  | Sep _ :: fmt', _ => collect fmt' fields acc
  | Pd :: fmt', f :: fields' =>
      let '(y, m, _) := acc in collect fmt' fields' (y, m, Some f)
  | Pm :: fmt', f :: fields' =>
      let '(y, _, d) := acc in collect fmt' fields' (y, Some f, d)
  | PY :: fmt', f :: fields' =>
      let '(_, m, d) := acc in collect fmt' fields' (Some f, m, d)
  | _, _ => acc
  end.

(** [datetime.datetime.strptime(s, fmt).date()] for a format that has the
    three directives. *)
Definition strptime (s : string) (fmt : list directive) : result Date.date :=
  match match_tokens (map directive_token fmt) s with
  | None => Raise (Exn ValueError "time data does not match format")
  | Some (fields, String _ _) =>
      Raise (Exn ValueError "unconverted data remains")
  | Some (fields, EmptyString) =>
      match collect fmt fields (None, None, None) with
      | (Some sy, Some sm, Some sd) =>
          y <- Str.to_int sy ;;
          m <- Str.to_int sm ;;
          d <- Str.to_int sd ;;
          Date.make y m d
      | _ => Raise (Exn ValueError "time data does not match format")
      end
  end.

(** [date_formats]: each format with the pattern that guards it. *)
Definition date_formats : list (list directive * list token) :=
  [([Pd; Sep "/"; Pm; Sep "/"; PY],
    [digits_1_2; Lit "/"; digits_1_2; Lit "/"; digits_4]);
   ([Pm; Sep "/"; Pd; Sep "/"; PY],
    [digits_1_2; Lit "/"; digits_1_2; Lit "/"; digits_4]);
   ([PY; Sep "-"; Pm; Sep "-"; Pd],
    [digits_4; Lit "-"; digits_1_2; Lit "-"; digits_1_2]);
   ([Pd; Sep "-"; Pm; Sep "-"; PY],
    [digits_1_2; Lit "-"; digits_1_2; Lit "-"; digits_4]);
   ([Pd; Sep "."; Pm; Sep "."; PY],
    [digits_1_2; Lit "."; digits_1_2; Lit "."; digits_4])].

(** [for date_format, pattern in date_formats: ...]: the value of [date]
    after the loop. *)
Fixpoint try_formats (formats : list (list directive * list token))
    (date_str : string) : result (option Date.date) :=
  match formats with
  | [] => Ok None
  | (date_format, pattern) :: rest =>
      if re_match pattern date_str then
        match strptime date_str date_format with
        | Ok d => Ok (Some d)
        | Raise e =>
            if caught_by [ValueError] e then try_formats rest date_str
            else Raise e
        end
      else try_formats rest date_str
  end.

Definition euro_sign : string :=
  String (ascii_of_nat 226) (String (ascii_of_nat 130)
    (String (ascii_of_nat 172) EmptyString)).
Definition pound_sign : string :=
  String (ascii_of_nat 194) (String (ascii_of_nat 163) EmptyString).

(** The currency read off the amount string. *)
Definition sniff_currency (amount_str : string) : string :=
  if Str.contains "USD" amount_str || Str.contains "$" amount_str then "USD"
  else if Str.contains "EUR" amount_str || Str.contains euro_sign amount_str
  then "EUR"
  else if Str.contains "GBP" amount_str || Str.contains pound_sign amount_str
  then "GBP"
  else "USD".

(** The column indices of the variant; each starts as [None]. *)
Record rcolumns : Set := {
  r_doc_type : option nat;
  r_doc_num : option nat;
  r_date : option nat;
  r_amount : option nat;
  r_currency : option nat
}.

(** One turn of [for i, header in enumerate(headers)]. *)
Definition assign_column (i : nat) (header : string) (c : rcolumns)
    : rcolumns :=
  let has w := Str.contains w header in
  if has "type" && has "document" then
    {| r_doc_type := Some i; r_doc_num := r_doc_num c; r_date := r_date c;
       r_amount := r_amount c; r_currency := r_currency c |}
  else if has "number" && (has "document" || has "invoice") then
    {| r_doc_type := r_doc_type c; r_doc_num := Some i; r_date := r_date c;
       r_amount := r_amount c; r_currency := r_currency c |}
  else if has "date" then
    {| r_doc_type := r_doc_type c; r_doc_num := r_doc_num c; r_date := Some i;
       r_amount := r_amount c; r_currency := r_currency c |}
  else if has "amount" && has "payment" then
    {| r_doc_type := r_doc_type c; r_doc_num := r_doc_num c; r_date := r_date c;
       r_amount := Some i; r_currency := r_currency c |}
  else if has "currency" then
    {| r_doc_type := r_doc_type c; r_doc_num := r_doc_num c; r_date := r_date c;
       r_amount := r_amount c; r_currency := Some i |}
  else c.

Fixpoint assign_columns (headers : list string) (i : nat) (c : rcolumns)
    : rcolumns :=
  match headers with
  | [] => c
  | h :: rest => assign_columns rest (S i) (assign_column i h c)
  end.

(** [" ".join(headers)] *)
Fixpoint join_spaces (l : list string) : string :=
  match l with
  | [] => ""
  | [h] => h
  | h :: rest => h ++ " " ++ join_spaces rest
  end.

(** One data row, with the four required column indices. *)
Definition remittance_row (ti ni di ai : nat) (ci : option nat) (r : row)
    (invoices : list Candidate) : result (list Candidate) :=
  if is_nil r
     || (List.length r <=? Nat.max ti (Nat.max ni (Nat.max di ai)))%nat
  then Ok invoices
  else
    try_except
      (c_type <- Calculator.index r ti ;;
       c_num <- Calculator.index r ni ;;
       c_date <- Calculator.index r di ;;
       c_amount <- Calculator.index r ai ;;
       let doc_type := cell_text c_type in
       let doc_num := cell_text c_num in
       let date_str := cell_text c_date in
       let amount_str := cell_text c_amount in
       column_currency <-
         match ci with
         | Some i =>
             c <- Calculator.index r i ;;
             Ok (match c with
                 | Some s => if truthy c then Some (Str.strip s) else None
                 | None => None
                 end)
         | None => Ok None
         end ;;
       let currency := match column_currency with
                       | Some c => c
                       | None => sniff_currency amount_str
                       end in
       if is_empty doc_num || is_empty date_str || is_empty amount_str
       then Ok invoices
       else
         parsed <- try_formats date_formats date_str ;;
         match parsed with
         | None => Ok invoices
         | Some d =>
             amount <- Float.of_string (amount_clean amount_str) ;;
             Ok (invoices ++
                   [{| date := d; amount := amount;
                       description :=
                         if is_empty doc_type then "Invoice: " ++ doc_num
                         else doc_type ++ ": " ++ doc_num;
                       currency := currency;
                       doc_number := doc_num |}])%list
         end)
      (caught_by [ValueError; IndexError])
      (fun e => Ok invoices).

Fixpoint remittance_rows (ti ni di ai : nat) (ci : option nat)
    (rows : list row) (invoices : list Candidate) : result (list Candidate) :=
  match rows with
  | [] => Ok invoices
  | r :: rest =>
      invoices' <- remittance_row ti ni di ai ci r invoices ;;
      remittance_rows ti ni di ai ci rest invoices'
  end.

Definition remittance_table (t : table) (invoices : list Candidate)
    : result (list Candidate) :=
  if (List.length t <? 2)%nat then Ok invoices
  else
    header_row <- Calculator.index t 0 ;;
    let headers := map (fun c => Str.lower (cell_text c)) header_row in
    let joined := join_spaces headers in
    if (Str.contains "document" joined || Str.contains "invoice" joined)
       && Str.contains "date" joined && Str.contains "amount" joined
    then
      let c := assign_columns headers 0
                 {| r_doc_type := None; r_doc_num := None; r_date := None;
                    r_amount := None; r_currency := None |} in
      match r_doc_type c, r_doc_num c, r_date c, r_amount c with
      | Some ti, Some ni, Some di, Some ai =>
          remittance_rows ti ni di ai (r_currency c) (tl t) invoices
      | _, _, _, _ => Ok invoices
      end
    else Ok invoices.

Fixpoint remittance_tables (tables : list table) (invoices : list Candidate)
    : result (list Candidate) :=
  match tables with
  | [] => Ok invoices
  | t :: rest =>
      invoices' <- remittance_table t invoices ;;
      remittance_tables rest invoices'
  end.

Fixpoint remittance_pages (pages : list page) (invoices : list Candidate)
    : result (list Candidate) :=
  match pages with
  | [] => Ok invoices
  | p :: rest =>
      text <- extract_text p ;;
      tables <- extract_tables p ;;
      lowered <- match text with
                 | Some t => Ok (Str.lower t)
                 | None => Raise (Exn AttributeError
                                    "object has no attribute 'lower'")
                 end ;;
      invoices' <- (if Str.contains "remittance advice" lowered
                    then remittance_tables tables invoices
                    else Ok invoices) ;;
      remittance_pages rest invoices'
  end.

(** The body of the [try] of [extract_from_remittance_advice]. *)
Definition extract_from_remittance_advice_body (doc : document)
    : result (list Candidate) :=
  pages <- doc ;;
  remittance_pages pages [].

Definition extract_from_remittance_advice (doc : document)
    : result (list Candidate) :=
  try_except (extract_from_remittance_advice_body doc) is_Exception
    (fun e => Ok []).

End Extractor.

(** * Properties *)

Import Calculator.

(** ** Words of the specification, as definitions *)

Module Spec.

(** Quarter 1 starts Jan 1, quarter 2 Apr 1, quarter 3 Jul 1, quarter 4
    Oct 1: (month, day). *)
Definition quarter_start (quarter : Z) : Z * Z :=
  if quarter =? 1 then (1, 1)
  else if quarter =? 2 then (4, 1)
  else if quarter =? 3 then (7, 1)
  else (10, 1).

(** Quarter 1 ends Mar 31, quarter 2 Jun 30, quarter 3 Sep 30, quarter 4
    Dec 31: (month, day). *)
Definition quarter_end (quarter : Z) : Z * Z :=
  if quarter =? 1 then (3, 31)
  else if quarter =? 2 then (6, 30)
  else if quarter =? 3 then (9, 30)
  else (12, 31).

(** The sum of the amounts of a list of invoices, in list order from 0.0. *)
Definition sum_amounts (l : list Invoice) : float :=
  fold_left (fun total inv => (total + amount inv)%float) l 0%float.

(** [start <= d <= end] *)
Definition in_closed_interval (start_date end_date d : Date.date) : bool :=
  Date.leb start_date d && Date.leb d end_date.

(** The invoices dated within the closed interval. *)
Definition invoices_between (start_date end_date : Date.date)
    (l : list Invoice) : list Invoice :=
  List.filter (fun inv => in_closed_interval start_date end_date (date inv)) l.

End Spec.

(** The exception [get_quarter_bounds] raises for a bad quarter. *)
Definition quarter_error : exn :=
  Exn ValueError "Quarter must be between 1 and 4".

(** An empty ledger at the default path, with the default rates. *)
Definition empty_ledger : BusinessTaxCalculator :=
  {| data_dir := "data"; data_file := "data/invoices.json";
     fed_tax_rate := PyFloat 0.20; state_tax_rate := PyFloat 0.05;
     state_code := PyStr ""; invoices := [] |}.

(** A file system with nothing in it, where every path can be written and
    every directory created. *)
Definition empty_fs : filesystem :=
  {| files := fun _ => Absent; writable := fun _ => true;
     dirs := fun _ => false; creatable := fun _ => true |}.

(** Sample data. *)
Definition jan_1_2024 : Date.date := Date.Build 2024 1 1 eq_refl.
Definition jan_15_2024 : Date.date := Date.Build 2024 1 15 eq_refl.
Definition mar_31_2024 : Date.date := Date.Build 2024 3 31 eq_refl.
Definition apr_1_2024 : Date.date := Date.Build 2024 4 1 eq_refl.

Definition with_invoices (l : list Invoice) : BusinessTaxCalculator :=
  set_invoices l empty_ledger.

(** Invoices on both bounds of the first quarter of 2024 and one on the day
    after it. *)
Definition sample_ledger : BusinessTaxCalculator :=
  with_invoices
    [{| date := jan_1_2024; amount := 100.5;
        description := PyStr "first"; invoice_id := PyStr "A-1" |};
     {| date := mar_31_2024; amount := 200.25;
        description := PyStr "second"; invoice_id := PyStr "A-2" |};
     {| date := apr_1_2024; amount := 40;
        description := PyStr "third"; invoice_id := PyStr "A-3" |}].

Definition high_earner : BusinessTaxCalculator :=
  with_invoices
    [{| date := jan_15_2024; amount := 500000;
        description := PyStr "contract"; invoice_id := PyStr "B-1" |}].

(** What [save_invoices] leaves on disk: the dumped ledger when the data
    file can be written, the old content otherwise. *)
Definition after_save (s : BusinessTaxCalculator) (fs0 : filesystem)
    : filesystem :=
  if writable fs0 (data_file s) then write fs0 (data_file s) (data_of s)
  else fs0.

(** [os.makedirs(path, exist_ok=True)] returns: the path is not empty,
    names no file, and is a directory or can be created. *)
Definition usable_dir (fs0 : filesystem) (path : string) : bool :=
  negb (String.eqb path "") && negb (is_file fs0 path) &&
  (dirs fs0 path || creatable fs0 path).

(** Python's [==] between the amounts of two collections, invoice by
    invoice: it holds for an amount exactly when the amount is no NaN. *)
Definition amounts_compare_equal (l' l : list Invoice) : Prop :=
  Forall2
    (fun a b =>
       (amount a =? amount b)%float = negb (is_nan (amount b)))
    l' l.

(** A ledger with one invoice whose amount is NaN. *)
Definition nan_ledger : BusinessTaxCalculator :=
  with_invoices
    [{| date := jan_15_2024; amount := nan;
        description := PyStr "unknown"; invoice_id := PyStr "N-1" |}].

(** The ledger with the three configuration fields replaced. *)
Definition with_config (fed_rate state_rate : float) (code : string)
    (s : BusinessTaxCalculator) : BusinessTaxCalculator :=
  {| data_dir := data_dir s; data_file := data_file s;
     fed_tax_rate := PyFloat fed_rate; state_tax_rate := PyFloat state_rate;
     state_code := PyStr code; invoices := invoices s |}.

(** The ledger after: add, add, delete the first, add; all on date [d] and
    with generated ids, starting from the world [w]. *)
Definition add_add_delete_add (d : Date.date) (a1 a2 a3 : float)
    (d1 d2 d3 : string) (w : world) : world :=
  let w1 := snd (add_invoice d a1 d1 None w) in
  let w2 := snd (add_invoice d a2 d2 None w1) in
  let w3 := snd (delete_invoice (generated_id d 0) w2) in
  snd (add_invoice d a3 d3 None w3).

(** The decimal text of [n], zero-padded to [width], has no hyphen and
    [int()] reads [n] back from it. *)
Definition reads_back (width : nat) (n : Z) : bool :=
  negb (Str.contains_char "-" (Str.zero_pad width n)) &&
  match Str.to_int (Str.zero_pad width n) with
  | Ok z => z =? n
  | Raise _ => false
  end.

(** Backing files for [load_invoices]. *)
Definition single_file (data : file) : filesystem :=
  {| files := fun p => if String.eqb p "data/invoices.json" then data
                       else Absent;
     writable := fun _ => true;
     dirs := fun p => String.eqb p "data"; creatable := fun _ => true |}.

Definition entry (d amount description id : pyobj) : pyobj :=
  PyDict [("date", d); ("amount", amount); ("description", description);
          ("invoice_id", id)].

Definition file_with (entries : list pyobj) : file :=
  Document (PyDict [("fed_tax_rate", PyFloat 0.3);
                    ("invoices", PyList entries)]).

Definition good_entry : pyobj :=
  entry (PyStr "2024-01-15") (PyFloat 100.5) (PyStr "consulting")
    (PyStr "INV-1").

(** {"invoices": [{"date": "2024-01-15", "amount": null, ...}]} *)
Definition null_amount_file : file :=
  Document
    (PyDict [("invoices",
              PyList [good_entry;
                      entry (PyStr "2024-02-01") PyNone (PyStr "design")
                        (PyStr "INV-2")])]).

(** Documents for the extractor. *)
Definition invoice_headers : Extractor.row :=
  [Some "Invoice Type"; Some "Invoice Number"; Some "Invoice Date";
   Some "Amount"; Some "Currency"].

Definition table_page (rows : list Extractor.row) : Extractor.page :=
  {| Extractor.extract_text := Ok (Some "");
     Extractor.extract_tables := Ok [invoice_headers :: rows] |}.

Definition row_1001 : Extractor.row :=
  [Some "Invoice"; Some "1001"; Some "15/03/2024"; Some "$1,234.56";
   Some "USD"].

(** A row whose date cell reads N/A. *)
Definition row_1002 : Extractor.row :=
  [Some "Invoice"; Some "1002"; Some "N/A"; Some "$50.00"; Some "USD"].

Definition mar_15_2024 : Date.date := Date.Build 2024 3 15 eq_refl.

(** A document the PDF library cannot open, a page whose text extraction
    fails, and a regular-expression engine that finds nothing. *)
Definition corrupt_document : Extractor.document :=
  Raise (Exn PDFSyntaxError "No /Root object! - Is this really a PDF?").

Definition failing_page : Extractor.page :=
  {| Extractor.extract_text := Raise (Exn KeyError "MediaBox");
     Extractor.extract_tables := Ok [] |}.

Definition no_matches (p : Extractor.text_pattern) (text : string)
    : list (string * string * string) := [].

(** The operations that change the ledger, as one type. *)
Inductive mutation : Type :=
  | AddInvoice (d : Date.date) (amount : float) (description : string)
      (invoice_id : option string)
  | DeleteInvoice (invoice_id : string)
  | SetTaxRates (fed_rate state_rate : float) (state_code : string)
  | ChangeDataLocation (new_location : string).

Definition run_mutation (m : mutation) : M (bool * string) :=
  match m with
  | AddInvoice d a desc id => add_invoice d a desc id
  | DeleteInvoice id => delete_invoice id
  | SetTaxRates f s c => set_tax_rates f s c
  | ChangeDataLocation p => change_data_location p
  end.

(** Two invoices share the id A-2. *)
Definition first_a2 : Invoice :=
  {| date := mar_31_2024; amount := 200.25;
     description := PyStr "second"; invoice_id := PyStr "A-2" |}.

Definition second_a2 : Invoice :=
  {| date := apr_1_2024; amount := 40;
     description := PyStr "again"; invoice_id := PyStr "A-2" |}.

Definition a1 : Invoice :=
  {| date := jan_1_2024; amount := 100.5;
     description := PyStr "first"; invoice_id := PyStr "A-1" |}.

Definition duplicate_ids_ledger : BusinessTaxCalculator :=
  with_invoices [a1; first_a2; second_a2].

(** Same date: the invoices have the same day. *)
Definition same_date (d : Date.date) (inv : Invoice) : bool :=
  Date.leb d (date inv) && Date.leb (date inv) d.

(** A file system where nothing can be written. *)
Definition read_only_fs : filesystem :=
  {| files := fun _ => Absent; writable := fun _ => false;
     dirs := fun _ => false; creatable := fun _ => false |}.

(** [x.date <= y.date] *)
Definition date_le (x y : Invoice) : Prop :=
  Date.leb (date x) (date y) = true.

(** The invoice is dated in the year. *)
Definition in_year (year : Z) (inv : Invoice) : bool :=
  Date.year (date inv) =? year.

(** What a key of the file gives: its value, or the value before. *)
Definition from_file (items : list (string * pyobj)) (k : string)
    (before : pyobj) : pyobj :=
  match Obj.lookup k items with
  | Some v => v
  | None => before
  end.

(** A file with one entry that reads and one whose date has no day, and
    rates of its own. *)
Definition short_date_file : file :=
  Document
    (PyDict [("fed_tax_rate", PyFloat 0.3);
             ("invoices",
              PyList [good_entry;
                      entry (PyStr "2024-02") (PyFloat 1) (PyStr "design")
                        (PyStr "INV-2")])]).

(** A file whose rates are no numbers in range. *)
Definition odd_rates_items : list (string * pyobj) :=
  [("fed_tax_rate", PyFloat 7.5); ("state_tax_rate", PyStr "high");
   ("invoices", PyList [good_entry])].

Definition one_invoice_ledger : BusinessTaxCalculator :=
  with_invoices [a1].

(** The words a header row must hold for [extract_from_pdf] to read the
    table. *)
Definition required_headers : list string :=
  ["invoice"; "date"; "amount"; "type"; "number"; "currency"].

(** The state of an extraction before its first page. *)
Definition no_candidates : Extractor.locals :=
  {| Extractor.date_var := None; Extractor.invoices := [] |}.

(** A table like the one of [table_page] without its currency column. *)
Definition headers_without_currency : Extractor.row :=
  [Some "Invoice Type"; Some "Invoice Number"; Some "Invoice Date";
   Some "Amount"].

(** A page that has text and no table. *)
Definition text_page (text : string) : Extractor.page :=
  {| Extractor.extract_text := Ok (Some text);
     Extractor.extract_tables := Ok [] |}.

(** A regular-expression engine that finds one invoice in every text. *)
Definition one_match (p : Extractor.text_pattern) (text : string)
    : list (string * string * string) := [("9", "2024-03-15", "1")].

(** DD/MM/YYYY *)
Definition dmy_text (sep : string) (d : Date.date) : string :=
  Str.zero_pad 2 (Date.day d) ++ sep ++ Str.zero_pad 2 (Date.month d)
  ++ sep ++ Str.zero_pad 4 (Date.year d).

(** The decimal text of [n], zero-padded to [width], is [width] digits. *)
Definition all_digits (width : nat) (n : Z) : bool :=
  (String.length (Str.zero_pad width n) =? width)%nat &&
  String.eqb (Str.filter Str.is_digit (Str.zero_pad width n))
    (Str.zero_pad width n).

(** The candidates of [st'] are those of [st] and possibly more after
    them. *)
Definition extends (st st' : Extractor.locals) : Prop :=
  exists more,
    Extractor.invoices st' = (Extractor.invoices st ++ more)%list.

(** A remittance table with one row that reads and one whose amount does
    not. *)
Definition remittance_headers : Extractor.row :=
  [Some "Document Type"; Some "Document Number"; Some "Document Date";
   Some "Payment Amount"].

Definition remittance_page (rows : list Extractor.row) : Extractor.page :=
  {| Extractor.extract_text := Ok (Some "REMITTANCE ADVICE");
     Extractor.extract_tables := Ok [remittance_headers :: rows] |}.

(** The same table on a page whose text does not say what it is. *)
Definition statement_page (rows : list Extractor.row) : Extractor.page :=
  {| Extractor.extract_text := Ok (Some "Statement of account");
     Extractor.extract_tables := Ok [remittance_headers :: rows] |}.

Definition remittance_row_1 : Extractor.row :=
  [Some "Invoice"; Some "7001"; Some "03/04/2024"; Some "EUR 10.50"].

Definition remittance_row_bad : Extractor.row :=
  [Some "Invoice"; Some "7002"; Some "03/04/2024"; Some "1.2.3"].

Definition apr_3_2024 : Date.date := Date.Build 2024 4 3 eq_refl.

(** What a class makes of an ASCII character. *)
Definition class_matches (k : Extractor.char_class) (c : ascii) : bool :=
  match k with
  | Extractor.AnyDigit => Str.is_digit c
  | Extractor.Range lo hi => (Str.code lo <=? Str.code c)%nat
                             && (Str.code c <=? Str.code hi)%nat
  | Extractor.Char c' => Ascii.eqb c c'
  end.

(** [t] is an ASCII text, the first alternative of a field that matches
    the start of [t] matches all of [t], and no alternative before it is
    longer than [t]. *)
Fixpoint first_full (alternatives : list (list Extractor.char_class))
    (t : string) : bool :=
  match alternatives with
  | [] => false
  | a :: rest =>
      Unicode.is_ascii t && (List.length a <=? String.length t)%nat &&
      match Extractor.match_alternative a t with
      | Some (m, EmptyString) => true
      | Some _ => false
      | None => first_full rest t
      end
  end.

Definition field_reads (tok : Extractor.token) (width : nat) (n : Z) : bool :=
  match tok with
  | Extractor.Field alternatives =>
      first_full alternatives (Str.zero_pad width n)
  | Extractor.Lit _ => false
  end.

(** The ledger after [load_invoices] on the file system [fs1]. *)
Definition loaded (s0 : BusinessTaxCalculator) (fs1 : filesystem)
    : BusinessTaxCalculator :=
  self (snd (load_invoices {| self := s0; fs := fs1 |})).

(** The invoices after adding an invoice under the id [id] and deleting
    the id [id]. *)
Definition add_then_delete (d : Date.date) (a : float) (desc id : string)
    (w : world) : list Invoice :=
  invoices
    (self (snd (delete_invoice id (snd (add_invoice d a desc (Some id) w))))).

(** A rate that is no number. *)
Definition not_a_number (o : pyobj) : bool :=
  match o with
  | PyFloat _ | PyInt _ | PyBool _ => false
  | _ => true
  end.

(** The class of the exception [datetime.date] raises for a year outside
    1..9999: ValueError for a C int, OverflowError beyond. *)
Definition year_error (year : Z) : exn_class :=
  if Date.fits_int year then ValueError else OverflowError.

(** Every literal of the class is an ASCII character. *)
Definition ascii_class (k : Extractor.char_class) : bool :=
  match k with
  | Extractor.AnyDigit => true
  | Extractor.Range lo hi => (Unicode.byte hi <? 128)%N
  | Extractor.Char c => (Unicode.byte c <? 128)%N
  end.

(** A field of the token takes at most four characters. *)
Definition short_token (t : Extractor.token) : bool :=
  match t with
  | Extractor.Field alternatives =>
      forallb (fun a => (List.length a <=? 4)%nat && forallb ascii_class a)
        alternatives
  | Extractor.Lit _ => true
  end.

(** The text has at most four characters in the eyes of [int()]. *)
Definition short_text (f : string) : Prop :=
  (String.length (Unicode.transform f) <= 4)%nat.

(** A field that may be missing is short when it is there. *)
Definition short_field (o : option string) : Prop :=
  match o with Some f => short_text f | None => True end.

(** U+FF12, FULLWIDTH DIGIT TWO, and U+00A0, NO-BREAK SPACE. *)
Definition fullwidth_two : string :=
  String (ascii_of_nat 239) (String (ascii_of_nat 188)
    (String (ascii_of_nat 146) EmptyString)).
Definition no_break_space : string :=
  String (ascii_of_nat 194) (String (ascii_of_nat 160) EmptyString).


(** ** Dates *)

Ltac to_prop :=
  repeat match goal with
  | H : _ && _ = true |- _ => apply andb_true_iff in H; destruct H
  | H : _ || _ = true |- _ => apply orb_true_iff in H
  | H : negb _ = true |- _ => apply negb_true_iff in H
  | H : (_ <=? _) = true |- _ => apply Z.leb_le in H
  | H : (_ <? _) = true |- _ => apply Z.ltb_lt in H
  | H : (_ =? _) = true |- _ => apply Z.eqb_eq in H
  | H : (_ <=? _) = false |- _ => apply Z.leb_gt in H
  | H : (_ <? _) = false |- _ => apply Z.ltb_ge in H
  | H : (_ =? _) = false |- _ => apply Z.eqb_neq in H
  end.

(** Case analysis on the first [match] of a hypothesis. *)
Ltac break_match_in H :=
  match type of H with
  | context [match ?x with _ => _ end] => destruct x eqn:?
  end.

Lemma days_in_month_bounds (y m : Z) : 28 <= Date.days_in_month y m <= 31.
Proof.
  unfold Date.days_in_month.
  destruct (m =? 2); [destruct (Date.isleap y); lia |].
  destruct ((m =? 4) || (m =? 6) || (m =? 9) || (m =? 11)); lia.
Qed.

(** The fields of a valid date are C ints. *)
Lemma valid_fits (y m d : Z) :
  Date.valid y m d = true ->
  Date.fits_int y && Date.fits_int m && Date.fits_int d = true.
Proof.
  intro H. pose proof (days_in_month_bounds y m) as B.
  unfold Date.valid, Date.MINYEAR, Date.MAXYEAR in H. to_prop.
  unfold Date.fits_int, Date.INT_MIN, Date.INT_MAX.
  repeat (apply andb_true_iff; split); apply Z.leb_le; lia.
Qed.

Lemma make_ok (y m d : Z) (H : Date.valid y m d = true) :
  Date.make y m d = Ok (Date.Build y m d H).
Proof.
  unfold Date.make. rewrite (valid_fits y m d H).
  destruct (bool_dec (Date.valid y m d) true) as [H' | H'].
  - do 2 f_equal. apply UIP_dec, bool_dec.
  - contradiction.
Qed.

Lemma make_fields (y m d : Z) (x : Date.date) :
  Date.make y m d = Ok x ->
  Date.year x = y /\ Date.month x = m /\ Date.day x = d.
Proof.
  unfold Date.make.
  destruct (Date.fits_int y && Date.fits_int m && Date.fits_int d);
    [| discriminate].
  destruct (bool_dec (Date.valid y m d) true); intro H; inversion H; subst.
  simpl. auto.
Qed.

Lemma make_self (d : Date.date) :
  Date.make (Date.year d) (Date.month d) (Date.day d) = Ok d.
Proof.
  destruct d as [y m dd H]; simpl. apply make_ok.
Qed.

Lemma date_ranges (d : Date.date) :
  1 <= Date.year d <= 9999 /\ 1 <= Date.month d <= 12 /\
  1 <= Date.day d <= Date.days_in_month (Date.year d) (Date.month d).
Proof.
  destruct d as [y m dd H]; simpl.
  unfold Date.valid, Date.MINYEAR, Date.MAXYEAR in H. to_prop. lia.
Qed.

Lemma leb_iff (a b : Date.date) :
  Date.leb a b = true <->
  Date.year a < Date.year b \/
  (Date.year a = Date.year b /\
   (Date.month a < Date.month b \/
    (Date.month a = Date.month b /\ Date.day a <= Date.day b))).
Proof.
  unfold Date.leb.
  rewrite orb_true_iff, andb_true_iff, orb_true_iff, andb_true_iff.
  rewrite !Z.ltb_lt, !Z.eqb_eq, Z.leb_le. tauto.
Qed.

Lemma leb_refl (a : Date.date) : Date.leb a a = true.
Proof. apply leb_iff. lia. Qed.

(** ** Quarter bounds *)

Lemma valid_in_range (y m d : Z) :
  Date.MINYEAR <= y <= Date.MAXYEAR -> 1 <= m <= 12 ->
  1 <= d <= Date.days_in_month y m -> Date.valid y m d = true.
Proof.
  intros Hy Hm Hd. unfold Date.valid.
  repeat (apply andb_true_iff; split); apply Z.leb_le; lia.
Qed.

(** For a year [datetime] has and a quarter in 1..4 the bounds are what the
    code computes: the 1st of month [3q-2] and the last day of month [3q]. *)
Lemma quarter_bounds_value (year quarter : Z) :
  Date.MINYEAR <= year <= Date.MAXYEAR -> 1 <= quarter <= 4 ->
  exists start_date end_date,
    get_quarter_bounds year quarter = Ok (start_date, end_date) /\
    Date.year start_date = year /\
    Date.month start_date = (quarter - 1) * 3 + 1 /\
    Date.day start_date = 1 /\
    Date.year end_date = year /\
    Date.month end_date = quarter * 3 /\
    Date.day end_date = Date.days_in_month year (quarter * 3).
Proof.
  intros Hy Hq.
  pose proof (days_in_month_bounds year ((quarter - 1) * 3 + 1)) as B1.
  pose proof (days_in_month_bounds year (quarter * 3)) as B2.
  assert (V1 : Date.valid year ((quarter - 1) * 3 + 1) 1 = true)
    by (apply valid_in_range; lia).
  assert (V2 : Date.valid year (quarter * 3)
                 (Date.days_in_month year (quarter * 3)) = true)
    by (apply valid_in_range; lia).
  exists (Date.Build _ _ _ V1), (Date.Build _ _ _ V2).
  split; [| simpl; repeat split; reflexivity].
  unfold get_quarter_bounds.
  replace ((quarter <? 1) || (quarter >? 4)) with false.
  2:{ symmetry. apply orb_false_iff. split; [apply Z.ltb_ge; lia |].
      rewrite Z.gtb_ltb. apply Z.ltb_ge; lia. }
  rewrite (make_ok _ _ _ V1). simpl bind.
  unfold Date.monthrange_days.
  replace ((1 <=? quarter * 3) && (quarter * 3 <=? 12)) with true.
  2:{ symmetry. apply andb_true_iff. split; apply Z.leb_le; lia. }
  simpl bind. rewrite (make_ok _ _ _ V2). reflexivity.
Qed.

Lemma quarter_bounds_ok_inv (year quarter : Z) (a b : Date.date) :
  get_quarter_bounds year quarter = Ok (a, b) ->
  (Date.MINYEAR <= year <= Date.MAXYEAR) /\ 1 <= quarter <= 4.
Proof.
  unfold get_quarter_bounds.
  destruct ((quarter <? 1) || (quarter >? 4)) eqn:E; [discriminate |].
  apply orb_false_iff in E. destruct E as [E1 E2].
  apply Z.ltb_ge in E1. rewrite Z.gtb_ltb in E2. apply Z.ltb_ge in E2.
  destruct (Date.make year ((quarter - 1) * 3 + 1) 1) as [s |] eqn:M;
    [| discriminate].
  intros _. pose proof (date_ranges s) as R.
  apply make_fields in M. destruct M as (My & _ & _).
  unfold Date.MINYEAR, Date.MAXYEAR. lia.
Qed.

(** ** C1: a quarter outside 1..4 *)

(** C1, as amended.  For every ledger, every year and every quarter outside
    1..4, [get_quarter_bounds] raises ValueError("Quarter must be between 1
    and 4"), and [get_quarterly_earnings], the two quarterly taxes and
    [generate_quarterly_report] for that quarter let the same exception
    through to their caller: none of them returns a value. *)
Theorem invalid_quarter_raises (s : BusinessTaxCalculator) (year quarter : Z) :
  quarter < 1 \/ 4 < quarter ->
  get_quarter_bounds year quarter = Raise quarter_error /\
  get_quarterly_earnings s year quarter = Raise quarter_error /\
  calculate_quarterly_federal_tax s year quarter = Raise quarter_error /\
  calculate_quarterly_state_tax s year quarter = Raise quarter_error /\
  generate_quarterly_report s year (Some quarter) = Raise quarter_error.
Proof.
  intro Hq.
  assert (B : get_quarter_bounds year quarter = Raise quarter_error).
  { unfold get_quarter_bounds.
    replace ((quarter <? 1) || (quarter >? 4)) with true; [reflexivity |].
    symmetry. apply orb_true_iff. rewrite Z.gtb_ltb.
    destruct Hq; [left | right]; apply Z.ltb_lt; lia. }
  assert (E : get_quarterly_earnings s year quarter = Raise quarter_error).
  { unfold get_quarterly_earnings. rewrite B. reflexivity. }
  repeat split.
  - exact B.
  - exact E.
  - unfold calculate_quarterly_federal_tax. rewrite E. reflexivity.
  - unfold calculate_quarterly_state_tax. rewrite E. reflexivity.
  - unfold generate_quarterly_report, report_loop, quarter_entry.
    rewrite E. reflexivity.
Qed.

Lemma invalid_quarter_raises_witness :
  (5 < 1 \/ 4 < 5) /\
  get_quarter_bounds 2024 5 = Raise quarter_error /\
  get_quarterly_earnings sample_ledger 2024 5 = Raise quarter_error /\
  calculate_quarterly_federal_tax sample_ledger 2024 5 = Raise quarter_error /\
  calculate_quarterly_state_tax sample_ledger 2024 5 = Raise quarter_error /\
  generate_quarterly_report sample_ledger 2024 (Some 5) = Raise quarter_error.
Proof.
  split; [right; lia |].
  apply (invalid_quarter_raises sample_ledger 2024 5). right; lia.
Defined.

(** C1 as stated fails: for year 2024 and quarter 5 (and quarter 0) each
    quarter-dependent operation ends in an exception that leaves the ledger
    component; no (success, message) pair is returned. *)
Lemma invalid_quarter_exception_crosses :
  raises (get_quarter_bounds 2024 5) /\
  raises (get_quarterly_earnings sample_ledger 2024 5) /\
  raises (calculate_quarterly_federal_tax sample_ledger 2024 5) /\
  raises (calculate_quarterly_state_tax sample_ledger 2024 5) /\
  raises (generate_quarterly_report sample_ledger 2024 (Some 5)) /\
  raises (get_quarter_bounds 2024 0).
Proof. repeat split. Qed.

(** ** C4: the bounds of a quarter *)

(** C4, as amended.  For every year from 1 to 9999 (the years [datetime]
    has) and every quarter in 1..4, [get_quarter_bounds] returns a start
    date on the 1st of the quarter's first month (Jan 1, Apr 1, Jul 1,
    Oct 1) and an end date on the last calendar day of its last month
    (Mar 31, Jun 30, Sep 30, Dec 31) of that year; a date lies within the
    bounds exactly when it is a date of that year in one of the quarter's
    three months, so the first quarter holds February 29 of a leap year. *)
Theorem quarter_bounds_calendar (year quarter : Z) :
  Date.MINYEAR <= year <= Date.MAXYEAR -> 1 <= quarter <= 4 ->
  exists start_date end_date,
    get_quarter_bounds year quarter = Ok (start_date, end_date) /\
    Date.year start_date = year /\
    (Date.month start_date, Date.day start_date) = Spec.quarter_start quarter /\
    Date.year end_date = year /\
    (Date.month end_date, Date.day end_date) = Spec.quarter_end quarter /\
    Date.day end_date = Date.days_in_month year (Date.month end_date) /\
    forall d : Date.date,
      Spec.in_closed_interval start_date end_date d = true <->
      Date.year d = year /\
      (quarter - 1) * 3 + 1 <= Date.month d <= quarter * 3.
Proof.
  intros Hy Hq.
  destruct (quarter_bounds_value year quarter Hy Hq)
    as (a & b & Hb & Ay & Am & Ad & By & Bm & Bd).
  exists a, b. split; [exact Hb |].
  assert (Q : quarter = 1 \/ quarter = 2 \/ quarter = 3 \/ quarter = 4) by lia.
  split; [exact Ay |]. split.
  { rewrite Am, Ad. destruct Q as [-> | [-> | [-> | ->]]]; reflexivity. }
  split; [exact By |]. split.
  { rewrite Bm, Bd. destruct Q as [-> | [-> | [-> | ->]]]; reflexivity. }
  split; [rewrite Bm; exact Bd |].
  intro d. unfold Spec.in_closed_interval.
  rewrite andb_true_iff, !leb_iff.
  pose proof (date_ranges d) as (_ & _ & Dd).
  rewrite Ay, Am, Ad, By, Bm, Bd.
  split.
  - intros [L U]. lia.
  - intros [Ey [L U]]. rewrite Ey in Dd.
    split; [lia |].
    destruct (Z.eq_dec (Date.month d) (quarter * 3)) as [E | N].
    + rewrite E in Dd. lia.
    + lia.
Qed.

Lemma quarter_bounds_calendar_witness :
  exists start_date end_date,
    get_quarter_bounds 2024 1 = Ok (start_date, end_date) /\
    Date.year start_date = 2024 /\
    (Date.month start_date, Date.day start_date) = Spec.quarter_start 1 /\
    Date.year end_date = 2024 /\
    (Date.month end_date, Date.day end_date) = Spec.quarter_end 1 /\
    Date.day end_date = Date.days_in_month 2024 (Date.month end_date) /\
    forall d : Date.date,
      Spec.in_closed_interval start_date end_date d = true <->
      Date.year d = 2024 /\ (1 - 1) * 3 + 1 <= Date.month d <= 1 * 3.
Proof.
  apply (quarter_bounds_calendar 2024 1);
    unfold Date.MINYEAR, Date.MAXYEAR; lia.
Defined.

(** The bounds of the first quarter in a leap year and in the year after,
    and of the other quarters of 2024. *)
Example quarter_bounds_examples :
  get_quarter_bounds 2024 1 = Ok (jan_1_2024, mar_31_2024) /\
  get_quarter_bounds 2025 1
    = Ok (Date.Build 2025 1 1 eq_refl, Date.Build 2025 3 31 eq_refl) /\
  get_quarter_bounds 2024 2
    = Ok (apr_1_2024, Date.Build 2024 6 30 eq_refl) /\
  get_quarter_bounds 2024 3
    = Ok (Date.Build 2024 7 1 eq_refl, Date.Build 2024 9 30 eq_refl) /\
  get_quarter_bounds 2024 4
    = Ok (Date.Build 2024 10 1 eq_refl, Date.Build 2024 12 31 eq_refl).
Proof. repeat split. Qed.

(** C4 as stated fails for a year [datetime] does not have: for year 0 (and
    for year 10000) and quarter 1 the call raises ValueError and returns no
    dates. *)
Lemma quarter_bounds_year_out_of_range :
  raises_class ValueError (get_quarter_bounds 0 1) /\
  raises_class ValueError (get_quarter_bounds 10000 1).
Proof. split; reflexivity. Qed.

(** ** C5: earnings are sums over a closed interval *)

Lemma fold_within_filter (a b : Date.date) (l : list Invoice) (acc : float) :
  fold_left
    (fun total inv =>
       if within a b inv then (total + amount inv)%float else total) l acc
  = fold_left (fun total inv => (total + amount inv)%float)
      (Spec.invoices_between a b l) acc.
Proof.
  revert acc. induction l as [| inv l IH]; intro acc; simpl.
  - reflexivity.
  - unfold within, Spec.in_closed_interval.
    destruct (Date.leb a (date inv) && Date.leb (date inv) b); simpl;
      apply IH.
Qed.

Lemma total_within_sum (a b : Date.date) (l : list Invoice) :
  total_within a b l = Spec.sum_amounts (Spec.invoices_between a b l).
Proof. apply fold_within_filter. Qed.

Lemma bounds_ordered (year quarter : Z) (a b : Date.date) :
  get_quarter_bounds year quarter = Ok (a, b) -> Date.leb a b = true.
Proof.
  intro H. destruct (quarter_bounds_ok_inv _ _ _ _ H) as [Hy Hq].
  destruct (quarter_bounds_value year quarter Hy Hq)
    as (a' & b' & Hb & Ay & Am & Ad & By & Bm & Bd).
  rewrite H in Hb. inversion Hb; subst a' b'.
  apply leb_iff. lia.
Qed.

(** C5.  With [start_date] and [end_date] the bounds of the quarter,
    [get_quarterly_earnings] returns the sum of the amounts of exactly the
    invoices with [start_date <= date <= end_date]; an invoice dated on
    either bound is among them; and [get_yearly_earnings] returns the sum
    over the invoices with Jan 1 <= date <= Dec 31 of the year. *)
Theorem earnings_sum_closed_interval (s : BusinessTaxCalculator)
    (year quarter : Z) (start_date end_date : Date.date) :
  get_quarter_bounds year quarter = Ok (start_date, end_date) ->
  get_quarterly_earnings s year quarter
    = Ok (Spec.sum_amounts
            (Spec.invoices_between start_date end_date (invoices s))) /\
  (forall inv, In inv (invoices s) ->
     date inv = start_date \/ date inv = end_date ->
     In inv (Spec.invoices_between start_date end_date (invoices s))) /\
  (forall jan1 dec31,
     Date.make year 1 1 = Ok jan1 -> Date.make year 12 31 = Ok dec31 ->
     get_yearly_earnings s year
       = Ok (Spec.sum_amounts (Spec.invoices_between jan1 dec31 (invoices s)))).
Proof.
  intro H. repeat split.
  - unfold get_quarterly_earnings. rewrite H. simpl.
    now rewrite total_within_sum.
  - intros inv Hin Hd. apply filter_In. split; [exact Hin |].
    pose proof (bounds_ordered _ _ _ _ H) as Hab.
    unfold Spec.in_closed_interval.
    destruct Hd as [-> | ->]; rewrite leb_refl, Hab; reflexivity.
  - intros jan1 dec31 H1 H2. unfold get_yearly_earnings.
    rewrite H1, H2. simpl. now rewrite total_within_sum.
Qed.

Lemma earnings_sum_closed_interval_witness :
  get_quarterly_earnings sample_ledger 2024 1
    = Ok (Spec.sum_amounts
            (Spec.invoices_between jan_1_2024 mar_31_2024
               (invoices sample_ledger))) /\
  (forall inv, In inv (invoices sample_ledger) ->
     date inv = jan_1_2024 \/ date inv = mar_31_2024 ->
     In inv (Spec.invoices_between jan_1_2024 mar_31_2024
               (invoices sample_ledger))) /\
  (forall jan1 dec31,
     Date.make 2024 1 1 = Ok jan1 -> Date.make 2024 12 31 = Ok dec31 ->
     get_yearly_earnings sample_ledger 2024
       = Ok (Spec.sum_amounts
               (Spec.invoices_between jan1 dec31 (invoices sample_ledger)))).
Proof.
  apply (earnings_sum_closed_interval sample_ledger 2024 1
           jan_1_2024 mar_31_2024).
  reflexivity.
Defined.

(** On the sample ledger the first quarter of 2024 takes the invoices of
    Jan 1 and Mar 31 and leaves out the one of Apr 1. *)
Example sample_first_quarter :
  get_quarterly_earnings sample_ledger 2024 1 = Ok 300.75%float /\
  get_yearly_earnings sample_ledger 2024 = Ok 340.75%float.
Proof. split; reflexivity. Qed.

(** ** C6: the SEP contribution *)

Lemma eqb_zero_inv (x : float) :
  (x =? 0)%float = true -> exists sg, Prim2SF x = S754_zero sg.
Proof.
  rewrite FloatAxioms.eqb_spec.
  change (Prim2SF 0) with (S754_zero false).
  destruct (Prim2SF x) as [sg | sg | | sg m e]; simpl; intro H.
  - now exists sg.
  - destruct sg; discriminate.
  - discriminate.
  - destruct sg; discriminate.
Qed.

(** A zero times 0.20, capped at 69000, is a zero. *)
Lemma capped_share_of_zero (x : float) :
  (x =? 0)%float = true ->
  (Float.min (x * 0.20) 69000 =? 0)%float = true.
Proof.
  intro H. destruct (eqb_zero_inv x H) as [sg Hx].
  assert (P : Prim2SF (x * 0.20) = S754_zero sg).
  { rewrite mul_spec, Hx. destruct sg; reflexivity. }
  unfold Float.min.
  replace (69000 <? x * 0.20)%float with false.
  - rewrite FloatAxioms.eqb_spec, P. destruct sg; reflexivity.
  - rewrite ltb_spec, P. destruct sg; reflexivity.
Qed.

(** C6.  With [ye] the yearly earnings of the year, the SEP result has
    potential contribution [ye * 0.20], actual contribution
    [min(potential, 69000)], limit 69000, and contribution percent 0 when
    [ye == 0] (no division is made, and the actual contribution is then 0),
    else [actual / ye * 100]. *)
Theorem sep_contribution_fields (s : BusinessTaxCalculator) (year : Z)
    (ye : float) :
  get_yearly_earnings s year = Ok ye ->
  exists r,
    calculate_sep_401k_limit s year = Ok r /\
    yearly_earnings r = ye /\
    potential_contribution r = (ye * 0.20)%float /\
    actual_contribution r = Float.min (potential_contribution r) 69000 /\
    max_contribution_limit r = 69000%float /\
    ((ye =? 0)%float = true ->
       contribution_percent r = 0%float /\
       (actual_contribution r =? 0)%float = true) /\
    ((ye =? 0)%float = false ->
       contribution_percent r = (actual_contribution r / ye * 100)%float).
Proof.
  intro H. unfold calculate_sep_401k_limit. rewrite H. simpl bind.
  destruct (ye =? 0)%float eqn:E.
  - eexists. split; [reflexivity |]. cbn -[PrimFloat.mul PrimFloat.eqb Float.min].
    do 4 (split; [reflexivity |]).
    split; [| discriminate].
    intros _. split; [reflexivity |]. now apply capped_share_of_zero.
  - unfold Float.div. rewrite E. simpl bind.
    eexists. split; [reflexivity |]. cbn -[PrimFloat.mul PrimFloat.eqb Float.min].
    do 4 (split; [reflexivity |]).
    split; [discriminate |]. intros _. reflexivity.
Qed.

Lemma sep_contribution_fields_witness :
  exists r,
    calculate_sep_401k_limit empty_ledger 2024 = Ok r /\
    yearly_earnings r = 0%float /\
    potential_contribution r = (0 * 0.20)%float /\
    actual_contribution r = Float.min (potential_contribution r) 69000 /\
    max_contribution_limit r = 69000%float /\
    ((0 =? 0)%float = true ->
       contribution_percent r = 0%float /\
       (actual_contribution r =? 0)%float = true) /\
    ((0 =? 0)%float = false ->
       contribution_percent r = (actual_contribution r / 0 * 100)%float).
Proof.
  apply (sep_contribution_fields empty_ledger 2024 0%float). reflexivity.
Defined.

(** Yearly earnings of 500,000 give a potential contribution of 100,000,
    capped at 69,000: 13.8 percent. *)
Example sep_capped :
  calculate_sep_401k_limit high_earner 2024
  = Ok {| yearly_earnings := 500000; potential_contribution := 100000;
          actual_contribution := 69000; max_contribution_limit := 69000;
          contribution_percent := (69000 / 500000 * 100)%float |}.
Proof. reflexivity. Qed.

(** ** C7: [set_tax_rates] is all or nothing *)

Lemma save_invoices_run (w : world) :
  save_invoices w = (Ok tt, {| self := self w; fs := after_save (self w) (fs w) |}).
Proof.
  unfold save_invoices, bindM, get_self, try_exceptM, dump, after_save.
  destruct (writable (fs w) (data_file (self w))); destruct w; reflexivity.
Qed.

(** C7.  When [0.0 <= fed_rate <= 1.0] and [0.0 <= state_rate <= 1.0] the
    call succeeds and the ledger holds the two new rates and the new state
    code together, its invoices untouched, and saves itself; otherwise the
    call answers (False, "Tax rates must be between 0.0 and 1.0") and the
    ledger and its file are exactly as before. *)
Theorem set_tax_rates_atomic (fed_rate state_rate : float) (code : string)
    (w : world) :
  ((0 <=? fed_rate)%float = true /\ (fed_rate <=? 1)%float = true /\
   (0 <=? state_rate)%float = true /\ (state_rate <=? 1)%float = true ->
   exists message,
     set_tax_rates fed_rate state_rate code w
     = (Ok (true, message),
        {| self := with_config fed_rate state_rate code (self w);
           fs := after_save (with_config fed_rate state_rate code (self w))
                   (fs w) |})) /\
  (~ ((0 <=? fed_rate)%float = true /\ (fed_rate <=? 1)%float = true /\
      (0 <=? state_rate)%float = true /\ (state_rate <=? 1)%float = true) ->
   set_tax_rates fed_rate state_rate code w
   = (Ok (false, "Tax rates must be between 0.0 and 1.0"), w)).
Proof.
  unfold set_tax_rates, rates_in_range. split.
  - intros (H1 & H2 & H3 & H4). rewrite H1, H2, H3, H4. cbn [andb].
    eexists. unfold bindM, update. cbn [self fs].
    rewrite save_invoices_run. reflexivity.
  - intro N.
    destruct (0 <=? fed_rate)%float; destruct (fed_rate <=? 1)%float;
      destruct (0 <=? state_rate)%float; destruct (state_rate <=? 1)%float;
      try reflexivity.
    exfalso. apply N. repeat split.
Qed.

Lemma set_tax_rates_atomic_witness :
  (exists message,
     set_tax_rates 0.25 0.0725 "CA" {| self := sample_ledger; fs := empty_fs |}
     = (Ok (true, message),
        {| self := with_config 0.25 0.0725 "CA" sample_ledger;
           fs := after_save (with_config 0.25 0.0725 "CA" sample_ledger)
                   empty_fs |})) /\
  set_tax_rates 1.5 0.0725 "CA" {| self := sample_ledger; fs := empty_fs |}
  = (Ok (false, "Tax rates must be between 0.0 and 1.0"),
     {| self := sample_ledger; fs := empty_fs |}).
Proof.
  split.
  - apply (set_tax_rates_atomic 0.25 0.0725 "CA"
             {| self := sample_ledger; fs := empty_fs |}).
    repeat split.
  - apply (set_tax_rates_atomic 1.5 0.0725 "CA"
             {| self := sample_ledger; fs := empty_fs |}).
    intros (_ & H & _). discriminate H.
Defined.

(** The message of a successful call. *)
Example set_tax_rates_message :
  fst (set_tax_rates 0.25 0.0725 "CA" {| self := sample_ledger; fs := empty_fs |})
  = Ok (true, "Tax rates updated: Federal 25.00%, State 7.25% (CA)").
Proof. reflexivity. Qed.

(** ** C10: generated ids collide after a deletion *)

Lemma add_invoice_run (d : Date.date) (a : float) (desc : string) (w : world) :
  let id := generated_id d (List.length (invoices (self w))) in
  let s' := append_invoice
              {| date := d; amount := a; description := PyStr desc;
                 invoice_id := PyStr id |} (self w) in
  add_invoice d a desc None w
  = (Ok (true, "Invoice " ++ id ++ " added successfully."),
     {| self := s'; fs := after_save s' (fs w) |}).
Proof.
  cbv zeta. unfold add_invoice, try_exceptM, bindM, get_self, update.
  cbn [self fs]. rewrite save_invoices_run. reflexivity.
Qed.

Lemma delete_first_run (id : string) (inv : Invoice) (rest : list Invoice)
    (w : world) :
  invoices (self w) = inv :: rest ->
  invoice_id inv = PyStr id ->
  delete_invoice id w
  = (Ok (true, "Invoice " ++ id ++ " deleted."),
     {| self := set_invoices rest (self w);
        fs := after_save (set_invoices rest (self w)) (fs w) |}).
Proof.
  intros Hl Hid. unfold delete_invoice, bindM, get_self.
  rewrite Hl. cbn [find_invoice]. rewrite Hid. cbn [eq_str].
  rewrite String.eqb_refl. unfold update, del. cbn [self fs firstn skipn app].
  rewrite save_invoices_run. reflexivity.
Qed.

(** C10.  Starting from a ledger without invoices, adding two invoices on
    one date with generated ids, deleting the first and adding a third on
    that date leaves two invoices that carry the same id, the one with
    sequence number 0001: the number is the size of the collection when the
    invoice is added, and the deletion made the size 1 again. *)
Theorem generated_ids_collide_after_delete (d : Date.date)
    (a1 a2 a3 : float) (d1 d2 d3 : string) (dir path : string)
    (fed state code : pyobj) (fs0 : filesystem) :
  let w := {| self := {| data_dir := dir; data_file := path;
                         fed_tax_rate := fed; state_tax_rate := state;
                         state_code := code; invoices := [] |};
              fs := fs0 |} in
  invoices (self (add_add_delete_add d a1 a2 a3 d1 d2 d3 w))
  = [{| date := d; amount := a2; description := PyStr d2;
        invoice_id := PyStr (generated_id d 1) |};
     {| date := d; amount := a3; description := PyStr d3;
        invoice_id := PyStr (generated_id d 1) |}].
Proof.
  cbv zeta. unfold add_add_delete_add.
  match goal with |- context [add_invoice d a1 d1 None ?w] =>
    rewrite (add_invoice_run d a1 d1 w) end.
  cbn [snd self fs invoices append_invoice set_invoices List.length app].
  match goal with |- context [add_invoice d a2 d2 None ?w] =>
    rewrite (add_invoice_run d a2 d2 w) end.
  cbn [snd self fs invoices append_invoice set_invoices List.length app].
  erewrite delete_first_run; [| reflexivity | reflexivity].
  cbn [snd self fs invoices set_invoices].
  rewrite add_invoice_run. reflexivity.
Qed.

(** The run on January 15, 2024: both invoices left are INV-20240115-0001. *)
Example generated_ids_collide_run :
  map invoice_id
    (invoices (self (add_add_delete_add jan_15_2024 100 250.5 7 "a" "b" "c"
                       {| self := empty_ledger; fs := empty_fs |})))
  = [PyStr "INV-20240115-0001"; PyStr "INV-20240115-0001"].
Proof. reflexivity. Qed.

(** ** C3: save, then load in a fresh instance *)

Lemma reads_back_years :
  forallb (reads_back 4) (map Z.of_nat (seq 1 (Z.to_nat 9999))) = true.
Proof. vm_compute. reflexivity. Qed.

Lemma reads_back_days :
  forallb (reads_back 2) (map Z.of_nat (seq 1 (Z.to_nat 31))) = true.
Proof. vm_compute. reflexivity. Qed.

Lemma reads_back_spec (width : nat) (n : Z) :
  reads_back width n = true ->
  Str.contains_char "-" (Str.zero_pad width n) = false /\
  Str.to_int (Str.zero_pad width n) = Ok n.
Proof.
  unfold reads_back. intro H. apply andb_true_iff in H. destruct H as [H1 H2].
  apply negb_true_iff in H1. split; [exact H1 |].
  destruct (Str.to_int (Str.zero_pad width n)) as [z |]; [| discriminate].
  apply Z.eqb_eq in H2. now subst.
Qed.

Lemma in_range_list (n hi : Z) :
  1 <= n <= hi -> In n (map Z.of_nat (seq 1 (Z.to_nat hi))).
Proof.
  intro H. apply in_map_iff. exists (Z.to_nat n). split; [lia |].
  apply in_seq. lia.
Qed.

Lemma year_reads_back (y : Z) :
  1 <= y <= 9999 ->
  Str.contains_char "-" (Str.zero_pad 4 y) = false /\
  Str.to_int (Str.zero_pad 4 y) = Ok y.
Proof.
  intro H. apply reads_back_spec.
  pose proof reads_back_years as A. rewrite forallb_forall in A.
  apply A. exact (in_range_list y 9999 H).
Qed.

Lemma day_reads_back (n : Z) :
  1 <= n <= 31 ->
  Str.contains_char "-" (Str.zero_pad 2 n) = false /\
  Str.to_int (Str.zero_pad 2 n) = Ok n.
Proof.
  intro H. apply reads_back_spec.
  pose proof reads_back_days as A. rewrite forallb_forall in A.
  apply A. exact (in_range_list n 31 H).
Qed.

Lemma split_whole (c : ascii) (s : string) :
  Str.contains_char c s = false -> Str.split c s = [s].
Proof.
  induction s as [| x s IH]; simpl; intro H; [reflexivity |].
  apply orb_false_iff in H. destruct H as [H1 H2].
  rewrite Ascii.eqb_sym, H1, (IH H2). reflexivity.
Qed.

Lemma split_head (c : ascii) (a b : string) :
  Str.contains_char c a = false ->
  Str.split c (a ++ String c b) = a :: Str.split c b.
Proof.
  induction a as [| x a IH]; simpl; intro H.
  - now rewrite Ascii.eqb_refl.
  - apply orb_false_iff in H. destruct H as [H1 H2].
    rewrite Ascii.eqb_sym, H1, (IH H2). reflexivity.
Qed.

(** The three hyphen-separated parts of an ISO date are its year, month and
    day, and [int()] reads them back. *)
Lemma isoformat_parts (d : Date.date) :
  comprehension Str.to_int (Str.split "-" (Date.isoformat d))
  = Ok [Date.year d; Date.month d; Date.day d].
Proof.
  pose proof (date_ranges d) as (Hy & Hm & Hd).
  pose proof (days_in_month_bounds (Date.year d) (Date.month d)) as Hb.
  destruct (year_reads_back (Date.year d) Hy) as [Y1 Y2].
  destruct (day_reads_back (Date.month d)) as [M1 M2]; [lia |].
  destruct (day_reads_back (Date.day d)) as [D1 D2]; [lia |].
  unfold Date.isoformat.
  change ("-" ++ ?x)%string with (String "-" x).
  rewrite (split_head _ _ _ Y1).
  change ("-" ++ ?x)%string with (String "-" x).
  rewrite (split_head _ _ _ M1), (split_whole _ _ D1).
  cbn [comprehension]. rewrite Y2, M2, D2. reflexivity.
Qed.

Lemma entry_roundtrip (inv : Invoice) :
  invoice_of_entry (invoice_to_dict inv) = Ok inv.
Proof.
  unfold invoice_of_entry, invoice_to_dict.
  change (getitem (PyDict ?l) "date") with (Ok (PyStr (Date.isoformat (date inv)))).
  cbn [bind Obj.split]. rewrite isoformat_parts.
  cbn [bind index nth_error]. rewrite make_self. cbn [bind].
  destruct inv; reflexivity.
Qed.

(** The loop of [load_invoices] over dumped invoices appends them all. *)
Lemma load_loop_dumped (l : list Invoice) (w : world) :
  load_loop (map invoice_to_dict l) w
  = (Ok tt, {| self := set_invoices (invoices (self w) ++ l) (self w);
               fs := fs w |}).
Proof.
  revert w. induction l as [| inv l IH]; intro w.
  - cbn [map load_loop]. unfold ret. rewrite app_nil_r.
    destruct w as [[] ?]; reflexivity.
  - cbn [map load_loop]. unfold bindM, lift. rewrite entry_roundtrip.
    unfold update. rewrite IH. cbn [self fs append_invoice set_invoices invoices].
    rewrite <- app_assoc. reflexivity.
Qed.

(** Loading a file that holds the dump of [s] gives the invoices and the
    configuration of [s]. *)
Lemma load_dumped (s s0 : BusinessTaxCalculator) (fs1 : filesystem) :
  files fs1 (data_file s0) = Document (data_of s) ->
  load_invoices {| self := s0; fs := fs1 |}
  = (Ok tt,
     {| self := {| data_dir := data_dir s0; data_file := data_file s0;
                   fed_tax_rate := fed_tax_rate s;
                   state_tax_rate := state_tax_rate s;
                   state_code := state_code s;
                   invoices := invoices s |};
        fs := fs1 |}).
Proof.
  intro H. unfold load_invoices, exists_, is_file, try_exceptM.
  cbn [self fs]. rewrite H. cbn [orb].
  unfold bindM at 1. unfold lift at 1. unfold json_load.
  cbn [self fs]. rewrite H.
  unfold bindM at 1. unfold update at 1. cbn [self fs].
  unfold bindM at 1. unfold lift at 1.
  change (Obj.get (data_of s) "invoices" (PyList []))
    with (Ok (PyList (map invoice_to_dict (invoices s)))).
  cbv iota beta.
  unfold bindM at 1. unfold lift at 1. cbn [Obj.iter].
  unfold bindM at 1. rewrite load_loop_dumped.
  reflexivity.
Qed.

(** When [os.makedirs] returns, the files are as before. *)
Lemma makedirs_usable (fs0 : filesystem) (path : string) :
  usable_dir fs0 path = true ->
  exists fs1,
    makedirs fs0 path = Ok fs1 /\
    files fs1 = files fs0 /\
    writable fs1 = writable fs0.
Proof.
  unfold usable_dir, makedirs. intro H.
  apply andb_true_iff in H. destruct H as [H C].
  apply andb_true_iff in H. destruct H as [N F].
  destruct path as [| c path]; [discriminate |].
  apply negb_true_iff in F. rewrite F.
  destruct (dirs fs0 (String c path)).
  - exists fs0. repeat split.
  - cbn [orb] in C. rewrite C.
    exists (mkdir fs0 (String c path)). repeat split.
Qed.

Lemma makedirs_unusable (fs0 : filesystem) (path : string) :
  usable_dir fs0 path = false ->
  raises_class OSError (makedirs fs0 path).
Proof.
  unfold usable_dir, makedirs. intro H.
  destruct path as [| c path]; [reflexivity |].
  cbn [String.eqb negb andb] in H.
  destruct (is_file fs0 (String c path)); [reflexivity |].
  destruct (dirs fs0 (String c path)); [discriminate |].
  destruct (creatable fs0 (String c path)); [discriminate | reflexivity].
Qed.

(** A fresh instance built on a file that holds the dump of [s]. *)
Lemma init_dumped (s : BusinessTaxCalculator) (fs1 : filesystem)
    (dir path : string) (fed state code : pyobj) :
  usable_dir fs1 dir = true ->
  files fs1 path = Document (data_of s) ->
  fst (init fs1 dir (Some path) fed state code)
  = Ok {| data_dir := dir; data_file := path;
          fed_tax_rate := fed_tax_rate s;
          state_tax_rate := state_tax_rate s;
          state_code := state_code s;
          invoices := invoices s |}.
Proof.
  intros U F.
  destruct (makedirs_usable fs1 dir U) as (fs2 & M & Ff & _).
  unfold init. rewrite M.
  erewrite load_dumped; [reflexivity |].
  cbn [data_file]. now rewrite Ff.
Qed.

Lemma same_amounts_compare_equal (l : list Invoice) :
  amounts_compare_equal l l.
Proof.
  unfold amounts_compare_equal.
  induction l as [| inv l IH]; constructor; [| exact IH].
  unfold is_nan. now rewrite negb_involutive.
Qed.

(** C3.  When the data file can be written, [save_invoices] followed by the
    construction of a fresh instance (default rates and state code) on the
    same data file, with a data directory that is there or can be created,
    gives an instance with the same invoices, each with the same date,
    description and id and the same binary64 amount, and the same federal
    rate, state rate and state code.  An amount read back compares equal
    ([==]) to the one saved exactly when it is no NaN. *)
Theorem save_load_roundtrip (s : BusinessTaxCalculator) (fs0 : filesystem)
    (dir : string) :
  writable fs0 (data_file s) = true ->
  usable_dir (fs (snd (save_invoices {| self := s; fs := fs0 |}))) dir
    = true ->
  exists s',
    fst (init_default (fs (snd (save_invoices {| self := s; fs := fs0 |})))
           dir (Some (data_file s))) = Ok s' /\
    invoices s' = invoices s /\
    fed_tax_rate s' = fed_tax_rate s /\
    state_tax_rate s' = state_tax_rate s /\
    state_code s' = state_code s /\
    amounts_compare_equal (invoices s') (invoices s).
Proof.
  intros W. rewrite save_invoices_run. cbn [snd fs self].
  unfold after_save. rewrite W. intro U.
  unfold init_default. erewrite init_dumped.
  - eexists. split; [reflexivity |]. cbn.
    repeat split. apply same_amounts_compare_equal.
  - exact U.
  - cbn [files write]. now rewrite String.eqb_refl.
Qed.

Lemma save_load_roundtrip_witness :
  exists s',
    fst (init_default
           (fs (snd (save_invoices {| self := sample_ledger; fs := empty_fs |})))
           "elsewhere" (Some (data_file sample_ledger))) = Ok s' /\
    invoices s' = invoices sample_ledger /\
    fed_tax_rate s' = fed_tax_rate sample_ledger /\
    state_tax_rate s' = state_tax_rate sample_ledger /\
    state_code s' = state_code sample_ledger /\
    amounts_compare_equal (invoices s') (invoices sample_ledger).
Proof.
  apply (save_load_roundtrip sample_ledger empty_fs "elsewhere");
    reflexivity.
Defined.

(** The claim as the specification has it fails on a NaN amount: the
    invoice is written and read back, its amount is NaN again, and Python
    does not hold a NaN equal to any float, itself included; the collection
    read back is not equal to the one saved. *)
Theorem reloaded_nan_amount_not_equal :
  exists s',
    fst (init_default
           (fs (snd (save_invoices {| self := nan_ledger; fs := empty_fs |})))
           "data" (Some (data_file nan_ledger))) = Ok s' /\
    map (fun ab => (amount (fst ab) =? amount (snd ab))%float)
      (combine (invoices s') (invoices nan_ledger)) = [false].
Proof. eexists. split; reflexivity. Qed.

(** ** C2: what [load_invoices] absorbs and what it lets through *)

(** Errors of the four classes the handler names end in an empty
    collection: unreadable JSON, a missing field, a malformed date, an
    amount that is not a number ("abc").  A missing file is no error. *)
Example load_absorbs_named_errors :
  init_default (single_file Malformed) "data" None
    = (Ok empty_ledger, single_file Malformed) /\
  fst (init_default
         (single_file
            (file_with [good_entry;
                        PyDict [("date", PyStr "2024-02-01");
                                ("amount", PyFloat 1)]]))
         "data" None) = Ok empty_ledger /\
  fst (init_default
         (single_file
            (file_with [good_entry;
                        entry (PyStr "2024-13-40") (PyFloat 1) (PyStr "x")
                          (PyStr "INV-2")]))
         "data" None) = Ok empty_ledger /\
  fst (init_default
         (single_file
            (file_with [good_entry;
                        entry (PyStr "2024-02-01") (PyStr "abc") (PyStr "x")
                          (PyStr "INV-2")]))
         "data" None) = Ok empty_ledger /\
  fst (init_default empty_fs "data" None) = Ok empty_ledger.
Proof. repeat split. Qed.

(** C2 fails on the code.  An amount that is [null] makes [float()] raise
    TypeError, a class the handler of [load_invoices] does not name: the
    exception leaves [load_invoices] and the constructor, and at that moment
    the collection holds the record parsed before it.  A file whose top
    level is a list ends in AttributeError the same way. *)
Theorem load_null_amount_raises :
  load_invoices {| self := empty_ledger; fs := single_file null_amount_file |}
  = (Raise (Exn TypeError
              "float() argument must be a string or a real number"),
     {| self := with_invoices
                  [{| date := jan_15_2024; amount := 100.5;
                      description := PyStr "consulting";
                      invoice_id := PyStr "INV-1" |}];
        fs := single_file null_amount_file |}) /\
  raises_class TypeError
    (fst (init_default (single_file null_amount_file) "data" None)) /\
  raises_class AttributeError
    (fst (init_default (single_file (Document (PyList []))) "data" None)).
Proof. repeat split. Qed.

(** ** C8: the date of a table row *)

(** The dates the specification gives as examples: 15/03/2024 is read day
    first; 2024-13-40 and a text with neither separator skip the row. *)
Example table_date_examples :
  Extractor.table_date "15/03/2024" None = Ok (Some (Some mar_15_2024)) /\
  Extractor.table_date "2024-03-15" None = Ok (Some (Some mar_15_2024)) /\
  Extractor.table_date "2024-13-40" None = Ok None /\
  Extractor.table_date "32/01/2024" None = Ok None /\
  Extractor.table_date "20240315" None = Ok None.
Proof. repeat split. Qed.

(** C8 fails on the code.  A date cell that has a separator but not three
    parts (here N/A, whose parts are no integers) is neither parsed nor
    skipped: the row is emitted with the date the previous row left in the
    variable [date]; when no row has set the variable yet, reading it
    raises UnboundLocalError, which ends the whole extraction with an empty
    result, the valid rows that follow included. *)
Theorem table_row_unparsed_date_not_skipped
    (findall : Extractor.text_pattern -> string
               -> list (string * string * string)) :
  Extractor.extract_from_pdf findall (Ok [table_page [row_1001; row_1002]])
  = Ok [{| Extractor.date := mar_15_2024;
           Extractor.amount := 1234.56;
           Extractor.description := "Invoice: 1001";
           Extractor.currency := "USD";
           Extractor.doc_number := "1001" |};
        {| Extractor.date := mar_15_2024;
           Extractor.amount := 50;
           Extractor.description := "Invoice: 1002";
           Extractor.currency := "USD";
           Extractor.doc_number := "1002" |}] /\
  Extractor.extract_from_pdf_body findall
    (Ok [table_page [row_1002; row_1001]])
  = Raise (Exn UnboundLocalError "cannot access local variable 'date'") /\
  Extractor.extract_from_pdf findall (Ok [table_page [row_1002; row_1001]])
  = Ok [].
Proof. repeat split. Qed.

(** ** C9: the extractors do not raise *)

(** C9.  For every document, [extract_from_pdf] and
    [extract_from_remittance_advice] return a list; when the body of the
    call raises, whether on opening the document or on a page, the list
    is empty; otherwise it is the list the body built. *)
Theorem extractors_never_raise
    (findall : Extractor.text_pattern -> string
               -> list (string * string * string))
    (doc : Extractor.document) :
  (exists l, Extractor.extract_from_pdf findall doc = Ok l) /\
  (raises (Extractor.extract_from_pdf_body findall doc) ->
   Extractor.extract_from_pdf findall doc = Ok []) /\
  (forall l, Extractor.extract_from_pdf_body findall doc = Ok l ->
   Extractor.extract_from_pdf findall doc = Ok l) /\
  (exists l, Extractor.extract_from_remittance_advice doc = Ok l) /\
  (raises (Extractor.extract_from_remittance_advice_body doc) ->
   Extractor.extract_from_remittance_advice doc = Ok []) /\
  (forall l, Extractor.extract_from_remittance_advice_body doc = Ok l ->
   Extractor.extract_from_remittance_advice doc = Ok l).
Proof.
  unfold Extractor.extract_from_pdf, Extractor.extract_from_remittance_advice,
    try_except.
  destruct (Extractor.extract_from_pdf_body findall doc) as [l1 | e1];
    destruct (Extractor.extract_from_remittance_advice_body doc) as [l2 | e2];
    cbn [raises is_Exception];
    repeat split; eauto; try contradiction; try discriminate.
Qed.

(** Bodies that do raise: a document that cannot be opened, a page whose
    text extraction fails, a table without rows, a page without text. *)
Example extractor_bodies_raise :
  raises (Extractor.extract_from_pdf_body no_matches corrupt_document) /\
  raises (Extractor.extract_from_pdf_body no_matches
            (Ok [table_page [row_1001]; failing_page])) /\
  raises (Extractor.extract_from_pdf_body no_matches
            (Ok [{| Extractor.extract_text := Ok (Some "");
                    Extractor.extract_tables := Ok [[]] |}])) /\
  raises (Extractor.extract_from_pdf_body no_matches
            (Ok [{| Extractor.extract_text := Ok None;
                    Extractor.extract_tables := Ok [] |}])) /\
  raises (Extractor.extract_from_remittance_advice_body corrupt_document) /\
  raises (Extractor.extract_from_remittance_advice_body
            (Ok [{| Extractor.extract_text := Ok None;
                    Extractor.extract_tables := Ok [] |}])).
Proof. repeat split. Qed.

Lemma extractors_never_raise_witness :
  Extractor.extract_from_pdf no_matches
    (Ok [table_page [row_1001]; failing_page]) = Ok [] /\
  Extractor.extract_from_remittance_advice corrupt_document = Ok [].
Proof.
  split.
  - exact (proj1 (proj2 (extractors_never_raise no_matches
                           (Ok [table_page [row_1001]; failing_page]))) I).
  - exact (proj1 (proj2 (proj2 (proj2 (proj2
             (extractors_never_raise no_matches corrupt_document))))) I).
Defined.

(** * Further properties of the ledger *)

(** ** Where [get_quarter_bounds] is defined *)

(** [datetime.date] raises OverflowError when an argument is no C int and
    ValueError otherwise. *)
Lemma make_raises (y m d : Z) (e : exn) :
  Date.make y m d = Raise e ->
  class_of e
  = if Date.fits_int y && Date.fits_int m && Date.fits_int d
    then ValueError else OverflowError.
Proof.
  unfold Date.make.
  destruct (Date.fits_int y && Date.fits_int m && Date.fits_int d).
  - destruct (bool_dec (Date.valid y m d) true); [discriminate |].
    intro H. inversion H. unfold Date.range_error.
    destruct (negb ((Date.MINYEAR <=? y) && (y <=? Date.MAXYEAR)));
      [reflexivity |].
    destruct (negb ((1 <=? m) && (m <=? 12))); reflexivity.
  - intro H. inversion H. reflexivity.
Qed.

Lemma fits_small (z : Z) : 0 <= z <= 9999 -> Date.fits_int z = true.
Proof.
  intro H. unfold Date.fits_int, Date.INT_MIN, Date.INT_MAX.
  apply andb_true_iff. split; apply Z.leb_le; lia.
Qed.

Lemma fits_int_iff (z : Z) :
  Date.fits_int z = true <-> Date.INT_MIN <= z <= Date.INT_MAX.
Proof.
  unfold Date.fits_int. rewrite andb_true_iff, !Z.leb_le. tauto.
Qed.

(** The class of what [get_quarter_bounds] raises: ValueError for a bad
    quarter; for a quarter in 1..4, OverflowError when the year is no C int
    and ValueError otherwise. *)
Lemma quarter_bounds_raise_class (year quarter : Z) (e : exn) :
  get_quarter_bounds year quarter = Raise e ->
  class_of e
  = if (1 <=? quarter) && (quarter <=? 4) && negb (Date.fits_int year)
    then OverflowError else ValueError.
Proof.
  unfold get_quarter_bounds.
  destruct ((quarter <? 1) || (quarter >? 4)) eqn:Q.
  - intro H. inversion H.
    replace ((1 <=? quarter) && (quarter <=? 4)) with false; [reflexivity |].
    symmetry. apply andb_false_iff.
    apply orb_true_iff in Q. rewrite Z.gtb_ltb in Q.
    destruct Q as [Q | Q]; apply Z.ltb_lt in Q;
      [left | right]; apply Z.leb_gt; lia.
  - apply orb_false_iff in Q. destruct Q as [Q1 Q2].
    apply Z.ltb_ge in Q1. rewrite Z.gtb_ltb in Q2. apply Z.ltb_ge in Q2.
    replace ((1 <=? quarter) && (quarter <=? 4)) with true
      by (symmetry; apply andb_true_iff; split; apply Z.leb_le; lia).
    cbn [andb].
    pose proof (days_in_month_bounds year (quarter * 3)) as B.
    destruct (Date.make year ((quarter - 1) * 3 + 1) 1) as [a | e1] eqn:M1;
      cbn [bind].
    + pose proof (date_ranges a) as R.
      apply make_fields in M1. destruct M1 as (My & _ & _).
      rewrite (fits_small year) by lia. cbn [negb].
      unfold Date.monthrange_days.
      destruct ((1 <=? quarter * 3) && (quarter * 3 <=? 12)); cbn [bind].
      * destruct (Date.make year (quarter * 3)
                    (Date.days_in_month year (quarter * 3))) as [b | e2] eqn:M2;
          cbn [bind]; [discriminate |].
        intro H. inversion H; subst.
        rewrite (make_raises _ _ _ _ M2).
        rewrite !fits_small by lia. reflexivity.
      * intro H. inversion H. reflexivity.
    + intro H. inversion H; subst.
      rewrite (make_raises _ _ _ _ M1).
      rewrite (fits_small ((quarter - 1) * 3 + 1)) by lia.
      rewrite (fits_small 1) by lia.
      rewrite !andb_true_r. now destruct (Date.fits_int year).
Qed.

(** X1.  [get_quarter_bounds] returns a pair of dates exactly when the year
    is one of 1..9999 and the quarter one of 1..4.  A quarter outside 1..4
    raises ValueError, whatever the year; with a quarter in 1..4, a year
    outside 1..9999 raises ValueError when it is a C int and OverflowError
    when it is not. *)
Theorem quarter_bounds_domain (year quarter : Z) :
  ((exists a b, get_quarter_bounds year quarter = Ok (a, b)) <->
   (Date.MINYEAR <= year <= Date.MAXYEAR /\ 1 <= quarter <= 4)) /\
  (~ 1 <= quarter <= 4 ->
   raises_class ValueError (get_quarter_bounds year quarter)) /\
  (1 <= quarter <= 4 -> ~ Date.MINYEAR <= year <= Date.MAXYEAR ->
   Date.INT_MIN <= year <= Date.INT_MAX ->
   raises_class ValueError (get_quarter_bounds year quarter)) /\
  (1 <= quarter <= 4 -> ~ Date.INT_MIN <= year <= Date.INT_MAX ->
   raises_class OverflowError (get_quarter_bounds year quarter)).
Proof.
  assert (I : (exists a b, get_quarter_bounds year quarter = Ok (a, b)) <->
              (Date.MINYEAR <= year <= Date.MAXYEAR /\ 1 <= quarter <= 4)).
  { split.
    - intros (a & b & H). exact (quarter_bounds_ok_inv _ _ _ _ H).
    - intros [Hy Hq].
      destruct (quarter_bounds_value year quarter Hy Hq) as (a & b & H & _).
      now exists a, b. }
  split; [exact I |].
  destruct (get_quarter_bounds year quarter) as [[a b] | e] eqn:E.
  - assert (V : Date.MINYEAR <= year <= Date.MAXYEAR /\ 1 <= quarter <= 4)
      by (apply I; now exists a, b).
    unfold Date.MINYEAR, Date.MAXYEAR, Date.INT_MIN, Date.INT_MAX in *.
    repeat split; intros; lia.
  - pose proof (quarter_bounds_raise_class _ _ _ E) as C.
    unfold raises_class. rewrite C.
    repeat split.
    + intro N.
      replace ((1 <=? quarter) && (quarter <=? 4)) with false; [reflexivity |].
      symmetry. apply andb_false_iff.
      destruct (Z.leb_spec 1 quarter); [right | left; reflexivity].
      apply Z.leb_gt. lia.
    + intros Hq _ F. apply fits_int_iff in F. rewrite F.
      now rewrite andb_false_r.
    + intros Hq F.
      replace ((1 <=? quarter) && (quarter <=? 4)) with true
        by (symmetry; apply andb_true_iff; split; apply Z.leb_le; lia).
      destruct (Date.fits_int year) eqn:Fy; [| reflexivity].
      apply fits_int_iff in Fy. contradiction.
Qed.

(** ** [delete_invoice] *)

Lemma eq_str_false (o : pyobj) (id : string) :
  o <> PyStr id -> eq_str o id = false.
Proof.
  intro N. destruct o; try reflexivity. simpl.
  destruct (String.eqb s id) eqn:E; [| reflexivity].
  apply String.eqb_eq in E. subst. contradiction.
Qed.

Lemma find_invoice_skips (id : string) (pre rest : list Invoice) (i : nat) :
  (forall x, In x pre -> invoice_id x <> PyStr id) ->
  find_invoice id (pre ++ rest) i = find_invoice id rest (i + List.length pre).
Proof.
  revert i. induction pre as [| x pre IH]; intros i H; simpl.
  - now rewrite Nat.add_0_r.
  - rewrite (eq_str_false _ _ (H x (or_introl eq_refl))).
    rewrite IH by (intros y Hy; apply H; now right).
    f_equal. lia.
Qed.

Lemma del_middle {A} (pre post : list A) (x : A) :
  del (List.length pre) (pre ++ x :: post) = (pre ++ post)%list.
Proof.
  unfold del.
  rewrite firstn_app, firstn_all, Nat.sub_diag. simpl firstn.
  rewrite app_nil_r.
  replace (S (List.length pre)) with (List.length (pre ++ [x]))
    by (rewrite length_app; simpl; lia).
  replace (pre ++ x :: post)%list with ((pre ++ [x]) ++ post)%list
    by (now rewrite <- app_assoc).
  rewrite skipn_app, skipn_all, Nat.sub_diag. reflexivity.
Qed.

(** X2.  Deleting an id that no invoice carries answers
    (False, "Invoice <id> not found.") and changes neither the ledger nor
    the file. *)
Theorem delete_unknown_id (id : string) (w : world) :
  (forall x, In x (invoices (self w)) -> invoice_id x <> PyStr id) ->
  delete_invoice id w
  = (Ok (false, "Invoice " ++ id ++ " not found."), w).
Proof.
  intro H. unfold delete_invoice, bindM, get_self.
  replace (find_invoice id (invoices (self w)) 0) with (@None nat);
    [reflexivity |].
  rewrite <- (app_nil_r (invoices (self w))).
  rewrite (find_invoice_skips id _ [] 0 H). reflexivity.
Qed.

Lemma delete_unknown_id_witness :
  delete_invoice "A-9" {| self := sample_ledger; fs := empty_fs |}
  = (Ok (false, "Invoice A-9 not found."),
     {| self := sample_ledger; fs := empty_fs |}).
Proof.
  apply (delete_unknown_id "A-9" {| self := sample_ledger; fs := empty_fs |}).
  intros x [<- | [<- | [<- | []]]]; discriminate.
Defined.

Lemma delete_invoice_run (id : string) (pre post : list Invoice)
    (inv : Invoice) (w : world) :
  invoices (self w) = (pre ++ inv :: post)%list ->
  (forall x, In x pre -> invoice_id x <> PyStr id) ->
  invoice_id inv = PyStr id ->
  delete_invoice id w
  = (Ok (true, "Invoice " ++ id ++ " deleted."),
     {| self := set_invoices (pre ++ post) (self w);
        fs := after_save (set_invoices (pre ++ post) (self w)) (fs w) |}).
Proof.
  intros Hl Hpre Hid. unfold delete_invoice, bindM, get_self.
  rewrite Hl, (find_invoice_skips id pre _ 0 Hpre).
  cbn [find_invoice]. rewrite Hid. cbn [eq_str]. rewrite String.eqb_refl.
  cbn [Nat.add]. unfold update. cbn [self fs]. rewrite del_middle.
  rewrite save_invoices_run. reflexivity.
Qed.

(** X3.  Deleting an id removes the first invoice that carries it and no
    other: the invoices before it and after it stay, in their order, later
    invoices with the same id included; the ledger is then saved. *)
Theorem delete_removes_first_match (id : string) (pre post : list Invoice)
    (inv : Invoice) (w : world) :
  invoices (self w) = (pre ++ inv :: post)%list ->
  (forall x, In x pre -> invoice_id x <> PyStr id) ->
  invoice_id inv = PyStr id ->
  delete_invoice id w
  = (Ok (true, "Invoice " ++ id ++ " deleted."),
     {| self := set_invoices (pre ++ post) (self w);
        fs := after_save (set_invoices (pre ++ post) (self w)) (fs w) |}) /\
  (forall x, In x post -> In x (invoices (self (snd (delete_invoice id w))))).
Proof.
  intros Hl Hpre Hid.
  rewrite (delete_invoice_run id pre post inv w Hl Hpre Hid).
  split; [reflexivity |].
  intros x Hx. cbn [snd self invoices set_invoices].
  apply in_or_app. now right.
Qed.

Lemma delete_removes_first_match_witness :
  delete_invoice "A-2" {| self := duplicate_ids_ledger; fs := empty_fs |}
  = (Ok (true, "Invoice A-2 deleted."),
     {| self := set_invoices ([a1] ++ [second_a2]) duplicate_ids_ledger;
        fs := after_save
                (set_invoices ([a1] ++ [second_a2]) duplicate_ids_ledger)
                empty_fs |}) /\
  (forall x, In x [second_a2] ->
     In x (invoices
             (self (snd (delete_invoice "A-2"
                           {| self := duplicate_ids_ledger;
                              fs := empty_fs |}))))).
Proof.
  apply (delete_removes_first_match "A-2" [a1] [second_a2] first_a2
           {| self := duplicate_ids_ledger; fs := empty_fs |}).
  - reflexivity.
  - intros x [<- | []]. discriminate.
  - reflexivity.
Defined.

(** ** [add_invoice] *)

(** X4.  [add_invoice] always answers True: it appends the invoice at the
    end of the collection under the id it was given, whether or not an
    invoice with that id is already there, and under the generated id
    otherwise; when the data file cannot be written the invoice is in
    memory all the same and the file is as it was. *)
Theorem add_invoice_always_appends (d : Date.date) (a : float)
    (desc : string) (given : option string) (w : world) :
  let id := match given with
            | Some i => i
            | None => generated_id d (List.length (invoices (self w)))
            end in
  let w' := snd (add_invoice d a desc given w) in
  fst (add_invoice d a desc given w)
    = Ok (true, "Invoice " ++ id ++ " added successfully.") /\
  invoices (self w')
    = (invoices (self w) ++
       [{| date := d; amount := a; description := PyStr desc;
           invoice_id := PyStr id |}])%list /\
  (writable (fs w) (data_file (self w)) = false -> fs w' = fs w).
Proof.
  cbv zeta. unfold add_invoice, try_exceptM, bindM, get_self, update.
  cbn [self fs]. rewrite save_invoices_run. cbn [fst snd self fs].
  repeat split.
  intro W. unfold after_save. cbn [data_file append_invoice set_invoices].
  now rewrite W.
Qed.

(** ** What a mutation leaves on disk *)

Lemma files_after_save (s : BusinessTaxCalculator) (fs0 : filesystem) :
  writable fs0 (data_file s) = true ->
  files (after_save s fs0) (data_file s) = Document (data_of s).
Proof.
  intro W. unfold after_save. rewrite W. cbn [files write].
  now rewrite String.eqb_refl.
Qed.

Lemma writable_after_save (s : BusinessTaxCalculator) (fs0 : filesystem) :
  writable (after_save s fs0) = writable fs0.
Proof.
  unfold after_save. destruct (writable fs0 (data_file s)); reflexivity.
Qed.

Lemma change_data_location_run (p : string) (w : world) :
  change_data_location p w
  = (Ok (true, "Data location changed to " ++ p),
     {| self := set_data_file p (self w);
        fs := after_save (set_data_file p (self w)) (fs w) |}).
Proof.
  unfold change_data_location, try_exceptM, bindM, update.
  cbn [self fs]. rewrite save_invoices_run. reflexivity.
Qed.

Lemma add_invoice_saved (d : Date.date) (a : float) (desc : string)
    (given : option string) (w : world) :
  exists msg s',
    add_invoice d a desc given w
    = (Ok (true, msg), {| self := s'; fs := after_save s' (fs w) |}).
Proof.
  unfold add_invoice, try_exceptM, bindM, get_self, update.
  cbn [self fs]. rewrite save_invoices_run. do 2 eexists. reflexivity.
Qed.

Lemma delete_invoice_cases (id : string) (w : world) :
  delete_invoice id w = (Ok (false, "Invoice " ++ id ++ " not found."), w) \/
  exists s',
    delete_invoice id w
    = (Ok (true, "Invoice " ++ id ++ " deleted."),
       {| self := s'; fs := after_save s' (fs w) |}).
Proof.
  unfold delete_invoice, bindM, get_self.
  destruct (find_invoice id (invoices (self w)) 0) as [i |].
  - right. unfold update. cbn [self fs]. rewrite save_invoices_run.
    eexists. reflexivity.
  - left. reflexivity.
Qed.

Lemma set_tax_rates_cases (f g : float) (c : string) (w : world) :
  set_tax_rates f g c w
    = (Ok (false, "Tax rates must be between 0.0 and 1.0"), w) \/
  exists msg s',
    set_tax_rates f g c w
    = (Ok (true, msg), {| self := s'; fs := after_save s' (fs w) |}).
Proof.
  unfold set_tax_rates. destruct (rates_in_range f g).
  - right. unfold bindM, update. cbn [self fs]. rewrite save_invoices_run.
    do 2 eexists. reflexivity.
  - left. reflexivity.
Qed.

(** Every mutation answers a pair; it either refuses and leaves the world
    alone or succeeds and saves the ledger it has built. *)
Lemma run_mutation_cases (m : mutation) (w : world) :
  (exists msg, run_mutation m w = (Ok (false, msg), w)) \/
  (exists msg s',
     run_mutation m w
     = (Ok (true, msg), {| self := s'; fs := after_save s' (fs w) |})).
Proof.
  destruct m as [d a desc given | id | f g c | p]; cbn [run_mutation].
  - right. apply add_invoice_saved.
  - destruct (delete_invoice_cases id w) as [H | [s' H]]; rewrite H; eauto.
  - destruct (set_tax_rates_cases f g c w) as [H | (msg & s' & H)];
      rewrite H; eauto.
  - right. rewrite change_data_location_run. eauto.
Qed.

(** X5.  Adding or deleting an invoice, setting the rates and changing the
    data location never raise: each answers a (flag, message) pair, and when
    the flag is False the ledger and the files are exactly as before the
    call. *)
Theorem mutation_refused_changes_nothing (m : mutation) (w : world) :
  (exists flag msg, fst (run_mutation m w) = Ok (flag, msg)) /\
  (forall msg, fst (run_mutation m w) = Ok (false, msg) ->
   snd (run_mutation m w) = w).
Proof.
  destruct (run_mutation_cases m w) as [[msg H] | (msg & s' & H)];
    rewrite H; cbn [fst snd]; split; eauto.
  intros msg' E. discriminate E.
Qed.

(** X6.  After a mutation that answers True, when the data file of the
    ledger can be written, the file holds the ledger as it is in memory: a
    fresh instance built on that file, with a data directory that is there
    or can be created, has the same invoices, rates and state code. *)
Theorem mutation_is_durable (m : mutation) (w : world) (msg dir : string) :
  fst (run_mutation m w) = Ok (true, msg) ->
  writable (fs w) (data_file (self (snd (run_mutation m w)))) = true ->
  usable_dir (fs (snd (run_mutation m w))) dir = true ->
  exists s',
    fst (init_default (fs (snd (run_mutation m w))) dir
           (Some (data_file (self (snd (run_mutation m w)))))) = Ok s' /\
    invoices s' = invoices (self (snd (run_mutation m w))) /\
    fed_tax_rate s' = fed_tax_rate (self (snd (run_mutation m w))) /\
    state_tax_rate s' = state_tax_rate (self (snd (run_mutation m w))) /\
    state_code s' = state_code (self (snd (run_mutation m w))).
Proof.
  destruct (run_mutation_cases m w) as [[msg' H] | (msg' & s1 & H)];
    rewrite H; cbn [fst snd self fs]; intros E W U; [discriminate E |].
  pose proof (files_after_save s1 (fs w) W) as F.
  unfold init_default. rewrite (init_dumped s1 _ dir _ _ _ _ U F).
  eexists. split; [reflexivity |]. cbn. repeat split.
Qed.

Lemma mutation_is_durable_witness :
  exists s',
    fst (init_default
           (fs (snd (run_mutation (DeleteInvoice "A-2")
                       {| self := duplicate_ids_ledger; fs := empty_fs |})))
           "elsewhere"
           (Some (data_file
                    (self (snd (run_mutation (DeleteInvoice "A-2")
                                  {| self := duplicate_ids_ledger;
                                     fs := empty_fs |})))))) = Ok s' /\
    invoices s'
      = invoices (self (snd (run_mutation (DeleteInvoice "A-2")
                               {| self := duplicate_ids_ledger;
                                  fs := empty_fs |}))) /\
    fed_tax_rate s'
      = fed_tax_rate (self (snd (run_mutation (DeleteInvoice "A-2")
                                   {| self := duplicate_ids_ledger;
                                      fs := empty_fs |}))) /\
    state_tax_rate s'
      = state_tax_rate (self (snd (run_mutation (DeleteInvoice "A-2")
                                     {| self := duplicate_ids_ledger;
                                        fs := empty_fs |}))) /\
    state_code s'
      = state_code (self (snd (run_mutation (DeleteInvoice "A-2")
                                 {| self := duplicate_ids_ledger;
                                    fs := empty_fs |}))).
Proof.
  apply (mutation_is_durable (DeleteInvoice "A-2")
           {| self := duplicate_ids_ledger; fs := empty_fs |}
           "Invoice A-2 deleted." "elsewhere"); reflexivity.
Defined.

(** ** [change_data_location] *)

(** X7.  [change_data_location] always answers
    (True, "Data location changed to <path>") and makes the path the data
    file of the ledger; its failure branch is never taken, because
    [save_invoices] keeps its errors to itself.  So when the new path
    cannot be written the ledger points to it all the same and no file has
    changed; and in every case a file at another path is left as it was. *)
Theorem change_data_location_always_succeeds (p : string) (w : world) :
  fst (change_data_location p w)
    = Ok (true, "Data location changed to " ++ p) /\
  self (snd (change_data_location p w)) = set_data_file p (self w) /\
  (writable (fs w) p = false -> fs (snd (change_data_location p w)) = fs w) /\
  (forall q, q <> p ->
     files (fs (snd (change_data_location p w))) q = files (fs w) q).
Proof.
  rewrite change_data_location_run. cbn [fst snd self fs].
  unfold after_save. cbn [data_file set_data_file].
  repeat split.
  - intro W. now rewrite W.
  - intros q N. destruct (writable (fs w) p); [| reflexivity].
    cbn [files write]. destruct (String.eqb q p) eqn:E; [| reflexivity].
    apply String.eqb_eq in E. contradiction.
Qed.

(** ** [get_all_invoices] *)

Lemma leb_total (a b : Date.date) :
  Date.leb a b = false -> Date.leb b a = true.
Proof.
  intro H. apply leb_iff.
  destruct (Date.leb a b) eqn:E; [discriminate |].
  assert (N : ~ (Date.year a < Date.year b \/
                 (Date.year a = Date.year b /\
                  (Date.month a < Date.month b \/
                   (Date.month a = Date.month b /\
                    Date.day a <= Date.day b))))).
  { intro C. apply leb_iff in C. congruence. }
  lia.
Qed.

Lemma leb_trans (a b c : Date.date) :
  Date.leb a b = true -> Date.leb b c = true -> Date.leb a c = true.
Proof. rewrite !leb_iff. lia. Qed.

Lemma insert_by_date_perm (inv : Invoice) (l : list Invoice) :
  Permutation (insert_by_date inv l) (inv :: l).
Proof.
  induction l as [| x l IH]; cbn [insert_by_date]; [reflexivity |].
  destruct (Date.leb (date inv) (date x)); [reflexivity |].
  rewrite IH. apply perm_swap.
Qed.

Lemma insert_by_date_sorted (inv : Invoice) (l : list Invoice) :
  Sorted date_le l -> Sorted date_le (insert_by_date inv l).
Proof.
  induction l as [| x l IH]; cbn [insert_by_date]; intro S.
  - repeat constructor.
  - destruct (Date.leb (date inv) (date x)) eqn:E.
    + constructor; [exact S |]. constructor. exact E.
    + inversion S as [| ? ? S' Hd]; subst.
      constructor; [exact (IH S') |].
      destruct l as [| y l]; cbn [insert_by_date].
      * constructor. now apply leb_total.
      * destruct (Date.leb (date inv) (date y)).
        -- constructor. now apply leb_total.
        -- constructor. now inversion Hd.
Qed.

Lemma insert_by_date_filter (d : Date.date) (inv : Invoice)
    (l : list Invoice) :
  List.filter (same_date d) (insert_by_date inv l)
  = List.filter (same_date d) (inv :: l).
Proof.
  induction l as [| x l IH]; cbn [insert_by_date]; [reflexivity |].
  destruct (Date.leb (date inv) (date x)) eqn:E; [reflexivity |].
  cbn [List.filter] in *. rewrite IH.
  destruct (same_date d inv) eqn:A; [| reflexivity].
  destruct (same_date d x) eqn:B; [| reflexivity].
  exfalso. unfold same_date in A, B.
  apply andb_true_iff in A, B. destruct A as [A1 A2], B as [B1 B2].
  rewrite (leb_trans _ _ _ A2 B1) in E. discriminate.
Qed.

(** X8.  [get_all_invoices] returns the invoices of the ledger, each as
    often as the ledger holds it, in ascending order of date, and invoices
    of one date in the order the ledger has them. *)
Theorem get_all_invoices_stable_sort (s : BusinessTaxCalculator) :
  Permutation (get_all_invoices s) (invoices s) /\
  StronglySorted date_le (get_all_invoices s) /\
  (forall d, List.filter (same_date d) (get_all_invoices s)
             = List.filter (same_date d) (invoices s)).
Proof.
  unfold get_all_invoices, sorted_by_date.
  induction (invoices s) as [| inv l (P & S & F)]; cbn [fold_right].
  - repeat split; constructor.
  - split; [| split].
    + rewrite insert_by_date_perm. now constructor.
    + apply Sorted_StronglySorted.
      * intros x y z. apply leb_trans.
      * apply insert_by_date_sorted. now apply StronglySorted_Sorted.
    + intro d. rewrite insert_by_date_filter. cbn [List.filter].
      now rewrite F.
Qed.

(** ** The SEP contribution is defined on every year of the calendar *)

Lemma yearly_earnings_value (s : BusinessTaxCalculator) (year : Z) :
  Date.MINYEAR <= year <= Date.MAXYEAR ->
  exists ye, get_yearly_earnings s year = Ok ye.
Proof.
  intro Hy. unfold get_yearly_earnings.
  assert (V1 : Date.valid year 1 1 = true).
  { apply valid_in_range; [exact Hy | lia |].
    pose proof (days_in_month_bounds year 1). lia. }
  assert (V2 : Date.valid year 12 31 = true).
  { apply valid_in_range; [exact Hy | lia |].
    unfold Date.days_in_month. cbn. lia. }
  rewrite (make_ok _ _ _ V1), (make_ok _ _ _ V2). cbn [bind]. eauto.
Qed.

Lemma year_error_cases (year : Z) {A} (r : result A) :
  raises_class (year_error year) r ->
  (Date.INT_MIN <= year <= Date.INT_MAX -> raises_class ValueError r) /\
  (~ Date.INT_MIN <= year <= Date.INT_MAX -> raises_class OverflowError r).
Proof.
  unfold year_error. intro H. split; intro F.
  - apply fits_int_iff in F. now rewrite F in H.
  - destruct (Date.fits_int year) eqn:Fy; [| exact H].
    apply fits_int_iff in Fy. contradiction.
Qed.

Lemma yearly_earnings_raises (s : BusinessTaxCalculator) (year : Z) :
  ~ (Date.MINYEAR <= year <= Date.MAXYEAR) ->
  raises_class (year_error year) (get_yearly_earnings s year).
Proof.
  intro N. unfold get_yearly_earnings.
  destruct (Date.make year 1 1) as [a | e] eqn:M.
  - exfalso. apply N. pose proof (date_ranges a) as R.
    apply make_fields in M. destruct M as (My & _ & _).
    unfold Date.MINYEAR, Date.MAXYEAR. lia.
  - cbn [bind]. unfold raises_class, year_error.
    rewrite (make_raises _ _ _ _ M).
    rewrite (fits_small 1) by lia. rewrite !andb_true_r.
    now destruct (Date.fits_int year).
Qed.

Lemma min_not_above (a b : float) :
  (b <? b)%float = false -> (b <? Float.min a b)%float = false.
Proof.
  intro H. unfold Float.min. destruct (b <? a)%float eqn:E; assumption.
Qed.

Lemma sep_limit_cases (s : BusinessTaxCalculator) (year : Z) :
  (Date.MINYEAR <= year <= Date.MAXYEAR ->
   exists r, calculate_sep_401k_limit s year = Ok r) /\
  (~ (Date.MINYEAR <= year <= Date.MAXYEAR) ->
   raises_class (year_error year) (calculate_sep_401k_limit s year)).
Proof.
  split.
  - intro Hy. destruct (yearly_earnings_value s year Hy) as [ye H].
    unfold calculate_sep_401k_limit. rewrite H. cbn [bind].
    destruct (ye =? 0)%float eqn:E.
    + cbn [bind]. eexists. reflexivity.
    + unfold Float.div. rewrite E. cbn [bind]. eexists. reflexivity.
  - intro N. pose proof (yearly_earnings_raises s year N) as R.
    unfold calculate_sep_401k_limit.
    destruct (get_yearly_earnings s year); [contradiction | exact R].
Qed.

(** X9.  For a year of the calendar (1..9999) [calculate_sep_401k_limit]
    returns a result, whatever the earnings are (zero earnings make no
    division), and its actual contribution is never above the limit of
    69000; for any other year it raises: ValueError when the year is a C
    int, OverflowError when it is not. *)
Theorem sep_limit_defined_and_capped (s : BusinessTaxCalculator) (year : Z) :
  (Date.MINYEAR <= year <= Date.MAXYEAR ->
   exists r, calculate_sep_401k_limit s year = Ok r /\
             max_contribution_limit r = 69000%float /\
             (max_contribution_limit r <? actual_contribution r)%float
               = false) /\
  (~ (Date.MINYEAR <= year <= Date.MAXYEAR) ->
   Date.INT_MIN <= year <= Date.INT_MAX ->
   raises_class ValueError (calculate_sep_401k_limit s year)) /\
  (~ Date.INT_MIN <= year <= Date.INT_MAX ->
   raises_class OverflowError (calculate_sep_401k_limit s year)).
Proof.
  split; [| split].
  - intro Hy. destruct (yearly_earnings_value s year Hy) as [ye H].
    unfold calculate_sep_401k_limit. rewrite H. cbn [bind].
    destruct (ye =? 0)%float eqn:E.
    + cbn [bind]. eexists. split; [reflexivity |].
      cbn [max_contribution_limit actual_contribution].
      split; [reflexivity |]. now apply min_not_above.
    + unfold Float.div. rewrite E. cbn [bind].
      eexists. split; [reflexivity |].
      cbn [max_contribution_limit actual_contribution].
      split; [reflexivity |]. now apply min_not_above.
  - intros N F.
    exact (proj1 (year_error_cases year _
                    (proj2 (sep_limit_cases s year) N)) F).
  - intro F.
    assert (N : ~ Date.MINYEAR <= year <= Date.MAXYEAR).
    { unfold Date.MINYEAR, Date.MAXYEAR, Date.INT_MIN, Date.INT_MAX in *.
      lia. }
    exact (proj2 (year_error_cases year _
                    (proj2 (sep_limit_cases s year) N)) F).
Qed.

(** ** The report *)

Lemma within_quarter (year quarter : Z) (a b : Date.date) (inv : Invoice) :
  get_quarter_bounds year quarter = Ok (a, b) ->
  within a b inv = true <->
  (Date.year (date inv) = year /\
   (quarter - 1) * 3 + 1 <= Date.month (date inv) <= quarter * 3).
Proof.
  intro H. destruct (quarter_bounds_ok_inv _ _ _ _ H) as [Hy Hq].
  destruct (quarter_bounds_value year quarter Hy Hq)
    as (a' & b' & Hb & Ay & Am & Ad & By & Bm & Bd).
  rewrite H in Hb. inversion Hb; subst a' b'. clear Hb.
  unfold within. rewrite andb_true_iff, !leb_iff.
  pose proof (date_ranges (date inv)) as (Ry & Rm & Rd).
  rewrite Ay, Am, Ad, By, Bm, Bd.
  split.
  - lia.
  - intros [Ey Em]. rewrite Ey in Rd.
    destruct (Z.eq_dec (Date.month (date inv)) (quarter * 3)) as [Eq | Ne].
    + rewrite Eq in Rd. lia.
    + lia.
Qed.

Lemma quarter_entry_value (s : BusinessTaxCalculator) (year q : Z)
    (a b : Date.date) (f g : float) :
  get_quarter_bounds year q = Ok (a, b) ->
  fed_tax_rate s = PyFloat f -> state_tax_rate s = PyFloat g ->
  quarter_entry s year q
  = Ok {| earnings := total_within a b (invoices s);
          fed_tax := (total_within a b (invoices s) * f)%float;
          state_tax := (total_within a b (invoices s) * g)%float;
          total_tax := (total_within a b (invoices s) * f
                        + total_within a b (invoices s) * g)%float;
          invoice_count :=
            Z.of_nat (List.length (List.filter (within a b) (invoices s))) |}.
Proof.
  intros H F G.
  unfold quarter_entry, calculate_quarterly_federal_tax,
    calculate_quarterly_state_tax, get_quarterly_earnings.
  rewrite H, F, G. reflexivity.
Qed.

Lemma quarters_partition_year (year : Z) (a1 b1 a2 b2 a3 b3 a4 b4 : Date.date)
    (l : list Invoice) :
  get_quarter_bounds year 1 = Ok (a1, b1) ->
  get_quarter_bounds year 2 = Ok (a2, b2) ->
  get_quarter_bounds year 3 = Ok (a3, b3) ->
  get_quarter_bounds year 4 = Ok (a4, b4) ->
  (List.length (List.filter (within a1 b1) l)
   + List.length (List.filter (within a2 b2) l)
   + List.length (List.filter (within a3 b3) l)
   + List.length (List.filter (within a4 b4) l)
   = List.length (List.filter (in_year year) l))%nat.
Proof.
  intros H1 H2 H3 H4.
  induction l as [| inv l IH]; [reflexivity |].
  cbn [List.filter].
  pose proof (within_quarter _ _ _ _ inv H1) as W1.
  pose proof (within_quarter _ _ _ _ inv H2) as W2.
  pose proof (within_quarter _ _ _ _ inv H3) as W3.
  pose proof (within_quarter _ _ _ _ inv H4) as W4.
  pose proof (date_ranges (date inv)) as (Ry & Rm & Rd).
  unfold in_year at 1.
  destruct (within a1 b1 inv); destruct (within a2 b2 inv);
    destruct (within a3 b3 inv); destruct (within a4 b4 inv);
    destruct (Z.eqb_spec (Date.year (date inv)) year) as [E | E];
    cbn [List.length];
    try lia;
    exfalso;
    repeat match goal with
    | H : true = true <-> _ |- _ => destruct (proj1 H eq_refl); clear H
    | H : false = true <-> _ |- _ =>
        assert (~ (Date.year (date inv) = year /\ _)) by
          (intro C; apply H in C; discriminate); clear H
    end; lia.
Qed.

(** X10.  For a year of the calendar and rates that are floats, the report
    of the whole year has the four quarters 1, 2, 3, 4 in this order and
    the SEP result of the year; each quarter carries its earnings, the
    federal tax [earnings * fed_tax_rate], the state tax
    [earnings * state_tax_rate] and their sum; and the four invoice counts
    add up to the number of invoices dated in the year: every such invoice
    is counted in exactly one quarter. *)
Theorem yearly_report_partitions (s : BusinessTaxCalculator) (year : Z)
    (f g : float) :
  Date.MINYEAR <= year <= Date.MAXYEAR ->
  fed_tax_rate s = PyFloat f -> state_tax_rate s = PyFloat g ->
  exists q1 q2 q3 q4 sep,
    generate_quarterly_report s year None
    = Ok {| report_year := year;
            quarters := [(1, q1); (2, q2); (3, q3); (4, q4)];
            sep_401k := Some sep |} /\
    calculate_sep_401k_limit s year = Ok sep /\
    (forall q r, In (q, r) [(1, q1); (2, q2); (3, q3); (4, q4)] ->
       get_quarterly_earnings s year q = Ok (earnings r) /\
       fed_tax r = (earnings r * f)%float /\
       state_tax r = (earnings r * g)%float /\
       total_tax r = (fed_tax r + state_tax r)%float) /\
    invoice_count q1 + invoice_count q2 + invoice_count q3 + invoice_count q4
    = Z.of_nat (List.length (List.filter (in_year year) (invoices s))).
Proof.
  intros Hy F G.
  destruct (quarter_bounds_value year 1 Hy) as (a1 & b1 & H1 & _); [lia |].
  destruct (quarter_bounds_value year 2 Hy) as (a2 & b2 & H2 & _); [lia |].
  destruct (quarter_bounds_value year 3 Hy) as (a3 & b3 & H3 & _); [lia |].
  destruct (quarter_bounds_value year 4 Hy) as (a4 & b4 & H4 & _); [lia |].
  destruct (proj1 (sep_limit_cases s year) Hy) as [sep Hsep].
  unfold generate_quarterly_report. cbn [report_loop].
  rewrite (quarter_entry_value s year 1 a1 b1 f g H1 F G),
    (quarter_entry_value s year 2 a2 b2 f g H2 F G),
    (quarter_entry_value s year 3 a3 b3 f g H3 F G),
    (quarter_entry_value s year 4 a4 b4 f g H4 F G).
  cbn [bind dict_set Z.eqb Pos.eqb]. rewrite Hsep. cbn [bind].
  do 5 eexists. split; [reflexivity |]. split; [reflexivity |]. split.
  - unfold get_quarterly_earnings.
    intros q r [E | [E | [E | [E | []]]]]; inversion E; subst q r;
      cbn [earnings fed_tax state_tax total_tax];
      rewrite ?H1, ?H2, ?H3, ?H4; repeat split.
  - cbn [invoice_count].
    rewrite <- (quarters_partition_year year a1 b1 a2 b2 a3 b3 a4 b4
                  (invoices s) H1 H2 H3 H4).
    lia.
Qed.

Lemma yearly_report_partitions_witness :
  exists q1 q2 q3 q4 sep,
    generate_quarterly_report sample_ledger 2024 None
    = Ok {| report_year := 2024;
            quarters := [(1, q1); (2, q2); (3, q3); (4, q4)];
            sep_401k := Some sep |} /\
    calculate_sep_401k_limit sample_ledger 2024 = Ok sep /\
    (forall q r, In (q, r) [(1, q1); (2, q2); (3, q3); (4, q4)] ->
       get_quarterly_earnings sample_ledger 2024 q = Ok (earnings r) /\
       fed_tax r = (earnings r * 0.20)%float /\
       state_tax r = (earnings r * 0.05)%float /\
       total_tax r = (fed_tax r + state_tax r)%float) /\
    invoice_count q1 + invoice_count q2 + invoice_count q3 + invoice_count q4
    = Z.of_nat (List.length
                  (List.filter (in_year 2024) (invoices sample_ledger))).
Proof.
  apply (yearly_report_partitions sample_ledger 2024 0.20 0.05).
  - unfold Date.MINYEAR, Date.MAXYEAR. lia.
  - reflexivity.
  - reflexivity.
Defined.

Lemma quarterly_earnings_bad_quarter (s : BusinessTaxCalculator)
    (year q : Z) :
  ~ 1 <= q <= 4 -> raises_class ValueError (get_quarterly_earnings s year q).
Proof.
  intro N. unfold get_quarterly_earnings.
  destruct (get_quarter_bounds year q) as [[a b] | e] eqn:E.
  - exfalso. apply N. exact (proj2 (quarter_bounds_ok_inv _ _ _ _ E)).
  - cbn [bind]. unfold raises_class.
    rewrite (quarter_bounds_raise_class _ _ _ E).
    replace ((1 <=? q) && (q <=? 4)) with false; [reflexivity |].
    symmetry. apply andb_false_iff.
    destruct (Z.leb_spec 1 q); [right | left; reflexivity].
    apply Z.leb_gt. lia.
Qed.

Lemma quarterly_earnings_bad_year (s : BusinessTaxCalculator) (year q : Z) :
  1 <= q <= 4 -> ~ Date.MINYEAR <= year <= Date.MAXYEAR ->
  raises_class (year_error year) (get_quarterly_earnings s year q).
Proof.
  intros Hq N. unfold get_quarterly_earnings.
  destruct (get_quarter_bounds year q) as [[a b] | e] eqn:E.
  - exfalso. apply N. exact (proj1 (quarter_bounds_ok_inv _ _ _ _ E)).
  - cbn [bind]. unfold raises_class, year_error.
    rewrite (quarter_bounds_raise_class _ _ _ E).
    replace ((1 <=? q) && (q <=? 4)) with true
      by (symmetry; apply andb_true_iff; split; apply Z.leb_le; lia).
    now destruct (Date.fits_int year).
Qed.

Lemma quarter_report_raises (s : BusinessTaxCalculator) (year q : Z)
    (quarter : option Z) (c : exn_class) :
  match quarter with Some q' => q' = q | None => q = 1 end ->
  raises_class c (get_quarterly_earnings s year q) ->
  raises_class c (generate_quarterly_report s year quarter).
Proof.
  intros Q R. unfold generate_quarterly_report.
  destruct quarter as [q' |]; subst; cbn [report_loop];
    unfold quarter_entry;
    destruct (get_quarterly_earnings s year _); [contradiction | exact R |
                                                 contradiction | exact R].
Qed.

(** X11.  With float rates, the report of one quarter of a year of the
    calendar has that quarter alone and no SEP result.  A report asked for
    a quarter outside 1..4 raises ValueError, whatever the year; a report
    for a year outside 1..9999 (of a quarter in 1..4, or of the whole year)
    raises ValueError when the year is a C int and OverflowError when it is
    not. *)
Theorem quarter_report_domain (s : BusinessTaxCalculator) (year q : Z)
    (f g : float) :
  fed_tax_rate s = PyFloat f -> state_tax_rate s = PyFloat g ->
  (Date.MINYEAR <= year <= Date.MAXYEAR /\ 1 <= q <= 4 ->
   exists r,
     generate_quarterly_report s year (Some q)
     = Ok {| report_year := year; quarters := [(q, r)]; sep_401k := None |} /\
     get_quarterly_earnings s year q = Ok (earnings r)) /\
  (~ 1 <= q <= 4 ->
   raises_class ValueError (generate_quarterly_report s year (Some q))) /\
  (~ Date.MINYEAR <= year <= Date.MAXYEAR ->
   Date.INT_MIN <= year <= Date.INT_MAX ->
   (1 <= q <= 4 ->
    raises_class ValueError (generate_quarterly_report s year (Some q))) /\
   raises_class ValueError (generate_quarterly_report s year None)) /\
  (~ Date.INT_MIN <= year <= Date.INT_MAX ->
   (1 <= q <= 4 ->
    raises_class OverflowError (generate_quarterly_report s year (Some q))) /\
   raises_class OverflowError (generate_quarterly_report s year None)).
Proof.
  intros F G. split; [| split; [| split]].
  - intros [Hy Hq].
    destruct (quarter_bounds_value year q Hy Hq) as (a & b & H & _).
    unfold generate_quarterly_report. cbn [report_loop].
    rewrite (quarter_entry_value s year q a b f g H F G).
    cbn [bind dict_set]. eexists. split; [reflexivity |].
    unfold get_quarterly_earnings. rewrite H. reflexivity.
  - intro N. apply (quarter_report_raises s year q (Some q)); [reflexivity |].
    now apply quarterly_earnings_bad_quarter.
  - intros N I. split.
    + intro Hq. apply (quarter_report_raises s year q (Some q));
        [reflexivity |].
      exact (proj1 (year_error_cases year _
                      (quarterly_earnings_bad_year s year q Hq N)) I).
    + apply (quarter_report_raises s year 1 None); [reflexivity |].
      exact (proj1 (year_error_cases year _
                      (quarterly_earnings_bad_year s year 1 ltac:(lia) N)) I).
  - intro I.
    assert (N : ~ Date.MINYEAR <= year <= Date.MAXYEAR).
    { unfold Date.MINYEAR, Date.MAXYEAR, Date.INT_MIN, Date.INT_MAX in *.
      lia. }
    split.
    + intro Hq. apply (quarter_report_raises s year q (Some q));
        [reflexivity |].
      exact (proj2 (year_error_cases year _
                      (quarterly_earnings_bad_year s year q Hq N)) I).
    + apply (quarter_report_raises s year 1 None); [reflexivity |].
      exact (proj2 (year_error_cases year _
                      (quarterly_earnings_bad_year s year 1 ltac:(lia) N)) I).
Qed.

Lemma quarter_report_domain_witness :
  (exists r,
     generate_quarterly_report sample_ledger 2024 (Some 2)
     = Ok {| report_year := 2024; quarters := [(2, r)]; sep_401k := None |} /\
     get_quarterly_earnings sample_ledger 2024 2 = Ok (earnings r)) /\
  raises_class ValueError (generate_quarterly_report sample_ledger 2024 (Some 5)) /\
  raises_class ValueError (generate_quarterly_report sample_ledger 0 None) /\
  raises_class OverflowError
    (generate_quarterly_report sample_ledger 2147483648 (Some 1)).
Proof.
  pose proof (quarter_report_domain sample_ledger 2024 2 0.20 0.05
                eq_refl eq_refl) as A.
  pose proof (quarter_report_domain sample_ledger 2024 5 0.20 0.05
                eq_refl eq_refl) as B.
  pose proof (quarter_report_domain sample_ledger 0 1 0.20 0.05
                eq_refl eq_refl) as C.
  pose proof (quarter_report_domain sample_ledger 2147483648 1 0.20 0.05
                eq_refl eq_refl) as D.
  split; [| split; [| split]].
  - apply (proj1 A). unfold Date.MINYEAR, Date.MAXYEAR. lia.
  - apply (proj1 (proj2 B)). lia.
  - apply (proj1 (proj2 (proj2 C)));
      unfold Date.MINYEAR, Date.INT_MIN, Date.INT_MAX; lia.
  - apply (proj2 (proj2 (proj2 D)));
      unfold Date.INT_MIN, Date.INT_MAX; lia.
Defined.

(** ** [load_invoices] *)

(** The loop of [load_invoices] touches the invoices alone. *)
Lemma load_loop_frame (entries : list pyobj) (w : world) :
  fs (snd (load_loop entries w)) = fs w /\
  set_invoices [] (self (snd (load_loop entries w)))
  = set_invoices [] (self w).
Proof.
  revert w. induction entries as [| inv rest IH]; intro w;
    cbn [load_loop].
  - split; reflexivity.
  - unfold bindM, lift. destruct (invoice_of_entry inv) as [i | e].
    + unfold update at 1. cbv iota beta.
      destruct (IH {| self := append_invoice i (self w); fs := fs w |})
        as [A B].
      split; [exact A | exact B].
    + split; reflexivity.
Qed.

Lemma load_loop_ok (entries : list pyobj) (l : list Invoice) (w : world) :
  comprehension invoice_of_entry entries = Ok l ->
  load_loop entries w
  = (Ok tt, {| self := set_invoices (invoices (self w) ++ l) (self w);
               fs := fs w |}).
Proof.
  revert l w. induction entries as [| inv rest IH]; intros l w;
    cbn [comprehension load_loop].
  - intro H. inversion H. unfold ret. rewrite app_nil_r.
    destruct w as [[] ?]; reflexivity.
  - unfold bindM, lift.
    destruct (invoice_of_entry inv) as [i | e]; cbn [bind];
      [| discriminate].
    destruct (comprehension invoice_of_entry rest) as [l' | e] eqn:E;
      cbn [bind]; [| discriminate].
    intro H. inversion H; subst l. unfold update.
    rewrite (IH l' _ eq_refl).
    cbn [self fs append_invoice set_invoices invoices].
    rewrite <- app_assoc. reflexivity.
Qed.

Lemma load_loop_raise (entries : list pyobj) (e : exn) (w : world) :
  comprehension invoice_of_entry entries = Raise e ->
  fst (load_loop entries w) = Raise e.
Proof.
  revert w. induction entries as [| inv rest IH]; intro w;
    cbn [comprehension load_loop]; [discriminate |].
  unfold bindM, lift.
  destruct (invoice_of_entry inv) as [i | e1]; cbn [bind].
  - destruct (comprehension invoice_of_entry rest) as [l' | e2] eqn:E;
      cbn [bind]; [discriminate |].
    intro H. inversion H; subst e2. unfold update. cbv iota beta.
    now apply IH.
  - intro H. inversion H. reflexivity.
Qed.

Lemma load_invoices_reads (s0 : BusinessTaxCalculator)
    (fs1 : filesystem) (items : list (string * pyobj))
    (entries : list pyobj) (l : list Invoice) :
  files fs1 (data_file s0) = Document (PyDict items) ->
  from_file items "invoices" (PyList []) = PyList entries ->
  comprehension invoice_of_entry entries = Ok l ->
  load_invoices {| self := s0; fs := fs1 |}
  = (Ok tt,
     {| self :=
          {| data_dir := data_dir s0; data_file := data_file s0;
             fed_tax_rate := from_file items "fed_tax_rate" (fed_tax_rate s0);
             state_tax_rate :=
               from_file items "state_tax_rate" (state_tax_rate s0);
             state_code := from_file items "state_code" (state_code s0);
             invoices := l |};
        fs := fs1 |}).
Proof.
  intros H L C. unfold load_invoices, exists_, is_file, try_exceptM.
  cbn [self fs]. rewrite H. cbn [orb]. unfold bindM at 1. unfold lift at 1. unfold json_load.
  cbn [self fs]. rewrite H.
  unfold bindM at 1. unfold update at 1. cbn [self fs].
  unfold bindM at 1. unfold lift at 1. cbn [Obj.get].
  fold (from_file items "invoices" (PyList [])). rewrite L.
  unfold bindM at 1. unfold lift at 1. cbn [Obj.iter].
  unfold bindM at 1. rewrite (load_loop_ok entries l _ C).
  reflexivity.
Qed.

(** X12.  When the data file is a JSON object whose invoices all read,
    [load_invoices] puts exactly these invoices in the place of the ones
    the ledger had, and takes each of the federal rate, the state rate and
    the state code from the file as it stands there, with no check of type
    or range, and keeps the value it had for a key the file lacks. *)
Theorem load_takes_file_as_is (s0 : BusinessTaxCalculator)
    (fs1 : filesystem) (items : list (string * pyobj))
    (entries : list pyobj) (l : list Invoice) :
  files fs1 (data_file s0) = Document (PyDict items) ->
  from_file items "invoices" (PyList []) = PyList entries ->
  comprehension invoice_of_entry entries = Ok l ->
  load_invoices {| self := s0; fs := fs1 |}
  = (Ok tt,
     {| self :=
          {| data_dir := data_dir s0; data_file := data_file s0;
             fed_tax_rate := from_file items "fed_tax_rate" (fed_tax_rate s0);
             state_tax_rate :=
               from_file items "state_tax_rate" (state_tax_rate s0);
             state_code := from_file items "state_code" (state_code s0);
             invoices := l |};
        fs := fs1 |}).
Proof. exact (load_invoices_reads s0 fs1 items entries l). Qed.

Lemma load_takes_file_as_is_witness :
  load_invoices
    {| self := one_invoice_ledger;
       fs := single_file (Document (PyDict odd_rates_items)) |}
  = (Ok tt,
     {| self :=
          {| data_dir := "data"; data_file := "data/invoices.json";
             fed_tax_rate := PyFloat 7.5;
             state_tax_rate := PyStr "high";
             state_code := PyStr "";
             invoices := [{| date := jan_15_2024; amount := 100.5;
                             description := PyStr "consulting";
                             invoice_id := PyStr "INV-1" |}] |};
        fs := single_file (Document (PyDict odd_rates_items)) |}).
Proof.
  apply (load_takes_file_as_is one_invoice_ledger
           (single_file (Document (PyDict odd_rates_items)))
           odd_rates_items [good_entry]
           [{| date := jan_15_2024; amount := 100.5;
               description := PyStr "consulting";
               invoice_id := PyStr "INV-1" |}]); reflexivity.
Defined.

(** X13.  When [json.load] rejects the text of the data file with
    JSONDecodeError, or one of its invoices fails to read with an error the
    handler names (JSONDecodeError, KeyError, ValueError, IndexError),
    [load_invoices] returns with an empty collection: the invoices of the
    file that did read are dropped with the one that did not, the rates and
    the state code of the file are not taken, and nothing is written.  A
    data file that cannot be opened, or whose text is nested deeper than
    the parser follows, is not absorbed: OSError, respectively
    RecursionError, leaves [load_invoices] and the ledger is as it was. *)
Theorem load_error_empties_ledger (s0 : BusinessTaxCalculator)
    (fs1 : filesystem) :
  ((files fs1 (data_file s0) = Malformed \/
    exists items entries e,
      files fs1 (data_file s0) = Document (PyDict items) /\
      from_file items "invoices" (PyList []) = PyList entries /\
      comprehension invoice_of_entry entries = Raise e /\
      caught_by load_errors e = true) ->
   load_invoices {| self := s0; fs := fs1 |}
   = (Ok tt, {| self := set_invoices [] s0; fs := fs1 |})) /\
  (files fs1 (data_file s0) = TooDeep ->
   raises_class RecursionError
     (fst (load_invoices {| self := s0; fs := fs1 |})) /\
   snd (load_invoices {| self := s0; fs := fs1 |})
   = {| self := s0; fs := fs1 |}) /\
  (files fs1 (data_file s0) = Unreadable ->
   raises_class OSError
     (fst (load_invoices {| self := s0; fs := fs1 |})) /\
   snd (load_invoices {| self := s0; fs := fs1 |})
   = {| self := s0; fs := fs1 |}).
Proof.
  split; [| split].
  - intros [H | (items & entries & e & H & L & C & K)];
      unfold load_invoices, exists_, is_file, try_exceptM; cbn [self fs];
      rewrite H; cbn [orb].
    + unfold bindM at 1. unfold lift at 1. unfold json_load.
      cbn [self fs]. rewrite H. reflexivity.
    + unfold bindM at 1. unfold lift at 1. unfold json_load.
      cbn [self fs]. rewrite H.
      unfold bindM at 1. unfold update at 1. cbn [self fs].
      unfold bindM at 1. unfold lift at 1. cbn [Obj.get].
      fold (from_file items "invoices" (PyList [])). rewrite L.
      unfold bindM at 1. unfold lift at 1. cbn [Obj.iter].
      unfold bindM at 1.
      pose proof (load_loop_raise entries e
                    {| self := set_invoices [] s0; fs := fs1 |} C) as R.
      pose proof (load_loop_frame entries
                    {| self := set_invoices [] s0; fs := fs1 |}) as [A B].
      destruct (load_loop entries {| self := set_invoices [] s0; fs := fs1 |})
        as [r w'].
      cbn [fst snd self fs] in R, A, B. subst r. rewrite K.
      unfold update. rewrite A, B. reflexivity.
  - intro H. unfold load_invoices, exists_, is_file, try_exceptM.
    cbn [self fs]. rewrite H. cbn [orb].
    unfold bindM at 1. unfold lift at 1. unfold json_load.
    cbn [self fs]. rewrite H. split; reflexivity.
  - intro H. unfold load_invoices, exists_, is_file, try_exceptM.
    cbn [self fs]. rewrite H. cbn [orb].
    unfold bindM at 1. unfold lift at 1. unfold json_load.
    cbn [self fs]. rewrite H. split; reflexivity.
Qed.

Lemma load_error_empties_ledger_witness :
  load_invoices {| self := one_invoice_ledger;
                   fs := single_file short_date_file |}
  = (Ok tt, {| self := set_invoices [] one_invoice_ledger;
               fs := single_file short_date_file |}).
Proof.
  apply (proj1 (load_error_empties_ledger one_invoice_ledger
                  (single_file short_date_file))).
  right.
  exists [("fed_tax_rate", PyFloat 0.3);
          ("invoices",
           PyList [good_entry;
                   entry (PyStr "2024-02") (PyFloat 1) (PyStr "design")
                     (PyStr "INV-2")])],
    [good_entry;
     entry (PyStr "2024-02") (PyFloat 1) (PyStr "design") (PyStr "INV-2")],
    (Exn IndexError "list index out of range").
  repeat split.
Defined.

(** What the handler does not name leaves [load_invoices]: a year that is
    no C int makes [datetime.date] raise OverflowError.  Digits of another
    script are digits to [int()] and [float()]: the entry is read. *)
Example load_overflow_and_other_digits :
  raises_class OverflowError
    (fst (load_invoices
            {| self := empty_ledger;
               fs := single_file
                       (file_with
                          [entry (PyStr "99999999999-01-15") (PyFloat 1)
                             (PyStr "x") (PyStr "INV-1")]) |})) /\
  invoices
    (loaded empty_ledger
       (single_file
          (file_with
             [entry (PyStr (fullwidth_two ++ "024-01-15"))
                (PyStr ("1" ++ fullwidth_two)) (PyStr "x")
                (PyStr "INV-1")])))
  = [{| date := jan_15_2024; amount := 12; description := PyStr "x";
        invoice_id := PyStr "INV-1" |}].
Proof. split; reflexivity. Qed.

Lemma load_invoices_frame (w : world) :
  exists r w',
    load_invoices w = (r, w') /\
    fs w' = fs w /\
    data_file (self w') = data_file (self w) /\
    data_dir (self w') = data_dir (self w).
Proof.
  unfold load_invoices.
  destruct (exists_ (fs w) (data_file (self w)));
    [| do 2 eexists; repeat split].
  unfold try_exceptM.
  unfold bindM at 1. unfold lift at 1.
  destruct (json_load (fs w) (data_file (self w))) as [data | e].
  2:{ destruct (caught_by load_errors e); do 2 eexists; repeat split. }
  unfold bindM at 1. unfold update at 1. cbn [self fs].
  unfold bindM at 1. unfold lift at 1.
  destruct (Obj.get data "invoices" (PyList [])) as [inv_list | e].
  2:{ destruct (caught_by load_errors e); do 2 eexists; repeat split. }
  unfold bindM at 1. unfold lift at 1.
  destruct (Obj.iter inv_list) as [entries | e].
  2:{ destruct (caught_by load_errors e); do 2 eexists; repeat split. }
  unfold bindM at 1.
  pose proof (load_loop_frame entries
                {| self := set_invoices [] (self w); fs := fs w |})
    as [A B].
  destruct (load_loop entries
              {| self := set_invoices [] (self w); fs := fs w |})
    as [[[] | e] w'];
    cbn [fst snd self fs] in A, B;
    apply (f_equal data_file) in B as B1;
    apply (f_equal data_dir) in B as B2; cbn in B1, B2.
  - unfold bindM at 1. unfold get_self at 1.
    unfold bindM at 1. unfold lift at 1.
    destruct (Obj.get data "fed_tax_rate" (fed_tax_rate (self w')))
      as [v1 | e].
    2:{ destruct (caught_by load_errors e); do 2 eexists;
          (split; [reflexivity |]); cbn; repeat split; assumption. }
    unfold bindM at 1. unfold update at 1. cbn [self fs].
    unfold bindM at 1. unfold lift at 1.
    destruct (Obj.get data "state_tax_rate" (state_tax_rate (self w')))
      as [v2 | e].
    2:{ destruct (caught_by load_errors e); do 2 eexists;
          (split; [reflexivity |]); cbn; repeat split; assumption. }
    unfold bindM at 1. unfold update at 1. cbn [self fs].
    unfold bindM at 1. unfold lift at 1.
    destruct (Obj.get data "state_code" (state_code (self w')))
      as [v3 | e].
    2:{ destruct (caught_by load_errors e); do 2 eexists;
          (split; [reflexivity |]); cbn; repeat split; assumption. }
    do 2 eexists. split; [reflexivity |]. cbn. repeat split; assumption.
  - destruct (caught_by load_errors e); do 2 eexists;
      (split; [reflexivity |]); cbn; repeat split; assumption.
Qed.

(** X14.  [load_invoices] only reads: whether it returns or raises, every
    file is as it was, and so are the data directory and the data file of
    the ledger.  The constructor, which creates its data directory and ends
    in [load_invoices], creates no file and changes none; it raises OSError
    before it reads anything when the directory is the empty path, names a
    file or cannot be created. *)
Theorem load_never_writes (w : world) (dir : string) (file : option string)
    (fed state code : pyobj) :
  fs (snd (load_invoices w)) = fs w /\
  data_file (self (snd (load_invoices w))) = data_file (self w) /\
  data_dir (self (snd (load_invoices w))) = data_dir (self w) /\
  files (snd (init (fs w) dir file fed state code)) = files (fs w) /\
  (usable_dir (fs w) dir = false ->
   raises_class OSError (fst (init (fs w) dir file fed state code))).
Proof.
  destruct (load_invoices_frame w) as (r & w' & E & A & B & C).
  rewrite E. cbn [snd]. repeat split; try assumption.
  - unfold init.
    assert (M : forall fs1, makedirs (fs w) dir = Ok fs1 ->
                            files fs1 = files (fs w)).
    { unfold makedirs. intros fs1.
      destruct dir; [discriminate |].
      destruct (is_file (fs w) _); [discriminate |].
      destruct (dirs (fs w) _); [intro H; now inversion H |].
      destruct (creatable (fs w) _); [| discriminate].
      intro H. inversion H. reflexivity. }
    destruct (makedirs (fs w) dir) as [fs1 | e]; [| reflexivity].
    rewrite <- (M fs1 eq_refl).
    match goal with |- context [load_invoices ?w0] =>
      destruct (load_invoices_frame w0) as (r1 & w1 & E1 & A1 & _) end.
    rewrite E1. cbn [fs] in A1. destruct r1; cbn [snd]; now rewrite A1.
  - intro U. pose proof (makedirs_unusable (fs w) dir U) as R.
    unfold init. destruct (makedirs (fs w) dir); [contradiction | exact R].
Qed.

(** * Further properties of the extractor *)

(** ** Tables [extract_from_pdf] does not read *)

Lemma first_index_cases (word : string) (headers : list string) (i : nat) :
  (exists j, Extractor.first_index word headers i = Ok j) \/
  (Extractor.first_index word headers i = Raise (Exn StopIteration "") /\
   Extractor.any_header word headers = false).
Proof.
  revert i. induction headers as [| h rest IH]; intro i;
    cbn [Extractor.first_index Extractor.any_header existsb].
  - right. split; reflexivity.
  - destruct (Str.contains word (Str.lower h)).
    + left. eauto.
    + cbn [orb]. apply IH.
Qed.

Lemma first_index_missing (word : string) (headers : list string) (i : nat) :
  Extractor.any_header word headers = false ->
  Extractor.first_index word headers i = Raise (Exn StopIteration "").
Proof.
  intro H. destruct (first_index_cases word headers i) as [[j E] | [E _]];
    [| exact E].
  exfalso. revert i j E H.
  induction headers as [| h rest IH]; intros i j;
    cbn [Extractor.first_index Extractor.any_header existsb];
    [discriminate |].
  destruct (Str.contains word (Str.lower h)); [discriminate |].
  cbn [orb]. apply IH.
Qed.

(** X15.  [extract_from_pdf] reads a table only when each of the words
    invoice, date, amount, type, number and currency occurs in some cell of
    its header row (in any case of the letters): a table whose header row
    lacks one of them adds no candidate and is no error, whatever its rows
    hold. *)
Theorem table_without_required_header_ignored (header : Extractor.row)
    (rows : list Extractor.row) (st : Extractor.locals) (word : string) :
  In word required_headers ->
  Extractor.any_header word (map Extractor.cell_text header) = false ->
  Extractor.table_step (header :: rows) st = Ok st.
Proof.
  intros I H. unfold Extractor.table_step.
  cbn [Calculator.index nth_error bind].
  set (headers := map Extractor.cell_text header) in *.
  destruct (Extractor.any_header "invoice" headers
            && Extractor.any_header "date" headers
            && Extractor.any_header "amount" headers) eqn:G;
    [| reflexivity].
  apply andb_true_iff in G. destruct G as [G Ga].
  apply andb_true_iff in G. destruct G as [Gi Gd].
  assert (F : Extractor.find_columns headers = Raise (Exn StopIteration "")).
  { unfold Extractor.find_columns.
    destruct (first_index_cases "type" headers 0) as [[t Et] | [Et _]];
      rewrite Et; cbn [bind]; [| reflexivity].
    destruct (first_index_cases "number" headers 0) as [[n En] | [En _]];
      rewrite En; cbn [bind]; [| reflexivity].
    destruct (first_index_cases "date" headers 0) as [[d Ed] | [Ed _]];
      rewrite Ed; cbn [bind]; [| reflexivity].
    destruct (first_index_cases "amount" headers 0) as [[a Ea] | [Ea _]];
      rewrite Ea; cbn [bind]; [| reflexivity].
    destruct (first_index_cases "currency" headers 0) as [[c Ec] | [Ec _]];
      rewrite Ec; cbn [bind]; [| reflexivity].
    exfalso.
    pose proof (first_index_missing word headers 0 H) as M.
    destruct I as [<- | [<- | [<- | [<- | [<- | [<- | []]]]]]];
      congruence. }
  rewrite F. reflexivity.
Qed.

Lemma table_without_required_header_ignored_witness :
  Extractor.table_step
    [headers_without_currency;
     [Some "Invoice"; Some "1001"; Some "15/03/2024"; Some "$1,234.56"]]
    no_candidates
  = Ok no_candidates.
Proof.
  apply (table_without_required_header_ignored headers_without_currency
           [[Some "Invoice"; Some "1001"; Some "15/03/2024";
             Some "$1,234.56"]]
           no_candidates "currency").
  - unfold required_headers. cbn. tauto.
  - reflexivity.
Defined.

(** ** Candidates only accumulate *)

Lemma extends_refl (st : Extractor.locals) : extends st st.
Proof. exists []. now rewrite app_nil_r. Qed.

Lemma extends_trans (a b c : Extractor.locals) :
  extends a b -> extends b c -> extends a c.
Proof.
  intros [m1 H1] [m2 H2]. exists (m1 ++ m2)%list.
  now rewrite H2, H1, app_assoc.
Qed.

Lemma row_step_extends (ix : Extractor.columns) (r : Extractor.row)
    (st st' : Extractor.locals) :
  Extractor.row_step ix r st = Ok st' -> extends st st'.
Proof.
  unfold Extractor.row_step, bind. intro H.
  repeat break_match_in H; try discriminate;
    inversion H; subst; clear H;
    try apply extends_refl;
    try (exists []; cbn; now rewrite app_nil_r);
    eexists; cbn; reflexivity.
Qed.

Lemma rows_loop_extends (ix : Extractor.columns) (rows : list Extractor.row)
    (st st' : Extractor.locals) :
  Extractor.rows_loop ix rows st = Ok st' -> extends st st'.
Proof.
  revert st. induction rows as [| r rest IH]; intro st;
    cbn [Extractor.rows_loop].
  - intro H. inversion H. apply extends_refl.
  - destruct (Extractor.row_step ix r st) as [st1 |] eqn:E; cbn [bind];
      [| discriminate].
    intro H. exact (extends_trans _ _ _ (row_step_extends _ _ _ _ E)
                      (IH _ H)).
Qed.

Lemma table_step_extends (t : Extractor.table) (st st' : Extractor.locals) :
  Extractor.table_step t st = Ok st' -> extends st st'.
Proof.
  unfold Extractor.table_step, bind. intro H.
  repeat break_match_in H; try discriminate;
    try (inversion H; subst; apply extends_refl).
  exact (rows_loop_extends _ _ _ _ H).
Qed.

Lemma tables_loop_extends (ts : list Extractor.table)
    (st st' : Extractor.locals) :
  Extractor.tables_loop ts st = Ok st' -> extends st st'.
Proof.
  revert st. induction ts as [| t rest IH]; intro st;
    cbn [Extractor.tables_loop].
  - intro H. inversion H. apply extends_refl.
  - destruct (Extractor.table_step t st) as [st1 |] eqn:E; cbn [bind];
      [| discriminate].
    intro H. exact (extends_trans _ _ _ (table_step_extends _ _ _ E)
                      (IH _ H)).
Qed.

Lemma extends_nonempty (st st' : Extractor.locals) :
  extends st st' -> Extractor.invoices st <> [] ->
  Extractor.invoices st' <> [].
Proof.
  intros [more H] N. rewrite H.
  destruct (Extractor.invoices st); [contradiction | discriminate].
Qed.

(** Once a candidate is there, the pages that follow are read from their
    tables alone. *)
Lemma pages_loop_without_text
    (f1 f2 : Extractor.text_pattern -> string
             -> list (string * string * string))
    (pages : list Extractor.page) (st : Extractor.locals) :
  Extractor.invoices st <> [] ->
  Extractor.pages_loop f1 pages st = Extractor.pages_loop f2 pages st.
Proof.
  revert st. induction pages as [| p rest IH]; intros st N;
    cbn [Extractor.pages_loop]; [reflexivity |].
  destruct (Extractor.extract_text p) as [text |]; cbn [bind];
    [| reflexivity].
  destruct (Extractor.extract_tables p) as [ts |]; cbn [bind];
    [| reflexivity].
  destruct (Extractor.tables_loop ts st) as [st1 |] eqn:E; cbn [bind];
    [| reflexivity].
  pose proof (extends_nonempty _ _ (tables_loop_extends _ _ _ E) N) as N1.
  destruct (Extractor.invoices st1) eqn:I; [contradiction |].
  cbn [bind]. apply IH. now rewrite I.
Qed.

Lemma pages_loop_extends
    (f : Extractor.text_pattern -> string -> list (string * string * string))
    (pages : list Extractor.page) (st st' : Extractor.locals) :
  Extractor.invoices st <> [] ->
  Extractor.pages_loop f pages st = Ok st' -> extends st st'.
Proof.
  revert st. induction pages as [| p rest IH]; intros st N;
    cbn [Extractor.pages_loop].
  - intro H. inversion H. apply extends_refl.
  - destruct (Extractor.extract_text p) as [text |]; cbn [bind];
      [| discriminate].
    destruct (Extractor.extract_tables p) as [ts |]; cbn [bind];
      [| discriminate].
    destruct (Extractor.tables_loop ts st) as [st1 |] eqn:E; cbn [bind];
      [| discriminate].
    pose proof (tables_loop_extends _ _ _ E) as X.
    pose proof (extends_nonempty _ _ X N) as N1.
    destruct (Extractor.invoices st1) eqn:I; [contradiction |].
    cbn [bind]. intro H.
    apply (extends_trans _ _ _ X). apply IH; [now rewrite I | exact H].
Qed.

(** X16.  When the tables of the first page give a candidate, the text of
    no page is searched: the result is the same whatever the regular
    expressions would find, on this page and on all that follow.  The
    result then either starts with the candidates of the first page, in
    their order, or is empty (a later page raised and took them along). *)
Theorem table_candidates_suppress_text_pass
    (f1 f2 : Extractor.text_pattern -> string
             -> list (string * string * string))
    (p : Extractor.page) (rest : list Extractor.page)
    (text : option string) (ts : list Extractor.table)
    (st1 : Extractor.locals) :
  Extractor.extract_text p = Ok text ->
  Extractor.extract_tables p = Ok ts ->
  Extractor.tables_loop ts no_candidates = Ok st1 ->
  Extractor.invoices st1 <> [] ->
  Extractor.extract_from_pdf f1 (Ok (p :: rest))
  = Extractor.extract_from_pdf f2 (Ok (p :: rest)) /\
  (Extractor.extract_from_pdf f1 (Ok (p :: rest)) = Ok [] \/
   exists more,
     Extractor.extract_from_pdf f1 (Ok (p :: rest))
     = Ok (Extractor.invoices st1 ++ more)%list).
Proof.
  intros T Tb L N.
  unfold Extractor.extract_from_pdf, Extractor.extract_from_pdf_body.
  cbn [bind Extractor.pages_loop]. fold no_candidates.
  rewrite T, Tb. cbn [bind]. rewrite L. cbn [bind].
  destruct (Extractor.invoices st1) as [| c l] eqn:I; [contradiction |].
  cbn [bind].
  assert (N1 : Extractor.invoices st1 <> []) by (now rewrite I).
  rewrite (pages_loop_without_text f1 f2 rest st1 N1).
  split; [reflexivity |].
  destruct (Extractor.pages_loop f2 rest st1) as [st' |] eqn:E;
    cbn [bind try_except is_Exception].
  - right. destruct (pages_loop_extends f2 rest st1 st' N1 E) as [more H].
    exists more. now rewrite H, I.
  - left. reflexivity.
Qed.

Lemma table_candidates_suppress_text_pass_witness :
  Extractor.extract_from_pdf no_matches
    (Ok [table_page [row_1001]; text_page "Invoice 9 2024-03-15 1"])
  = Extractor.extract_from_pdf one_match
      (Ok [table_page [row_1001]; text_page "Invoice 9 2024-03-15 1"]) /\
  (Extractor.extract_from_pdf no_matches
     (Ok [table_page [row_1001]; text_page "Invoice 9 2024-03-15 1"])
   = Ok [] \/
   exists more,
     Extractor.extract_from_pdf no_matches
       (Ok [table_page [row_1001]; text_page "Invoice 9 2024-03-15 1"])
     = Ok ([{| Extractor.date := mar_15_2024;
               Extractor.amount := 1234.56;
               Extractor.description := "Invoice: 1001";
               Extractor.currency := "USD";
               Extractor.doc_number := "1001" |}] ++ more)%list).
Proof.
  apply (table_candidates_suppress_text_pass no_matches one_match
           (table_page [row_1001]) [text_page "Invoice 9 2024-03-15 1"]
           (Some "") [invoice_headers :: [row_1001]]
           {| Extractor.date_var := Some mar_15_2024;
              Extractor.invoices :=
                [{| Extractor.date := mar_15_2024;
                    Extractor.amount := 1234.56;
                    Extractor.description := "Invoice: 1001";
                    Extractor.currency := "USD";
                    Extractor.doc_number := "1001" |}] |}).
  - reflexivity.
  - reflexivity.
  - reflexivity.
  - discriminate.
Defined.

(** ** The characters of a text *)

Lemma append_empty (s : string) : (s ++ "")%string = s.
Proof. induction s as [| c s IH]; cbn [append]; [| rewrite IH]; reflexivity. Qed.

Lemma append_assoc (a b c : string) :
  ((a ++ b) ++ c)%string = (a ++ (b ++ c))%string.
Proof. induction a as [| x a IH]; cbn [append]; [| rewrite IH]; reflexivity. Qed.

Lemma append_length (a b : string) :
  String.length (a ++ b) = (String.length a + String.length b)%nat.
Proof.
  induction a as [| x a IH]; cbn [append String.length]; [| rewrite IH];
    reflexivity.
Qed.

Lemma characters_skip (p rest : string) :
  Unicode.characters_from (p ++ rest) (String.length p)
  = Unicode.characters rest.
Proof.
  induction p as [| c p IH]; [reflexivity |].
  cbn [append String.length Unicode.characters_from]. exact IH.
Qed.

(** The first character of a text heads its characters. *)
Lemma first_spec (s : string) (cp : N) (bytes rest : string) :
  Unicode.first s = Some (cp, bytes, rest) ->
  s = (bytes ++ rest)%string /\
  (1 <= String.length bytes)%nat /\
  Unicode.characters s = (cp, bytes) :: Unicode.characters rest.
Proof.
  intro H.
  assert (A : s = (bytes ++ rest)%string /\
              exists b t, bytes = String b t).
  { unfold Unicode.first in H.
    destruct s as [| b0 r0]; [discriminate |].
    repeat match type of H with
           | (if ?c then _ else _) = _ => destruct c
           | match ?x with EmptyString => _ | String _ _ => _ end = _ =>
               destruct x
           end;
      inversion H; subst; cbn [append]; split; eauto. }
  destruct A as [E (b & t & B)]. subst bytes s. split; [reflexivity |].
  split; [cbn [String.length]; lia |].
  unfold Unicode.characters. cbn [append] in H |- *.
  cbn [Unicode.characters_from]. rewrite H.
  cbn [String.length]. rewrite Nat.sub_succ, Nat.sub_0_r.
  now rewrite characters_skip.
Qed.

(** A decimal digit at the head of a text is read off its own bytes. *)
Lemma first_decimal_stable (s : string) (cp : N) (bytes rest : string) :
  Unicode.first s = Some (cp, bytes, rest) ->
  Unicode.is_decimal cp = true ->
  forall rest', Unicode.first (bytes ++ rest') = Some (cp, bytes, rest').
Proof.
  intros H D rest'. unfold Unicode.first in H.
  destruct s as [| b0 r0]; [discriminate |].
  destruct (Unicode.byte b0 <? 128)%N eqn:A0.
  { inversion H; subst. cbn [append Unicode.first]. now rewrite A0. }
  destruct ((194 <=? Unicode.byte b0) && (Unicode.byte b0 <? 224))%N eqn:A1.
  { destruct r0 as [| b1 r1];
      [inversion H; subst; discriminate D |].
    destruct (Unicode.continues b1) eqn:C1;
      [| inversion H; subst; discriminate D].
    inversion H; subst. cbn [append Unicode.first].
    now rewrite A0, A1, C1. }
  destruct ((224 <=? Unicode.byte b0) && (Unicode.byte b0 <? 240))%N eqn:A2.
  { destruct r0 as [| b1 [| b2 r2]];
      try (inversion H; subst; discriminate D).
    destruct (Unicode.continues b1 && Unicode.continues b2
              && (2048 <=? Unicode.three b0 b1 b2)%N) eqn:C;
      [| inversion H; subst; discriminate D].
    inversion H; subst. cbn [append Unicode.first].
    now rewrite A0, A1, A2, C. }
  destruct ((240 <=? Unicode.byte b0) && (Unicode.byte b0 <? 245))%N eqn:A3.
  { destruct r0 as [| b1 [| b2 [| b3 r3]]];
      try (inversion H; subst; discriminate D).
    destruct (Unicode.continues b1 && Unicode.continues b2
              && Unicode.continues b3
              && (65536 <=? Unicode.four b0 b1 b2 b3)%N
              && (Unicode.four b0 b1 b2 b3 <? 1114112)%N) eqn:C;
      [| inversion H; subst; discriminate D].
    inversion H; subst. cbn [append Unicode.first].
    now rewrite A0, A1, A2, A3, C. }
  inversion H; subst; discriminate D.
Qed.

Lemma first_ascii (c : ascii) (r : string) :
  (Unicode.byte c <? 128)%N = true ->
  Unicode.first (String c r) = Some (Unicode.byte c, String c EmptyString, r).
Proof. intro H. cbn [Unicode.first]. now rewrite H. Qed.

Lemma characters_ascii (c : ascii) (r : string) :
  (Unicode.byte c <? 128)%N = true ->
  Unicode.characters (String c r)
  = (Unicode.byte c, String c EmptyString) :: Unicode.characters r.
Proof.
  intro H. exact (proj2 (proj2 (first_spec _ _ _ _ (first_ascii c r H)))).
Qed.

(** What [int()] makes of one character is one ASCII character, as long as
    the character is read off well-formed bytes or is a stray byte. *)
Lemma to_ascii_length (s : string) (cp : N) (bytes rest : string) :
  Unicode.first s = Some (cp, bytes, rest) ->
  String.length (Unicode.to_ascii (cp, bytes)) = 1%nat.
Proof.
  intro H. unfold Unicode.to_ascii.
  destruct (cp <? 127)%N eqn:A.
  - unfold Unicode.first in H.
    destruct s as [| b0 r0]; [discriminate |].
    destruct (Unicode.byte b0 <? 128)%N eqn:A0;
      [inversion H; reflexivity |].
    exfalso. apply N.ltb_lt in A. apply N.ltb_ge in A0.
    repeat match type of H with
           | (if ?c then _ else _) = _ => destruct c eqn:?
           | match ?x with EmptyString => _ | String _ _ => _ end = _ =>
               destruct x
           end;
      inversion H; subst; clear H;
      repeat match goal with
             | E : (_ && _)%bool = true |- _ =>
                 apply andb_true_iff in E; destruct E
             | E : (_ <=? _)%N = true |- _ => apply N.leb_le in E
             | E : (_ <? _)%N = true |- _ => apply N.ltb_lt in E
             | E : Unicode.continues _ = true |- _ =>
                 unfold Unicode.continues in E
             end;
      unfold Unicode.two in *; lia.
  - destruct (Unicode.is_space cp); [reflexivity |].
    destruct (Unicode.decimal cp); reflexivity.
Qed.

Lemma transform_head (s : string) (cp : N) (bytes rest : string) :
  Unicode.first s = Some (cp, bytes, rest) ->
  Unicode.transform s
  = (Unicode.to_ascii (cp, bytes) ++ Unicode.transform rest)%string.
Proof.
  intro H. unfold Unicode.transform.
  rewrite (proj2 (proj2 (first_spec _ _ _ _ H))). reflexivity.
Qed.

(** ** The remittance-advice variant *)

Lemma remittance_pages_without_phrase (pages : list Extractor.page) :
  (forall p t, In p pages -> Extractor.extract_text p = Ok (Some t) ->
     Str.contains "remittance advice" (Str.lower t) = false) ->
  Extractor.remittance_pages pages [] = Ok [] \/
  raises (Extractor.remittance_pages pages []).
Proof.
  induction pages as [| p rest IH]; intro H;
    cbn [Extractor.remittance_pages].
  - now left.
  - destruct (Extractor.extract_text p) as [[t |] |] eqn:T; cbn [bind];
      try (right; exact I).
    + destruct (Extractor.extract_tables p) as [ts |]; cbn [bind];
        [| right; exact I].
      rewrite (H p t (or_introl eq_refl) T). cbn [bind].
      apply IH. intros q u Hq. apply H. now right.
    + destruct (Extractor.extract_tables p) as [ts |]; cbn [bind];
        right; exact I.
Qed.

(** X17.  [extract_from_remittance_advice] takes candidates only from pages
    whose text contains the words "remittance advice" (in any case of the
    letters): for a document none of whose pages has them the result is
    empty, whatever the tables of the document hold. *)
Theorem remittance_needs_its_title (doc : Extractor.document) :
  (forall pages p t,
     doc = Ok pages -> In p pages ->
     Extractor.extract_text p = Ok (Some t) ->
     Str.contains "remittance advice" (Str.lower t) = false) ->
  Extractor.extract_from_remittance_advice doc = Ok [].
Proof.
  intro H.
  unfold Extractor.extract_from_remittance_advice,
    Extractor.extract_from_remittance_advice_body.
  destruct doc as [pages | e]; cbn [bind]; [| reflexivity].
  destruct (remittance_pages_without_phrase pages
              (fun p t => H pages p t eq_refl))
    as [E | R].
  - now rewrite E.
  - destruct (Extractor.remittance_pages pages []); [contradiction |].
    reflexivity.
Qed.

Lemma remittance_needs_its_title_witness :
  Extractor.extract_from_remittance_advice
    (Ok [statement_page [remittance_row_1]]) = Ok [].
Proof.
  apply (remittance_needs_its_title (Ok [statement_page [remittance_row_1]])).
  intros pages p t E. inversion E; subst pages. clear E.
  intros [<- | []] T. inversion T. reflexivity.
Defined.

(** *** A row of a remittance table cannot end the extraction *)

Lemma to_int_raises_value_error (s : string) (e : exn) :
  Str.to_int s = Raise e -> class_of e = ValueError.
Proof.
  unfold Str.to_int. intro H.
  repeat break_match_in H; try discriminate; inversion H; reflexivity.
Qed.

Lemma of_string_raises_value_error (s : string) (e : exn) :
  Float.of_string s = Raise e -> class_of e = ValueError.
Proof.
  unfold Float.of_string. intro H.
  repeat break_match_in H; try discriminate; inversion H; reflexivity.
Qed.

Lemma index_raises_index_error {A} (l : list A) (i : nat) (e : exn) :
  Calculator.index l i = Raise e -> class_of e = IndexError.
Proof.
  unfold Calculator.index. destruct (nth_error l i); [discriminate |].
  intro H. inversion H. reflexivity.
Qed.

(** *** The fields [strptime] reads are short *)

Lemma code_byte (c : ascii) : Str.code c = N.to_nat (Unicode.byte c).
Proof. reflexivity. Qed.

(** A class takes a character that is read off its own bytes. *)
Lemma take_spec (k : Extractor.char_class) (s m1 s' : string) :
  ascii_class k = true ->
  Extractor.take k s = Some (m1, s') ->
  exists cp, forall x, Unicode.first (m1 ++ x) = Some (cp, m1, x).
Proof.
  intros A H.
  assert (T : forall accepts,
            (forall c, accepts c = true -> (Unicode.byte c <? 128)%N = true) ->
            Extractor.take_ascii accepts s = Some (m1, s') ->
            exists cp, forall x, Unicode.first (m1 ++ x) = Some (cp, m1, x)).
  { intros accepts Hc. unfold Extractor.take_ascii.
    destruct s as [| c r]; [discriminate |].
    destruct (accepts c) eqn:E; [| discriminate].
    intro G. inversion G; subst.
    exists (Unicode.byte c). intro x. cbn [append].
    apply first_ascii. now apply Hc. }
  destruct k as [| lo hi | c']; cbn [Extractor.take ascii_class] in *.
  - unfold Extractor.take_decimal in H.
    destruct (Unicode.first s) as [[[cp bytes] rest] |] eqn:F;
      [| discriminate].
    destruct (Unicode.is_decimal cp) eqn:D; [| discriminate].
    inversion H; subst. exists cp.
    exact (first_decimal_stable _ _ _ _ F D).
  - refine (T _ _ H). intros c E.
    apply andb_true_iff in E. destruct E as [_ E].
    apply Nat.leb_le in E. rewrite !code_byte in E.
    apply N.ltb_lt in A. apply N.ltb_lt. lia.
  - refine (T _ _ H). intros c E.
    apply Ascii.eqb_eq in E. now subst.
Qed.

Lemma field_transform (a : list Extractor.char_class) (s m r : string) :
  forallb ascii_class a = true ->
  Extractor.match_alternative a s = Some (m, r) ->
  forall x,
    String.length (Unicode.transform (m ++ x))
    = (List.length a + String.length (Unicode.transform x))%nat.
Proof.
  revert s m. induction a as [| k a IH]; intros s m A;
    cbn [Extractor.match_alternative List.length].
  - intro H. inversion H. reflexivity.
  - cbn [forallb] in A. apply andb_true_iff in A. destruct A as [Ak Aa].
    destruct (Extractor.take k s) as [[m1 s1] |] eqn:T; [| discriminate].
    destruct (Extractor.match_alternative a s1) as [[m' r'] |] eqn:M;
      [| discriminate].
    intro H. inversion H; subst. intro x.
    destruct (take_spec k s m1 s1 Ak T) as [cp F].
    rewrite append_assoc, (transform_head _ _ _ _ (F (m' ++ x)%string)).
    rewrite append_length, (to_ascii_length _ _ _ _ (F EmptyString)).
    now rewrite (IH s1 m' Aa M x).
Qed.

Lemma tokens_short (p : list Extractor.token) (s : string)
    (fields : list string) (rest : string) :
  forallb short_token p = true ->
  Extractor.match_tokens p s = Some (fields, rest) ->
  Forall short_text fields.
Proof.
  revert s fields. induction p as [| t p IH]; intros s fields P;
    cbn [Extractor.match_tokens].
  - intro H. inversion H. constructor.
  - cbn [forallb] in P. apply andb_true_iff in P. destruct P as [Pt Pp].
    destruct t as [alts | c].
    + cbn [short_token] in Pt.
      induction alts as [| a alts IHa]; [discriminate |].
      cbn [forallb] in Pt. apply andb_true_iff in Pt.
      destruct Pt as [Pa Palts].
      apply andb_true_iff in Pa. destruct Pa as [La Aa].
      apply Nat.leb_le in La.
      destruct (Extractor.match_alternative a s) as [[m r] |] eqn:M;
        [| exact (IHa Palts)].
      destruct (Extractor.match_tokens p r) as [[fs rs] |] eqn:T;
        [| exact (IHa Palts)].
      intro H. inversion H; subst. constructor; [| exact (IH _ _ Pp T)].
      unfold short_text.
      pose proof (field_transform a s m r Aa M EmptyString) as L.
      rewrite append_empty in L. rewrite L.
      change (Unicode.transform EmptyString) with EmptyString.
      cbn [String.length]. lia.
    + destruct s as [| c' s']; [discriminate |].
      destruct (Ascii.eqb c c'); [| discriminate].
      exact (IH _ _ Pp).
Qed.

Lemma directive_tokens_short (fmt : list Extractor.directive) :
  forallb short_token (map Extractor.directive_token fmt) = true.
Proof.
  induction fmt as [| d fmt IH]; [reflexivity |].
  cbn [map forallb]. rewrite IH. now destruct d.
Qed.

Lemma collect_short (fmt : list Extractor.directive) (fields : list string)
    (y m d : option string) :
  Forall short_text fields ->
  short_field y -> short_field m -> short_field d ->
  let '(y', m', d') := Extractor.collect fmt fields (y, m, d) in
  short_field y' /\ short_field m' /\ short_field d'.
Proof.
  revert fields y m d. induction fmt as [| x fmt IH];
    intros fields y m d F Y M D.
  - destruct fields; cbn; auto.
  - destruct x; cbn [Extractor.collect];
      try (destruct fields as [| f fields];
           [cbn; auto | inversion F; subst; now apply IH]).
    now apply IH.
Qed.

Lemma lskip_length (s : string) :
  (String.length (Str.lskip s) <= String.length s)%nat.
Proof.
  induction s as [| c s IH]; cbn [Str.lskip String.length]; [lia |].
  destruct (Str.is_c_space c); cbn [String.length]; lia.
Qed.

Lemma rskip_length (s : string) :
  (String.length (Str.rskip s) <= String.length s)%nat.
Proof.
  induction s as [| c s IH]; cbn [Str.rskip String.length]; [lia |].
  destruct (Str.rskip s); [destruct (Str.is_c_space c) |];
    cbn [String.length] in *; lia.
Qed.

Lemma digit_val_bounds (c : ascii) :
  Str.is_digit c = true -> 0 <= Str.digit_val c <= 9.
Proof.
  unfold Str.is_digit, Str.digit_val. intro H.
  apply andb_true_iff in H. destruct H as [A B].
  apply Nat.leb_le in A. apply Nat.leb_le in B. lia.
Qed.

Lemma int_body_bound (s : string) (acc : Z) (prev : bool) (n : Z) :
  0 <= acc ->
  Str.int_body s acc prev = Some n ->
  0 <= n < (acc + 1) * 10 ^ Z.of_nat (String.length s).
Proof.
  revert acc prev. induction s as [| c s IH]; intros acc prev A;
    cbn [Str.int_body String.length].
  - destruct prev; [| discriminate]. intro H. inversion H; subst.
    cbn. lia.
  - rewrite Nat2Z.inj_succ, Z.pow_succ_r by lia.
    assert (P : 0 < 10 ^ Z.of_nat (String.length s))
      by (apply Z.pow_pos_nonneg; lia).
    destruct (Str.is_digit c) eqn:D.
    + intro H. pose proof (digit_val_bounds c D) as V.
      apply IH in H; [| lia]. nia.
    + destruct (Ascii.eqb c "_" && prev); [| discriminate].
      destruct s as [| c' s']; [discriminate |].
      destruct (Str.is_digit c'); [| discriminate].
      intro H. apply IH in H; [| exact A]. nia.
Qed.

(** [int()] of a text of at most four characters is a number of at most
    four digits. *)
Lemma to_int_short (f : string) (n : Z) :
  short_text f -> Str.to_int f = Ok n -> -9999 <= n <= 9999.
Proof.
  unfold short_text, Str.to_int. intros S.
  pose proof (rskip_length (Str.lskip (Unicode.transform f))) as L1.
  pose proof (lskip_length (Unicode.transform f)) as L2.
  assert (B : forall body sign,
            (String.length body <= 4)%nat -> -1 <= sign <= 1 ->
            match Str.int_body body 0 false with
            | Some n0 =>
                if (String.length (Str.filter Str.is_digit body)
                    <=? Str.max_str_digits)%nat
                then Ok (sign * n0)
                else Raise (Exn ValueError
                              "Exceeds the limit (4300 digits) for integer string conversion")
            | None =>
                Raise (Exn ValueError "invalid literal for int() with base 10")
            end = Ok n -> -9999 <= n <= 9999).
  { intros body sign Lb Sg.
    destruct (Str.int_body body 0 false) as [n0 |] eqn:E; [| discriminate].
    destruct (_ <=? _)%nat; [| discriminate].
    intro H. inversion H; subst.
    apply int_body_bound in E; [| lia].
    assert (10 ^ Z.of_nat (String.length body) <= 10 ^ 4)
      by (apply Z.pow_le_mono_r; lia).
    change (10 ^ 4) with 10000 in *. nia. }
  destruct (Str.rskip (Str.lskip (Unicode.transform f))) as [| c body] eqn:E.
  - apply B; cbn [String.length]; lia.
  - cbn [String.length] in L1.
    destruct c as [[] [] [] [] [] [] [] []];
      try (apply B; cbn [String.length]; lia).
Qed.

Lemma strptime_raises_value_error (s : string)
    (fmt : list Extractor.directive) (e : exn) :
  Extractor.strptime s fmt = Raise e -> class_of e = ValueError.
Proof.
  unfold Extractor.strptime.
  destruct (Extractor.match_tokens (map Extractor.directive_token fmt) s)
    as [[fields rest] |] eqn:T; [| intro H; inversion H; reflexivity].
  destruct rest; [| intro H; inversion H; reflexivity].
  pose proof (tokens_short _ _ _ _ (directive_tokens_short fmt) T) as F.
  pose proof (collect_short fmt fields None None None F I I I) as C.
  destruct (Extractor.collect fmt fields (None, None, None))
    as [[[sy |] [sm |]] [sd |]];
    try (intro H; inversion H; reflexivity).
  destruct C as (Sy & Sm & Sd). cbn [short_field] in Sy, Sm, Sd.
  destruct (Str.to_int sy) as [y | e1] eqn:Ey; cbn [bind];
    [| intro H; inversion H; subst;
       exact (to_int_raises_value_error _ _ Ey)].
  destruct (Str.to_int sm) as [m | e1] eqn:Em; cbn [bind];
    [| intro H; inversion H; subst;
       exact (to_int_raises_value_error _ _ Em)].
  destruct (Str.to_int sd) as [d | e1] eqn:Ed; cbn [bind];
    [| intro H; inversion H; subst;
       exact (to_int_raises_value_error _ _ Ed)].
  pose proof (to_int_short _ _ Sy Ey) as By.
  pose proof (to_int_short _ _ Sm Em) as Bm.
  pose proof (to_int_short _ _ Sd Ed) as Bd.
  intro H. rewrite (make_raises _ _ _ _ H).
  unfold Date.fits_int, Date.INT_MIN, Date.INT_MAX.
  replace ((-2147483648 <=? y) && (y <=? 2147483647)) with true
    by (symmetry; apply andb_true_iff; split; apply Z.leb_le; lia).
  replace ((-2147483648 <=? m) && (m <=? 2147483647)) with true
    by (symmetry; apply andb_true_iff; split; apply Z.leb_le; lia).
  replace ((-2147483648 <=? d) && (d <=? 2147483647)) with true
    by (symmetry; apply andb_true_iff; split; apply Z.leb_le; lia).
  reflexivity.
Qed.

Lemma try_formats_returns
    (formats : list (list Extractor.directive * list Extractor.token))
    (s : string) :
  exists r, Extractor.try_formats formats s = Ok r.
Proof.
  induction formats as [| [fmt pat] rest IH]; cbn [Extractor.try_formats].
  - eauto.
  - destruct (Extractor.re_match pat s); [| exact IH].
    destruct (Extractor.strptime s fmt) as [d | e] eqn:E; [eauto |].
    unfold caught_by. cbn [existsb].
    rewrite (strptime_raises_value_error _ _ _ E). cbn. exact IH.
Qed.

Lemma remittance_row_returns (ti ni di ai : nat) (ci : option nat)
    (r : Extractor.row) (found : list Extractor.Candidate) :
  exists l,
    Extractor.remittance_row ti ni di ai ci r found = Ok l /\
    (l = found \/ exists c, l = (found ++ [c])%list).
Proof.
  unfold Extractor.remittance_row.
  destruct (Extractor.is_nil r
            || (List.length r <=? Nat.max ti (Nat.max ni (Nat.max di ai)))%nat);
    [eauto |].
  unfold try_except.
  match goal with
  | |- exists l, match ?body with _ => _ end = _ /\ _ =>
      destruct body as [l | e] eqn:B
  end.
  - exists l. split; [reflexivity |].
    unfold bind in B.
    repeat break_match_in B; try discriminate;
      inversion B; subst; eauto.
  - assert (K : caught_by [ValueError; IndexError] e = true).
    { unfold caught_by. cbn [existsb].
      assert (C : class_of e = ValueError \/ class_of e = IndexError).
      { unfold bind in B.
        repeat break_match_in B; try discriminate;
          inversion B; subst;
          eauto using index_raises_index_error,
            of_string_raises_value_error.
        all: try match goal with
                 | E : Extractor.try_formats ?f ?s = Raise _ |- _ =>
                     destruct (try_formats_returns f s) as [x X];
                     rewrite X in E; discriminate
                 end.
        all: match goal with
             | E : match ?c with Some _ => _ | None => _ end = Raise _
               |- _ =>
                 destruct c; [| discriminate E];
                 repeat break_match_in E; try discriminate;
                 inversion E; subst;
                 eauto using index_raises_index_error
             end. }
      destruct C as [-> | ->]; reflexivity. }
    rewrite K. eauto.
Qed.

Lemma remittance_rows_returns (ti ni di ai : nat) (ci : option nat)
    (rows : list Extractor.row) (found : list Extractor.Candidate) :
  exists more,
    Extractor.remittance_rows ti ni di ai ci rows found
    = Ok (found ++ more)%list.
Proof.
  revert found. induction rows as [| r rest IH]; intro found;
    cbn [Extractor.remittance_rows].
  - exists []. now rewrite app_nil_r.
  - destruct (remittance_row_returns ti ni di ai ci r found)
      as (l & E & [-> | [c ->]]); rewrite E; cbn [bind].
    + apply IH.
    + destruct (IH (found ++ [c])%list) as [more H]. rewrite H.
      exists (c :: more). now rewrite <- app_assoc.
Qed.

Lemma remittance_table_returns (t : Extractor.table)
    (found : list Extractor.Candidate) :
  exists more,
    Extractor.remittance_table t found = Ok (found ++ more)%list.
Proof.
  assert (Z : exists more, Ok found = Ok (found ++ more)%list
                           :> result (list Extractor.Candidate))
    by (exists []; now rewrite app_nil_r).
  unfold Extractor.remittance_table.
  destruct (List.length t <? 2)%nat eqn:L; [exact Z |].
  destruct t as [| header rows]; [discriminate L |].
  cbn [Calculator.index nth_error bind tl].
  match goal with |- context [if ?c then _ else _] => destruct c end;
    [| exact Z].
  repeat match goal with
         | |- context [match ?x with Some _ => _ | None => _ end] =>
             destruct x
         end; try exact Z.
  apply remittance_rows_returns.
Qed.

Lemma remittance_tables_returns (ts : list Extractor.table)
    (found : list Extractor.Candidate) :
  exists more,
    Extractor.remittance_tables ts found = Ok (found ++ more)%list.
Proof.
  revert found. induction ts as [| t rest IH]; intro found;
    cbn [Extractor.remittance_tables].
  - exists []. now rewrite app_nil_r.
  - destruct (remittance_table_returns t found) as [m1 E]. rewrite E.
    cbn [bind]. destruct (IH (found ++ m1)%list) as [m2 H]. rewrite H.
    exists (m1 ++ m2)%list. now rewrite app_assoc.
Qed.

(** X18.  In [extract_from_remittance_advice] no row and no table can end
    the extraction: a row adds one candidate or none and the candidates
    before it stay; so when every page of the document gives its text and
    its tables, the body of the extractor returns a list (the handler that
    answers with an empty list is not reached). *)
Theorem remittance_rows_never_abort (pages : list Extractor.page) :
  (forall p, In p pages ->
     exists t ts, Extractor.extract_text p = Ok (Some t) /\
                  Extractor.extract_tables p = Ok ts) ->
  (exists l,
     Extractor.extract_from_remittance_advice_body (Ok pages) = Ok l /\
     Extractor.extract_from_remittance_advice (Ok pages) = Ok l) /\
  (forall ti ni di ai ci r found,
     exists l, Extractor.remittance_row ti ni di ai ci r found = Ok l /\
               (l = found \/ exists c, l = (found ++ [c])%list)).
Proof.
  intro H. split; [| intros; apply remittance_row_returns].
  unfold Extractor.extract_from_remittance_advice,
    Extractor.extract_from_remittance_advice_body.
  cbn [bind].
  assert (G : forall found,
            exists l, Extractor.remittance_pages pages found = Ok l).
  { induction pages as [| p rest IH]; intro found;
      cbn [Extractor.remittance_pages]; [eauto |].
    destruct (H p (or_introl eq_refl)) as (t & ts & T & Tb).
    rewrite T, Tb. cbn [bind].
    destruct (Str.contains "remittance advice" (Str.lower t)).
    - destruct (remittance_tables_returns ts found) as [more E].
      rewrite E. cbn [bind]. apply IH. intros q Hq. apply H. now right.
    - cbn [bind]. apply IH. intros q Hq. apply H. now right. }
  destruct (G []) as [l E]. rewrite E. exists l. split; reflexivity.
Qed.

Lemma remittance_rows_never_abort_witness :
  exists l,
    Extractor.extract_from_remittance_advice_body
      (Ok [remittance_page [remittance_row_bad; remittance_row_1]]) = Ok l /\
    Extractor.extract_from_remittance_advice
      (Ok [remittance_page [remittance_row_bad; remittance_row_1]]) = Ok l.
Proof.
  apply (remittance_rows_never_abort
           [remittance_page [remittance_row_bad; remittance_row_1]]).
  intros p [<- | []]. do 2 eexists. split; reflexivity.
Defined.

(** The run of the sample: the row whose amount is 1.2.3 is passed over and
    the row after it is read, day first, with the currency its amount
    names. *)
Example remittance_sample_run :
  Extractor.extract_from_remittance_advice
    (Ok [remittance_page [remittance_row_bad; remittance_row_1]])
  = Ok [{| Extractor.date := apr_3_2024;
           Extractor.amount := 10.5;
           Extractor.description := "Invoice: 7001";
           Extractor.currency := "EUR";
           Extractor.doc_number := "7001" |}].
Proof. reflexivity. Qed.

(** ** Reading dates *)

Lemma all_digits_years :
  forallb (all_digits 4) (map Z.of_nat (seq 1 (Z.to_nat 9999))) = true.
Proof. vm_compute. reflexivity. Qed.

Lemma all_digits_days :
  forallb (all_digits 2) (map Z.of_nat (seq 1 (Z.to_nat 31))) = true.
Proof. vm_compute. reflexivity. Qed.

Lemma digit_is_not (sep c : ascii) :
  Str.is_digit sep = false -> Str.is_digit c = true ->
  Ascii.eqb sep c = false.
Proof.
  intros A B. destruct (Ascii.eqb sep c) eqn:E; [| reflexivity].
  apply Ascii.eqb_eq in E. subst. congruence.
Qed.

Lemma digits_contain_no (sep : ascii) (s : string) :
  Str.is_digit sep = false ->
  Str.filter Str.is_digit s = s -> Str.contains_char sep s = false.
Proof.
  intro A. induction s as [| c s IH]; cbn [Str.filter Str.contains_char];
    [reflexivity |].
  destruct (Str.is_digit c) eqn:D.
  - intro H. inversion H as [H1]. rewrite H1.
    rewrite (digit_is_not sep c A D), (IH H1). reflexivity.
  - intro H. exfalso.
    assert (L : forall t, (String.length (Str.filter Str.is_digit t)
                           <= String.length t)%nat).
    { clear. induction t as [| x t IH]; cbn [Str.filter String.length];
        [lia |].
      destruct (Str.is_digit x); cbn [String.length]; lia. }
    pose proof (L s) as Ls. rewrite H in Ls. cbn [String.length] in Ls. lia.
Qed.

Lemma all_digits_spec (width : nat) (n : Z) :
  all_digits width n = true ->
  String.length (Str.zero_pad width n) = width /\
  Str.filter Str.is_digit (Str.zero_pad width n) = Str.zero_pad width n.
Proof.
  unfold all_digits. intro H. apply andb_true_iff in H. destruct H as [A B].
  apply Nat.eqb_eq in A. apply String.eqb_eq in B. now split.
Qed.

Lemma year_text (y : Z) :
  1 <= y <= 9999 ->
  String.length (Str.zero_pad 4 y) = 4%nat /\
  Str.filter Str.is_digit (Str.zero_pad 4 y) = Str.zero_pad 4 y.
Proof.
  intro H. apply all_digits_spec.
  pose proof all_digits_years as A. rewrite forallb_forall in A.
  apply A. exact (in_range_list y 9999 H).
Qed.

Lemma day_text (n : Z) :
  1 <= n <= 31 ->
  String.length (Str.zero_pad 2 n) = 2%nat /\
  Str.filter Str.is_digit (Str.zero_pad 2 n) = Str.zero_pad 2 n.
Proof.
  intro H. apply all_digits_spec.
  pose proof all_digits_days as A. rewrite forallb_forall in A.
  apply A. exact (in_range_list n 31 H).
Qed.

Lemma contains_char_app (c : ascii) (a b : string) :
  Str.contains_char c (a ++ b)
  = Str.contains_char c a || Str.contains_char c b.
Proof.
  induction a as [| x a IH]; cbn [append Str.contains_char];
    [reflexivity |].
  rewrite IH. now rewrite orb_assoc.
Qed.

(** The texts of the three fields of a date: they hold digits alone and
    [int()] reads the fields back. *)
Lemma date_fields_text (d : Date.date) (sep : ascii) :
  Str.is_digit sep = false ->
  Str.contains_char sep (Str.zero_pad 4 (Date.year d)) = false /\
  Str.contains_char sep (Str.zero_pad 2 (Date.month d)) = false /\
  Str.contains_char sep (Str.zero_pad 2 (Date.day d)) = false /\
  Str.to_int (Str.zero_pad 4 (Date.year d)) = Ok (Date.year d) /\
  Str.to_int (Str.zero_pad 2 (Date.month d)) = Ok (Date.month d) /\
  Str.to_int (Str.zero_pad 2 (Date.day d)) = Ok (Date.day d).
Proof.
  intro S.
  pose proof (date_ranges d) as (Hy & Hm & Hd).
  pose proof (days_in_month_bounds (Date.year d) (Date.month d)) as Hb.
  destruct (year_text (Date.year d) Hy) as [_ Y].
  destruct (day_text (Date.month d)) as [_ M]; [lia |].
  destruct (day_text (Date.day d)) as [_ D]; [lia |].
  destruct (year_reads_back (Date.year d) Hy) as [_ Y2].
  destruct (day_reads_back (Date.month d)) as [_ M2]; [lia |].
  destruct (day_reads_back (Date.day d)) as [_ D2]; [lia |].
  repeat split; auto using digits_contain_no.
Qed.

(** X19.  The table pass of [extract_from_pdf] reads a date cell with
    slashes day first and a date cell with hyphens year first: for every
    date, its text DD/MM/YYYY and its ISO text YYYY-MM-DD (the text the
    ledger saves) give that date back. *)
Theorem table_date_reads_every_date (d : Date.date)
    (before : option Date.date) :
  Extractor.table_date (dmy_text "/" d) before = Ok (Some (Some d)) /\
  Extractor.table_date (Date.isoformat d) before = Ok (Some (Some d)).
Proof.
  destruct (date_fields_text d "/" eq_refl) as (Y1 & M1 & D1 & Y & M & D).
  destruct (date_fields_text d "-" eq_refl) as (Y2 & M2 & D2 & _).
  split.
  - unfold Extractor.table_date, dmy_text.
    do 2 change ("/" ++ ?x)%string with (String "/" x).
    rewrite contains_char_app. cbn [Str.contains_char]. rewrite Ascii.eqb_refl.
    rewrite orb_true_r.
    rewrite (split_head _ _ _ D1), (split_head _ _ _ M1), (split_whole _ _ Y1).
    cbn [List.length Nat.eqb]. unfold Extractor.date_of_parts.
    cbn [Calculator.index nth_error bind]. rewrite Y. cbn [bind].
    rewrite M. cbn [bind]. rewrite D. cbn [bind]. rewrite make_self.
    reflexivity.
  - unfold Extractor.table_date, Date.isoformat.
    do 2 change ("-" ++ ?x)%string with (String "-" x).
    repeat (rewrite contains_char_app || cbn [Str.contains_char]).
    rewrite Y1, M1, D1, Y2. cbn [orb].
    change (Ascii.eqb "/" "-") with false.
    change (Ascii.eqb "-" "-") with true. cbn [orb].
    rewrite (split_head _ _ _ Y2), (split_head _ _ _ M2), (split_whole _ _ D2).
    cbn [List.length Nat.eqb]. unfold Extractor.date_of_parts.
    cbn [Calculator.index nth_error bind]. rewrite Y. cbn [bind].
    rewrite M. cbn [bind]. rewrite D. cbn [bind]. rewrite make_self.
    reflexivity.
Qed.

(** *** The date formats of the remittance variant *)

Lemma is_decimal_ascii (c : ascii) :
  (Unicode.byte c <? 128)%N = true ->
  Unicode.is_decimal (Unicode.byte c) = Str.is_digit c.
Proof.
  destruct c as [[] [] [] [] [] [] [] []]; intro H;
    try discriminate H; vm_compute; reflexivity.
Qed.

Lemma digit_is_ascii (c : ascii) :
  Str.is_digit c = true -> (Unicode.byte c <? 128)%N = true.
Proof.
  unfold Str.is_digit. rewrite code_byte. intro H.
  apply andb_true_iff in H. destruct H as [_ H]. apply Nat.leb_le in H.
  apply N.ltb_lt. lia.
Qed.

(** On an ASCII character a class is a test of that character. *)
Lemma take_on_ascii (k : Extractor.char_class) (c : ascii) (r : string) :
  (Unicode.byte c <? 128)%N = true ->
  Extractor.take k (String c r)
  = if class_matches k c then Some (String c EmptyString, r) else None.
Proof.
  intro A. destruct k as [| lo hi | c']; cbn [Extractor.take class_matches];
    try reflexivity.
  unfold Extractor.take_decimal. rewrite (first_ascii c r A).
  now rewrite (is_decimal_ascii c A).
Qed.

Lemma take_whole (k : Extractor.char_class) (s m1 s' : string) :
  Extractor.take k s = Some (m1, s') -> s = (m1 ++ s')%string.
Proof.
  destruct k as [| lo hi | c']; cbn [Extractor.take].
  - unfold Extractor.take_decimal.
    destruct (Unicode.first s) as [[[cp bytes] rest] |] eqn:F;
      [| discriminate].
    destruct (Unicode.is_decimal cp); [| discriminate].
    intro H. inversion H; subst. exact (proj1 (first_spec _ _ _ _ F)).
  - unfold Extractor.take_ascii. destruct s as [| c r]; [discriminate |].
    match goal with |- (if ?b then _ else _) = _ -> _ => destruct b end;
      [| discriminate].
    intro H. inversion H. reflexivity.
  - unfold Extractor.take_ascii. destruct s as [| c r]; [discriminate |].
    destruct (Ascii.eqb c c'); [| discriminate].
    intro H. inversion H. reflexivity.
Qed.

Lemma take_empty (k : Extractor.char_class) :
  Extractor.take k EmptyString = None.
Proof. destruct k; reflexivity. Qed.

Lemma match_alternative_whole (a : list Extractor.char_class)
    (t m r : string) :
  Extractor.match_alternative a t = Some (m, r) -> t = (m ++ r)%string.
Proof.
  revert t m. induction a as [| k a IH]; intros t m;
    cbn [Extractor.match_alternative].
  - intro H. inversion H. reflexivity.
  - destruct (Extractor.take k t) as [[m1 t1] |] eqn:T; [| discriminate].
    destruct (Extractor.match_alternative a t1) as [[m' r'] |] eqn:E;
      [| discriminate].
    intro H. inversion H; subst.
    rewrite append_assoc, <- (IH _ _ E). exact (take_whole _ _ _ _ T).
Qed.

Lemma match_alternative_app_some (a : list Extractor.char_class)
    (t r : string) :
  Unicode.is_ascii t = true ->
  Extractor.match_alternative a t = Some (t, EmptyString) ->
  Extractor.match_alternative a (t ++ r) = Some (t, r).
Proof.
  revert t. induction a as [| k a IH]; intro t;
    cbn [Extractor.match_alternative].
  - intros _ H. inversion H. reflexivity.
  - destruct t as [| c t]; [now rewrite take_empty |].
    cbn [Unicode.is_ascii append]. intro A.
    apply andb_true_iff in A. destruct A as [Ac At].
    rewrite !(take_on_ascii k c _ Ac).
    destruct (class_matches k c); [| discriminate].
    destruct (Extractor.match_alternative a t) as [[m' r'] |] eqn:E;
      [| discriminate].
    intro H. cbn [append] in H. inversion H; subst.
    now rewrite (IH _ At E).
Qed.

Lemma match_alternative_app_none (a : list Extractor.char_class)
    (t r : string) :
  Unicode.is_ascii t = true ->
  (List.length a <= String.length t)%nat ->
  Extractor.match_alternative a t = None ->
  Extractor.match_alternative a (t ++ r) = None.
Proof.
  revert t. induction a as [| k a IH]; intro t;
    cbn [Extractor.match_alternative List.length].
  - discriminate.
  - destruct t as [| c t]; cbn [String.length append Unicode.is_ascii];
      [intros; lia |].
    intros A L. apply andb_true_iff in A. destruct A as [Ac At].
    rewrite !(take_on_ascii k c _ Ac).
    destruct (class_matches k c); [| reflexivity].
    destruct (Extractor.match_alternative a t) as [[m' r'] |] eqn:E;
      [discriminate |].
    intros _. rewrite (IH t); [reflexivity | exact At | lia | exact E].
Qed.

(** A field whose first matching alternative takes all of [t] takes [t]
    off the front of the text when the rest of the pattern matches what
    follows. *)
Lemma field_step (alternatives : list (list Extractor.char_class))
    (t r : string) (p : list Extractor.token) (fields : list string)
    (rest : string) :
  first_full alternatives t = true ->
  Extractor.match_tokens p r = Some (fields, rest) ->
  Extractor.match_tokens (Extractor.Field alternatives :: p) (t ++ r)
  = Some (t :: fields, rest).
Proof.
  intros F P. cbn [Extractor.match_tokens].
  induction alternatives as [| a alts IH]; cbn [first_full] in F;
    [discriminate |].
  apply andb_true_iff in F. destruct F as [L F].
  apply andb_true_iff in L. destruct L as [A L]. apply Nat.leb_le in L.
  destruct (Extractor.match_alternative a t) as [[m r0] |] eqn:E.
  - destruct r0; [| discriminate].
    pose proof (match_alternative_whole _ _ _ _ E) as W.
    rewrite append_empty in W. subst m.
    rewrite (match_alternative_app_some _ _ r A E), P. reflexivity.
  - rewrite (match_alternative_app_none _ _ r A L E). exact (IH F).
Qed.

Lemma lit_step (c : ascii) (r : string) (p : list Extractor.token) :
  Extractor.match_tokens (Extractor.Lit c :: p) (String c r)
  = Extractor.match_tokens p r.
Proof. cbn [Extractor.match_tokens]. now rewrite Ascii.eqb_refl. Qed.

(** One- or two-digit field, then a separator the text does not have in
    its second and third place: no match. *)
Lemma guard_fails (sep c1 c2 c3 : ascii) (r : string)
    (p : list Extractor.token) :
  (Unicode.byte c1 <? 128)%N = true -> (Unicode.byte c2 <? 128)%N = true ->
  Ascii.eqb sep c2 = false -> Ascii.eqb sep c3 = false ->
  Extractor.match_tokens
    (Extractor.digits_1_2 :: Extractor.Lit sep :: p)
    (String c1 (String c2 (String c3 r))) = None.
Proof.
  intros A1 A2 A B.
  cbn [Extractor.match_tokens Extractor.digits_1_2
       Extractor.match_alternative].
  rewrite !(take_on_ascii _ c1 _ A1). cbn [class_matches].
  destruct (Str.is_digit c1); [| reflexivity].
  rewrite !(take_on_ascii _ c2 _ A2). cbn [class_matches].
  destruct (Str.is_digit c2); cbn [append]; rewrite ?A, ?B; reflexivity.
Qed.

(** Four digits where the third place holds no digit: no match. *)
Lemma year_guard_fails (c1 c2 c3 : ascii) (r : string)
    (p : list Extractor.token) :
  (Unicode.byte c1 <? 128)%N = true -> (Unicode.byte c2 <? 128)%N = true ->
  (Unicode.byte c3 <? 128)%N = true ->
  Str.is_digit c3 = false ->
  Extractor.match_tokens (Extractor.digits_4 :: p)
    (String c1 (String c2 (String c3 r))) = None.
Proof.
  intros A1 A2 A3 A.
  cbn [Extractor.match_tokens Extractor.digits_4
       Extractor.match_alternative].
  rewrite !(take_on_ascii _ c1 _ A1). cbn [class_matches].
  destruct (Str.is_digit c1); [| reflexivity].
  rewrite !(take_on_ascii _ c2 _ A2). cbn [class_matches].
  destruct (Str.is_digit c2); [| reflexivity].
  rewrite !(take_on_ascii _ c3 _ A3). cbn [class_matches].
  now rewrite A.
Qed.

Lemma guard_reads_days :
  forallb (field_reads Extractor.digits_1_2 2)
    (map Z.of_nat (seq 1 (Z.to_nat 31))) = true.
Proof. vm_compute. reflexivity. Qed.

Lemma guard_reads_years :
  forallb (field_reads Extractor.digits_4 4)
    (map Z.of_nat (seq 1 (Z.to_nat 9999))) = true.
Proof. vm_compute. reflexivity. Qed.

Lemma strptime_reads_days :
  forallb (field_reads (Extractor.directive_token Extractor.Pd) 2)
    (map Z.of_nat (seq 1 (Z.to_nat 31))) = true.
Proof. vm_compute. reflexivity. Qed.

Lemma strptime_reads_months :
  forallb (field_reads (Extractor.directive_token Extractor.Pm) 2)
    (map Z.of_nat (seq 1 (Z.to_nat 12))) = true.
Proof. vm_compute. reflexivity. Qed.

Lemma field_reads_in (tok : Extractor.token) (width : nat) (hi n : Z) :
  forallb (field_reads tok width) (map Z.of_nat (seq 1 (Z.to_nat hi))) = true ->
  1 <= n <= hi -> field_reads tok width n = true.
Proof.
  intros A H. rewrite forallb_forall in A. apply A.
  exact (in_range_list n hi H).
Qed.

Lemma two_chars (s : string) :
  String.length s = 2%nat ->
  exists c1 c2, s = String c1 (String c2 EmptyString).
Proof.
  destruct s as [| c1 [| c2 [| c3 s]]]; cbn; intro H; try discriminate.
  eauto.
Qed.

Lemma four_chars (s : string) :
  String.length s = 4%nat ->
  exists c1 c2 c3 c4,
    s = String c1 (String c2 (String c3 (String c4 EmptyString))).
Proof.
  destruct s as [| c1 [| c2 [| c3 [| c4 [| c5 s]]]]]; cbn; intro H;
    try discriminate.
  eauto 6.
Qed.

Lemma three_fields (a1 a2 a3 : list (list Extractor.char_class))
    (sep : ascii) (t1 t2 t3 : string) :
  first_full a1 t1 = true -> first_full a2 t2 = true ->
  first_full a3 t3 = true ->
  Extractor.match_tokens
    [Extractor.Field a1; Extractor.Lit sep; Extractor.Field a2;
     Extractor.Lit sep; Extractor.Field a3]
    (t1 ++ String sep (t2 ++ String sep t3))
  = Some ([t1; t2; t3], EmptyString).
Proof.
  intros F1 F2 F3.
  apply field_step; [exact F1 |]. rewrite lit_step.
  apply field_step; [exact F2 |]. rewrite lit_step.
  rewrite <- (append_empty t3) at 1.
  apply field_step; [exact F3 |]. reflexivity.
Qed.

Lemma first_full_ascii (alternatives : list (list Extractor.char_class))
    (t : string) :
  first_full alternatives t = true -> Unicode.is_ascii t = true.
Proof.
  destruct alternatives as [| a rest]; cbn [first_full]; [discriminate |].
  intro H. apply andb_true_iff in H. destruct H as [H _].
  apply andb_true_iff in H. now destruct H.
Qed.

(** What the proofs below need of the texts of a date. *)
Lemma date_texts (d : Date.date) :
  let dd := Str.zero_pad 2 (Date.day d) in
  let mm := Str.zero_pad 2 (Date.month d) in
  let yyyy := Str.zero_pad 4 (Date.year d) in
  (field_reads Extractor.digits_1_2 2 (Date.day d) = true /\
   field_reads Extractor.digits_1_2 2 (Date.month d) = true /\
   field_reads Extractor.digits_4 4 (Date.year d) = true /\
   field_reads (Extractor.directive_token Extractor.Pd) 2 (Date.day d) = true /\
   field_reads (Extractor.directive_token Extractor.Pm) 2 (Date.month d)
     = true) /\
  (String.length dd = 2%nat /\ String.length yyyy = 4%nat) /\
  (Unicode.is_ascii dd = true /\ Unicode.is_ascii yyyy = true).
Proof.
  cbv zeta.
  pose proof (date_ranges d) as (Hy & Hm & Hd).
  pose proof (days_in_month_bounds (Date.year d) (Date.month d)) as Hb.
  assert (G1 : field_reads Extractor.digits_1_2 2 (Date.day d) = true)
    by (apply (field_reads_in _ _ 31); [exact guard_reads_days | lia]).
  assert (G3 : field_reads Extractor.digits_4 4 (Date.year d) = true)
    by (apply (field_reads_in _ _ 9999); [exact guard_reads_years | lia]).
  split; [repeat split | split; split].
  - exact G1.
  - apply (field_reads_in _ _ 31); [exact guard_reads_days | lia].
  - exact G3.
  - apply (field_reads_in _ _ 31); [exact strptime_reads_days | lia].
  - apply (field_reads_in _ _ 12); [exact strptime_reads_months | lia].
  - apply day_text. lia.
  - apply year_text. lia.
  - exact (first_full_ascii _ _ G1).
  - exact (first_full_ascii _ _ G3).
Qed.

Lemma strptime_day_first (sep : ascii) (d : Date.date) :
  Str.is_digit sep = false ->
  Extractor.strptime (dmy_text (String sep EmptyString) d)
    [Extractor.Pd; Extractor.Sep sep; Extractor.Pm; Extractor.Sep sep;
     Extractor.PY] = Ok d /\
  Extractor.re_match
    [Extractor.digits_1_2; Extractor.Lit sep; Extractor.digits_1_2;
     Extractor.Lit sep; Extractor.digits_4]
    (dmy_text (String sep EmptyString) d) = true.
Proof.
  intro S.
  destruct (date_fields_text d sep S) as (_ & _ & _ & Y & M & D).
  destruct (date_texts d) as ((G1 & G2 & G3 & S1 & S2) & _ & _).
  unfold dmy_text. cbn [append].
  unfold field_reads, Extractor.digits_1_2, Extractor.digits_4 in G1, G2, G3.
  cbn [Extractor.directive_token] in S1, S2. unfold field_reads in S1, S2.
  split.
  - unfold Extractor.strptime.
    cbn [map Extractor.directive_token]. unfold Extractor.digits_4.
    rewrite (three_fields _ _ _ sep _ _ _ S1 S2 G3).
    cbn [Extractor.collect]. rewrite Y. cbn [bind]. rewrite M. cbn [bind].
    rewrite D. cbn [bind]. apply make_self.
  - unfold Extractor.re_match, Extractor.digits_1_2, Extractor.digits_4.
    now rewrite (three_fields _ _ _ sep _ _ _ G1 G2 G3).
Qed.

Lemma strptime_iso (d : Date.date) :
  Extractor.strptime (Date.isoformat d)
    [Extractor.PY; Extractor.Sep "-"; Extractor.Pm; Extractor.Sep "-";
     Extractor.Pd] = Ok d /\
  Extractor.re_match
    [Extractor.digits_4; Extractor.Lit "-"; Extractor.digits_1_2;
     Extractor.Lit "-"; Extractor.digits_1_2]
    (Date.isoformat d) = true.
Proof.
  destruct (date_fields_text d "-" eq_refl) as (_ & _ & _ & Y & M & D).
  destruct (date_texts d) as ((G1 & G2 & G3 & S1 & S2) & _ & _).
  unfold Date.isoformat. cbn [append].
  unfold field_reads, Extractor.digits_1_2, Extractor.digits_4 in G1, G2, G3.
  cbn [Extractor.directive_token] in S1, S2. unfold field_reads in S1, S2.
  split.
  - unfold Extractor.strptime.
    cbn [map Extractor.directive_token]. unfold Extractor.digits_4.
    rewrite (three_fields _ _ _ "-" _ _ _ G3 S2 S1).
    cbn [Extractor.collect]. rewrite Y. cbn [bind]. rewrite M. cbn [bind].
    rewrite D. cbn [bind]. apply make_self.
  - unfold Extractor.re_match, Extractor.digits_1_2, Extractor.digits_4.
    now rewrite (three_fields _ _ _ "-" _ _ _ G3 G2 G1).
Qed.

(** A text that starts with two digits and a separator other than [sep]
    does not pass a guard that wants [sep] after the first field. *)
Lemma day_first_guard_fails (sep other : ascii) (d : Date.date) (r : string)
    (p : list Extractor.token) :
  Str.is_digit sep = false -> Ascii.eqb sep other = false ->
  Extractor.re_match (Extractor.digits_1_2 :: Extractor.Lit sep :: p)
    (Str.zero_pad 2 (Date.day d) ++ String other r) = false.
Proof.
  intros S N.
  destruct (date_fields_text d sep S) as (_ & _ & D1 & _).
  destruct (date_texts d) as (_ & (L & _) & (A & _)).
  destruct (two_chars _ L) as (c1 & c2 & E). rewrite E in *.
  cbn [Unicode.is_ascii] in A.
  apply andb_true_iff in A. destruct A as [A1 A].
  apply andb_true_iff in A. destruct A as [A2 _].
  cbn [append]. unfold Extractor.re_match.
  rewrite guard_fails; [reflexivity | exact A1 | exact A2 | | exact N].
  cbn [Str.contains_char] in D1.
  apply orb_false_iff in D1. destruct D1 as [_ D1].
  apply orb_false_iff in D1. now destruct D1.
Qed.

Lemma day_first_year_guard_fails (other : ascii) (d : Date.date) (r : string)
    (p : list Extractor.token) :
  (Unicode.byte other <? 128)%N = true ->
  Str.is_digit other = false ->
  Extractor.re_match (Extractor.digits_4 :: p)
    (Str.zero_pad 2 (Date.day d) ++ String other r) = false.
Proof.
  intros O N.
  destruct (date_texts d) as (_ & (L & _) & (A & _)).
  destruct (two_chars _ L) as (c1 & c2 & E). rewrite E in *.
  cbn [Unicode.is_ascii] in A.
  apply andb_true_iff in A. destruct A as [A1 A].
  apply andb_true_iff in A. destruct A as [A2 _].
  cbn [append]. unfold Extractor.re_match.
  now rewrite year_guard_fails.
Qed.

Lemma iso_guard_fails (d : Date.date) (r : string)
    (p : list Extractor.token) :
  Extractor.re_match (Extractor.digits_1_2 :: Extractor.Lit "/" :: p)
    (Str.zero_pad 4 (Date.year d) ++ r) = false.
Proof.
  destruct (date_fields_text d "/" eq_refl) as (Y1 & _).
  destruct (date_texts d) as (_ & (_ & L) & (_ & A)).
  destruct (four_chars _ L) as (c1 & c2 & c3 & c4 & E). rewrite E in *.
  cbn [Unicode.is_ascii] in A.
  apply andb_true_iff in A. destruct A as [A1 A].
  apply andb_true_iff in A. destruct A as [A2 _].
  cbn [append]. unfold Extractor.re_match.
  cbn [Str.contains_char] in Y1.
  apply orb_false_iff in Y1. destruct Y1 as [_ Y1].
  apply orb_false_iff in Y1. destruct Y1 as [B Y1].
  apply orb_false_iff in Y1. destruct Y1 as [C _].
  now rewrite guard_fails.
Qed.

(** X20.  The remittance variant reads a date written with the day first:
    for every date, its texts DD/MM/YYYY, DD-MM-YYYY and DD.MM.YYYY give
    that date back (so 03/04/2024 is the 3rd of April, the month-first
    format coming second in the list), and so does its ISO text
    YYYY-MM-DD. *)
Theorem remittance_dates_read_day_first (d : Date.date) :
  Extractor.try_formats Extractor.date_formats (dmy_text "/" d)
    = Ok (Some d) /\
  Extractor.try_formats Extractor.date_formats (dmy_text "-" d)
    = Ok (Some d) /\
  Extractor.try_formats Extractor.date_formats (dmy_text "." d)
    = Ok (Some d) /\
  Extractor.try_formats Extractor.date_formats (Date.isoformat d)
    = Ok (Some d).
Proof.
  destruct (strptime_day_first "/" d eq_refl) as [P1 G1].
  destruct (strptime_day_first "-" d eq_refl) as [P2 G2].
  destruct (strptime_day_first "." d eq_refl) as [P3 G3].
  destruct (strptime_iso d) as [P4 G4].
  unfold Extractor.date_formats. cbn [Extractor.try_formats].
  repeat split.
  - now rewrite G1, P1.
  - assert (F : forall p,
              Extractor.re_match
                (Extractor.digits_1_2 :: Extractor.Lit "/" :: p)
                (dmy_text "-" d) = false).
    { intro p. unfold dmy_text. cbn [append].
      now apply day_first_guard_fails. }
    assert (Fy : forall p,
              Extractor.re_match (Extractor.digits_4 :: p) (dmy_text "-" d)
              = false).
    { intro p. unfold dmy_text. cbn [append].
      now apply day_first_year_guard_fails. }
    now rewrite !F, Fy, G2, P2.
  - assert (F : forall p,
              Extractor.re_match
                (Extractor.digits_1_2 :: Extractor.Lit "/" :: p)
                (dmy_text "." d) = false).
    { intro p. unfold dmy_text. cbn [append].
      now apply day_first_guard_fails. }
    assert (Fh : forall p,
              Extractor.re_match
                (Extractor.digits_1_2 :: Extractor.Lit "-" :: p)
                (dmy_text "." d) = false).
    { intro p. unfold dmy_text. cbn [append].
      now apply day_first_guard_fails. }
    assert (Fy : forall p,
              Extractor.re_match (Extractor.digits_4 :: p) (dmy_text "." d)
              = false).
    { intro p. unfold dmy_text. cbn [append].
      now apply day_first_year_guard_fails. }
    now rewrite !F, Fy, Fh, G3, P3.
  - assert (F : forall p,
              Extractor.re_match
                (Extractor.digits_1_2 :: Extractor.Lit "/" :: p)
                (Date.isoformat d) = false).
    { intro p. unfold Date.isoformat. apply iso_guard_fails. }
    now rewrite !F, G4, P4.
Qed.

(** A date whose day cannot be a month is read month first when it is
    written that way; a text that is no date in any format gives none. *)
Example remittance_date_examples :
  Extractor.try_formats Extractor.date_formats "03/04/2024"
    = Ok (Some apr_3_2024) /\
  Extractor.try_formats Extractor.date_formats "03/15/2024"
    = Ok (Some mar_15_2024) /\
  Extractor.try_formats Extractor.date_formats "3.4.2024"
    = Ok (Some apr_3_2024) /\
  Extractor.try_formats Extractor.date_formats "31/02/2024" = Ok None /\
  Extractor.try_formats Extractor.date_formats "March 15, 2024" = Ok None.
Proof. repeat split. Qed.

(** ** Amounts *)

Lemma filter_app (f : ascii -> bool) (a b : string) :
  Str.filter f (a ++ b) = (Str.filter f a ++ Str.filter f b)%string.
Proof.
  induction a as [| c a IH]; cbn [append Str.filter]; [reflexivity |].
  destruct (f c); cbn [append]; now rewrite IH.
Qed.

Lemma is_ascii_app (a b : string) :
  Unicode.is_ascii (a ++ b) = Unicode.is_ascii a && Unicode.is_ascii b.
Proof.
  induction a as [| c a IH]; cbn [append Unicode.is_ascii]; [reflexivity |].
  now rewrite IH, andb_assoc.
Qed.

Lemma point_byte (c : ascii) : (Unicode.byte c =? 46)%N = Ascii.eqb c ".".
Proof. destruct c as [[] [] [] [] [] [] [] []]; reflexivity. Qed.

(** On an ASCII text the cleaning keeps the ASCII digits and the points. *)
Lemma amount_clean_ascii (s : string) :
  Unicode.is_ascii s = true ->
  Extractor.amount_clean s
  = Str.filter (fun c => Str.is_digit c || Ascii.eqb c ".") s.
Proof.
  unfold Extractor.amount_clean.
  induction s as [| c s IH]; [reflexivity |].
  cbn [Unicode.is_ascii]. intro A.
  apply andb_true_iff in A. destruct A as [Ac As].
  rewrite (characters_ascii c s Ac). cbn [List.filter fst Str.filter].
  rewrite (is_decimal_ascii c Ac), point_byte.
  destruct (Str.is_digit c || Ascii.eqb c ".");
    [cbn [map Unicode.text Unicode.join fold_right snd append];
     f_equal |]; exact (IH As).
Qed.

(** X21.  In a cell of ASCII text an amount is read from the digits and
    points alone: any other ASCII character, wherever it stands, changes
    nothing, so a minus sign or a pair of parentheses around an amount is
    lost and the amount is read as positive.  (Decimal digits of other
    scripts are kept and read as digits.)  Reading an amount never raises:
    a text that is no number after the cleaning skips the row. *)
Theorem amount_read_from_digits_and_points (a b : string) (c : ascii) :
  Unicode.is_ascii (a ++ String c b) = true ->
  (Str.is_digit c || Ascii.eqb c ".") = false ->
  Extractor.amount_clean (a ++ String c b) = Extractor.amount_clean (a ++ b) /\
  Extractor.parse_amount (a ++ String c b) = Extractor.parse_amount (a ++ b) /\
  (forall s, exists r, Extractor.parse_amount s = Ok r).
Proof.
  intros A H.
  assert (A' : Unicode.is_ascii (a ++ b) = true).
  { rewrite is_ascii_app in A |- *. cbn [Unicode.is_ascii] in A.
    apply andb_true_iff in A. destruct A as [Aa A].
    apply andb_true_iff in A. destruct A as [_ Ab]. now rewrite Aa, Ab. }
  assert (E : Extractor.amount_clean (a ++ String c b)
              = Extractor.amount_clean (a ++ b)).
  { rewrite (amount_clean_ascii _ A), (amount_clean_ascii _ A').
    rewrite !filter_app. cbn [Str.filter]. now rewrite H. }
  split; [exact E |]. split.
  - unfold Extractor.parse_amount. now rewrite E.
  - intro s. unfold Extractor.parse_amount, try_except.
    destruct (Float.of_string (Extractor.amount_clean s)) as [x | e] eqn:F;
      cbn [bind]; [eauto |].
    unfold caught_by. cbn [existsb].
    rewrite (of_string_raises_value_error _ _ F). cbn. eauto.
Qed.

Lemma amount_read_from_digits_and_points_witness :
  Extractor.amount_clean "-50.00" = Extractor.amount_clean "50.00" /\
  Extractor.parse_amount "-50.00" = Extractor.parse_amount "50.00" /\
  (forall s, exists r, Extractor.parse_amount s = Ok r).
Proof.
  apply (amount_read_from_digits_and_points "" "50.00" "-"); reflexivity.
Defined.

(** Amounts as they are read; the last two have a digit and a space from
    outside ASCII. *)
Example amount_examples :
  Extractor.parse_amount "$1,234.56" = Ok (Some 1234.56%float) /\
  Extractor.parse_amount "-50.00" = Ok (Some 50%float) /\
  Extractor.parse_amount "(75)" = Ok (Some 75%float) /\
  Extractor.parse_amount "1.234,56" = Ok (Some 1.23456%float) /\
  Extractor.parse_amount "1.2.3" = Ok None /\
  Extractor.parse_amount "n/a" = Ok None /\
  Extractor.parse_amount ("1" ++ fullwidth_two) = Ok (Some 12%float) /\
  Extractor.cell_text (Some (no_break_space ++ "7" ++ no_break_space))
    = "7".
Proof. repeat split. Qed.

(** ** Rates that come from the file *)

Lemma float_mul_not_a_number (x : float) (o : pyobj) :
  not_a_number o = true -> raises_class TypeError (float_mul x o).
Proof. destruct o; cbn; intro H; try discriminate; reflexivity. Qed.

(** X22.  A rate is checked when it is set and not when it is loaded: when
    the data file holds for the federal (or the state) rate a value that is
    no number, [load_invoices] takes it, and from then on the federal (or
    the state) tax of every quarter of every year raises TypeError. *)
Theorem loaded_rate_not_a_number_breaks_tax (s0 : BusinessTaxCalculator)
    (fs1 : filesystem) (items : list (string * pyobj))
    (entries : list pyobj) (l : list Invoice) (year quarter : Z) :
  files fs1 (data_file s0) = Document (PyDict items) ->
  from_file items "invoices" (PyList []) = PyList entries ->
  comprehension invoice_of_entry entries = Ok l ->
  Date.MINYEAR <= year <= Date.MAXYEAR -> 1 <= quarter <= 4 ->
  (forall v, Obj.lookup "fed_tax_rate" items = Some v ->
     not_a_number v = true ->
     fed_tax_rate (loaded s0 fs1) = v /\
     raises_class TypeError
       (calculate_quarterly_federal_tax (loaded s0 fs1) year quarter)) /\
  (forall v, Obj.lookup "state_tax_rate" items = Some v ->
     not_a_number v = true ->
     state_tax_rate (loaded s0 fs1) = v /\
     raises_class TypeError
       (calculate_quarterly_state_tax (loaded s0 fs1) year quarter)).
Proof.
  intros F L C Hy Hq.
  pose proof (load_invoices_reads s0 fs1 items entries l F L C) as R.
  destruct (quarter_bounds_value year quarter Hy Hq) as (a & b & B & _).
  unfold loaded. rewrite R. cbn [snd self].
  split; intros v V N;
    unfold calculate_quarterly_federal_tax, calculate_quarterly_state_tax,
      get_quarterly_earnings;
    rewrite B; cbn [bind fed_tax_rate state_tax_rate];
    unfold from_file; rewrite V;
    (split; [reflexivity | now apply float_mul_not_a_number]).
Qed.

Lemma loaded_rate_not_a_number_breaks_tax_witness :
  state_tax_rate
    (loaded empty_ledger (single_file (Document (PyDict odd_rates_items))))
  = PyStr "high" /\
  raises_class TypeError
    (calculate_quarterly_state_tax
       (loaded empty_ledger
          (single_file (Document (PyDict odd_rates_items)))) 2024 1).
Proof.
  apply (proj2 (loaded_rate_not_a_number_breaks_tax empty_ledger
                  (single_file (Document (PyDict odd_rates_items)))
                  odd_rates_items [good_entry]
                  [{| date := jan_15_2024; amount := 100.5;
                      description := PyStr "consulting";
                      invoice_id := PyStr "INV-1" |}] 2024 1
                  eq_refl eq_refl eq_refl
                  ltac:(unfold Date.MINYEAR, Date.MAXYEAR; lia)
                  ltac:(lia))
           (PyStr "high") eq_refl eq_refl).
Defined.

(** ** Adding and deleting under one id *)

(** X23.  When no invoice of the ledger carries the id, adding an invoice
    under it and deleting the id gives the invoices the ledger had; when
    one does, the deletion takes the first of the old ones and the new
    invoice stays. *)
Theorem add_then_delete_by_id (d : Date.date) (a : float) (desc id : string)
    (w : world) :
  ((forall x, In x (invoices (self w)) -> invoice_id x <> PyStr id) ->
   add_then_delete d a desc id w = invoices (self w)) /\
  (forall pre old post,
     invoices (self w) = (pre ++ old :: post)%list ->
     (forall x, In x pre -> invoice_id x <> PyStr id) ->
     invoice_id old = PyStr id ->
     add_then_delete d a desc id w
     = (pre ++ post ++
        [{| date := d; amount := a; description := PyStr desc;
            invoice_id := PyStr id |}])%list).
Proof.
  assert (A : snd (add_invoice d a desc (Some id) w)
              = let s' := append_invoice
                            {| date := d; amount := a;
                               description := PyStr desc;
                               invoice_id := PyStr id |} (self w) in
                {| self := s'; fs := after_save s' (fs w) |}).
  { unfold add_invoice, try_exceptM, bindM, get_self, update.
    cbn [self fs]. rewrite save_invoices_run. reflexivity. }
  unfold add_then_delete. rewrite A. cbv zeta. split.
  - intro H.
    erewrite (delete_invoice_run id (invoices (self w)) []).
    + cbn [snd self invoices set_invoices]. now rewrite app_nil_r.
    + reflexivity.
    + exact H.
    + reflexivity.
  - intros pre old post E H I.
    erewrite (delete_invoice_run id pre
                (post ++ [{| date := d; amount := a;
                             description := PyStr desc;
                             invoice_id := PyStr id |}]) old).
    + reflexivity.
    + cbn [self invoices append_invoice set_invoices]. rewrite E.
      now rewrite <- app_assoc.
    + exact H.
    + exact I.
Qed.

Lemma add_then_delete_by_id_witness :
  add_then_delete jan_15_2024 12.5 "new" "A-9"
    {| self := sample_ledger; fs := empty_fs |}
  = invoices sample_ledger /\
  add_then_delete jan_15_2024 12.5 "new" "A-2"
    {| self := duplicate_ids_ledger; fs := empty_fs |}
  = [a1; second_a2;
     {| date := jan_15_2024; amount := 12.5; description := PyStr "new";
        invoice_id := PyStr "A-2" |}].
Proof.
  split.
  - apply (proj1 (add_then_delete_by_id jan_15_2024 12.5 "new" "A-9"
                    {| self := sample_ledger; fs := empty_fs |})).
    intros x [<- | [<- | [<- | []]]]; discriminate.
  - apply (proj2 (add_then_delete_by_id jan_15_2024 12.5 "new" "A-2"
                    {| self := duplicate_ids_ledger; fs := empty_fs |})
             [a1] first_a2 [second_a2]).
    + reflexivity.
    + intros x [<- | []]. discriminate.
    + reflexivity.
Defined.
